(** * SCImago journal-rank loader: a shallow embedding of
      [load_journal_data_to_bq.py] and the properties of its specification.

    The script reads a semicolon-delimited CSV export, keeps two columns
    ([Title], [SJR]), and replaces a BigQuery table with the result.  The
    embedding follows the script function by function.  The Python runtime
    pieces the script calls ([str.strip], [str.replace], [float], [csv.reader],
    [csv.DictReader]) are embedded from CPython's definitions; the BigQuery
    client, the file system and the console are events answered by the
    environment. *)

From Stdlib Require Import ZArith NArith List Bool String Ascii Lia.
From Stdlib Require Import Floats.SpecFloat.
From stdpp Require Import base option list gmap.
Import ListNotations.

Local Open Scope N_scope.

(** ** Python [str]: a sequence of Unicode code points *)

Abbreviation pystr := (list N).

Module PyStr.

(** An ASCII literal as a [str]. *)
Definition lit (s : string) : pystr :=
  map N_of_ascii (list_ascii_of_string s).

(** [_PyUnicode_IsWhitespace]: the code points [str.isspace] accepts and
    [str.strip()] removes. *)
Definition is_whitespace (ch : N) : bool :=
  ((0x09 <=? ch) && (ch <=? 0x0D)) || ((0x1C <=? ch) && (ch <=? 0x20))
  || (ch =? 0x85) || (ch =? 0xA0) || (ch =? 0x1680)
  || ((0x2000 <=? ch) && (ch <=? 0x200A))
  || (ch =? 0x2028) || (ch =? 0x2029) || (ch =? 0x202F)
  || (ch =? 0x205F) || (ch =? 0x3000).

(** [s.lstrip()], [s.rstrip()], [s.strip()] with no argument. *)
Fixpoint lstrip (s : pystr) : pystr :=
  match s with
  | ch :: r => if is_whitespace ch then lstrip r else s
  | [] => []
  end.

Definition rstrip (s : pystr) : pystr := rev (lstrip (rev s)).

Definition strip (s : pystr) : pystr := rstrip (lstrip s).

(** [s.replace(old, new)] for one-character [old] and [new]: every
    occurrence is replaced. *)
Definition replace (old new : N) (s : pystr) : pystr :=
  map (fun ch => if ch =? old then new else ch) s.

Definition comma : N := 0x2C.
Definition period : N := 0x2E.

End PyStr.

(** ** Python [float(str)] on binary64 *)

Module PyFloat.

(** A Python float is an IEEE 754 binary64 value. *)
Abbreviation float := spec_float.

Definition prec : Z := 53.
Definition emax : Z := 1024.

Definition zero : float := S754_zero false.


(** Zero digits of the decimal-digit scripts of the Unicode database
    (general category Nd); each is followed by the digits one to nine. *)
Definition decimal_zeros : list N :=
  [ 0x30; 0x660; 0x6F0; 0x7C0; 0x966; 0x9E6; 0xA66; 0xAE6; 0xB66; 0xBE6;
    0xC66; 0xCE6; 0xD66; 0xDE6; 0xE50; 0xED0; 0xF20; 0x1040; 0x1090;
    0x17E0; 0x1810; 0x1946; 0x19D0; 0x1A80; 0x1A90; 0x1B50; 0x1BB0;
    0x1C40; 0x1C50; 0xA620; 0xA8D0; 0xA900; 0xA9D0; 0xA9F0; 0xAA50;
    0xABF0; 0xFF10; 0x104A0; 0x10D30; 0x11066; 0x110F0; 0x11136; 0x111D0;
    0x112F0; 0x11450; 0x114D0; 0x11650; 0x116C0; 0x11730; 0x118E0;
    0x11950; 0x11C50; 0x11D50; 0x11DA0; 0x16A60; 0x16AC0; 0x16B50;
    0x1D7CE; 0x1D7D8; 0x1D7E2; 0x1D7EC; 0x1D7F6; 0x1E140; 0x1E2F0;
    0x1E950; 0x1FBF0 ].

(** [Py_UNICODE_TODECIMAL]. *)
Definition to_decimal (ch : N) : option N :=
  match List.find (fun z => (z <=? ch) && (ch <? z + 10)) decimal_zeros with
  | Some z => Some (ch - z)
  | None => None
  end.

(** [_PyUnicode_TransformDecimalAndSpaceToASCII]: an ASCII string is
    returned as it is; otherwise spaces become [' '], decimal digits
    their ASCII digit, and the result stops at a ['?'] put for the
    first other non-ASCII character. *)
Fixpoint transform_chars (s : pystr) : pystr :=
  match s with
  | [] => []
  | ch :: r =>
      if ch <? 127 then ch :: transform_chars r
      else if PyStr.is_whitespace ch then 0x20 :: transform_chars r
      else match to_decimal ch with
           | Some d => (0x30 + d) :: transform_chars r
           | None => [0x3F]
           end
  end.

Definition transform_decimal_and_space_to_ascii (s : pystr) : pystr :=
  if forallb (fun ch => ch <? 128) s then s else transform_chars s.

(** [Py_ISSPACE], [Py_ISDIGIT] (ASCII only). *)
Definition Py_ISSPACE (c : N) : bool :=
  ((0x09 <=? c) && (c <=? 0x0D)) || (c =? 0x20).

Definition Py_ISDIGIT (c : N) : bool := (0x30 <=? c) && (c <=? 0x39).

Fixpoint skip_leading_space (s : pystr) : pystr :=
  match s with
  | c :: r => if Py_ISSPACE c then skip_leading_space r else s
  | [] => []
  end.

(** [while (s < last - 1 && Py_ISSPACE(last[-1])) last--], on the
    reversed string. *)
Fixpoint skip_trailing_space_rev (r : pystr) : pystr :=
  match r with
  | c :: (_ :: _) as r' => if Py_ISSPACE c then skip_trailing_space_rev r' else r
  | _ => r
  end.

(** [_Py_string_to_number_with_underscores]: an underscore is allowed
    only between two digits; [prev] is the previous character. *)
Fixpoint strip_underscores (prev : N) (s : pystr) : option pystr :=
  match s with
  | [] => if prev =? 0x5F then None else Some []
  | p :: r =>
      if p =? 0x5F then
        if Py_ISDIGIT prev then strip_underscores p r else None
      else if (prev =? 0x5F) && negb (Py_ISDIGIT p) then None
      else cons p <$> strip_underscores p r
  end.

(** Longest prefix of ASCII digits and the rest. *)
Fixpoint span_digits (s : pystr) : pystr * pystr :=
  match s with
  | c :: r =>
      if Py_ISDIGIT c then let '(ds, t) := span_digits r in (c :: ds, t)
      else ([], s)
  | [] => ([], [])
  end.

(** The natural number a string of ASCII digits denotes. *)
Definition digits_value (ds : pystr) : Z :=
  fold_left (fun acc c => (10 * acc + (Z.of_N c - 48))%Z) ds 0%Z.

Fixpoint lstrip_zeros (ds : pystr) : pystr :=
  match ds with
  | 0x30 :: r => lstrip_zeros r
  | _ => ds
  end.

Definition parse_sign (s : pystr) : bool * pystr :=
  match s with
  | 0x2D :: r => (true, r)
  | 0x2B :: r => (false, r)
  | _ => (false, s)
  end.

Definition MAX_DIGITS : Z := 1000000000.
Definition MAX_ABS_EXP : Z := 1100000000.

(** The exponent part of [_Py_dg_strtod]: [s] starts after the mantissa;
    the result is the exponent and the unparsed rest.  An ['e'] with no
    digit after it is not consumed. *)
Definition parse_exponent (s : pystr) : Z * pystr :=
  match s with
  | c :: r =>
      if (c =? 0x65) || (c =? 0x45) then
        let '(esign, r1) := parse_sign r in
        let '(ds, rest) := span_digits r1 in
        match ds with
        | [] => (0%Z, s)
        | _ =>
            let sig := lstrip_zeros ds in
            let abs_exp := digits_value ds in
            let e := if (9 <? Z.of_nat (length sig))%Z || (MAX_ABS_EXP <? abs_exp)%Z
                     then MAX_ABS_EXP else abs_exp in
            ((if esign then - e else e)%Z, rest)
        end
      else (0%Z, s)
  | [] => (0%Z, [])
  end.

(** The decimal a numeric string denotes: sign, digits [d] and
    exponent [e] for the value [(-1)^sign * d * 10^e]. *)
Record decimal := { dec_sign : bool; dec_digits : Z; dec_exp : Z }.

(** The parse of [_Py_dg_strtod]: optional sign, digits, optional point
    and digits, optional exponent; at least one digit.  [None] is its
    parse error (nothing consumed). *)
Definition parse_decimal (s : pystr) : option (decimal * pystr) :=
  let '(sign, s1) := parse_sign s in
  let '(ip, s2) := span_digits s1 in
  let '(fp, s3) :=
    match s2 with
    | 0x2E :: r => span_digits r
    | _ => ([], s2)
    end in
  match ip ++ fp with
  | [] => None
  | ds =>
      let ndigits := Z.of_nat (length (lstrip_zeros ds)) in
      let fraclen := Z.of_nat (length fp) in
      if (MAX_DIGITS <? ndigits)%Z || (MAX_DIGITS <? fraclen)%Z then None
      else
        let '(e, rest) := parse_exponent s3 in
        Some ({| dec_sign := sign; dec_digits := digits_value ds;
                 dec_exp := (e - Z.of_nat (length fp))%Z |}, rest)
  end.

(** The binary64 nearest to [(-1)^sign * d * 10^e], ties to even;
    beyond the largest finite value it is an infinity, below half the
    smallest subnormal a zero ([_Py_dg_strtod] is correctly rounded). *)
Definition round_decimal (x : decimal) : float :=
  let s := dec_sign x in
  match dec_digits x with
  | Zpos d =>
      match dec_exp x with
      | Zneg n =>
          let '(q, e2, loc) :=
            SFdiv_core_binary prec emax (Zpos d) 0 (Zpos (10 ^ n)) 0 in
          binary_round_aux prec emax s q e2 loc
      | e => binary_round prec emax s (d * Z.to_pos (10 ^ e)) 0
      end
  | _ => S754_zero s
  end.

Definition lower (c : N) : N :=
  if (0x41 <=? c) && (c <=? 0x5A) then c + 32 else c.

(** [case_insensitive_match]: [s] starts with the lower-case [t]. *)
Fixpoint match_prefix (t s : pystr) : option pystr :=
  match t, s with
  | [], _ => Some s
  | a :: t', c :: s' => if lower c =? a then match_prefix t' s' else None
  | _ :: _, [] => None
  end.

(** [_Py_parse_inf_or_nan]: optional sign, then [inf], [infinity] or
    [nan] in any letter case. *)
Definition parse_inf_or_nan (s : pystr) : option (float * pystr) :=
  let '(negate, s1) := parse_sign s in
  match match_prefix (PyStr.lit "inf") s1 with
  | Some r =>
      let r' := match match_prefix (PyStr.lit "inity") r with
                | Some r2 => r2
                | None => r
                end in
      Some (S754_infinity negate, r')
  | None =>
      match match_prefix (PyStr.lit "nan") s1 with
      | Some r => Some (S754_nan, r)
      | None => None
      end
  end.

(** [PyOS_string_to_double] as [float_from_string_inner] calls it (no
    overflow exception: a value out of range is an infinity), followed
    by the check that the whole string was consumed. *)
Definition float_from_string_inner (s : pystr) : option float :=
  let r := match parse_decimal s with
           | Some (x, rest) => Some (round_decimal x, rest)
           | None => parse_inf_or_nan s
           end in
  match r with
  | Some (x, []) => Some x
  | _ => None
  end.

Definition string_to_number_with_underscores (s : pystr) : option float :=
  if existsb (N.eqb 0x5F) s then
    match strip_underscores 0 s with
    | Some s' => float_from_string_inner s'
    | None => None
    end
  else float_from_string_inner s.

(** [float(s)] for a [str]; [None] is [ValueError]. *)
Definition float_of_str (s : pystr) : option float :=
  let a := transform_decimal_and_space_to_ascii s in
  match skip_leading_space a with
  | [] => None
  | s1 => string_to_number_with_underscores (rev (skip_trailing_space_rev (rev s1)))
  end.

End PyFloat.

(** ** Exceptions and results *)

(** The exceptions of the run that derive from [Exception].  [ValueError]
    from [float] is raised and caught inside the loop body and is the
    [None] of [PyFloat.float_of_str]. *)
Inductive exn :=
| KeyError (key : pystr)
| AttributeError (type_name : string)
| CsvError (msg : string)
| EnvError (name : string).

Inductive result (A : Type) :=
| Ok (a : A)
| Raise (e : exn).
Arguments Ok {A} a.
Arguments Raise {A} e.

(** ** The [csv] module: [csv.reader] and [csv.DictReader] *)

Module Csv.

(** Text-mode [open] with the default [newline=None]: each of
    ["\r\n"], ["\r"] and ["\n"] is read as ["\n"]. *)
Fixpoint universal_newlines (s : pystr) : pystr :=
  match s with
  | 0x0D :: r =>
      0x0A :: match r with
              | 0x0A :: r' => universal_newlines r'
              | _ => universal_newlines r
              end
  | c :: r => c :: universal_newlines r
  | [] => []
  end.

(** Iterating the file: lines, each with its final ["\n"] (the last
    line may have none). *)
Fixpoint split_lines (s : pystr) : list pystr :=
  match s with
  | [] => []
  | c :: r =>
      if c =? 0x0A then [c] :: split_lines r
      else match split_lines r with
           | [] => [[c]]
           | l :: ls => (c :: l) :: ls
           end
  end.

(** The lines the reader is given: the file object iterated in text
    mode. *)
Definition file_lines (text : pystr) : list pystr :=
  split_lines (universal_newlines text).

(** The dialect of [csv.DictReader(file, delimiter=';')]: [excel] with
    the delimiter replaced.  Its [escapechar] is [None] and
    [skipinitialspace] is false, so the parser states and branches for
    them are never taken and are left out below; [doublequote] is true,
    [strict] is false and [quoting] is [QUOTE_MINIMAL]. *)
Definition delimiter : N := 0x3B.
Definition quotechar : N := 0x22.
Definition field_limit : N := 131072.

Inductive ParserState :=
| START_RECORD | START_FIELD | IN_FIELD | IN_QUOTED_FIELD
| QUOTE_IN_QUOTED_FIELD | EAT_CRNL.

(** The fields of [ReaderObj] the parser uses. *)
Record Reader := {
  state : ParserState;
  fields : list pystr;
  field : pystr
}.

Definition set_state (st : ParserState) (r : Reader) : Reader :=
  {| state := st; fields := fields r; field := field r |}.

(** [parse_save_field]. *)
Definition parse_save_field (r : Reader) : Reader :=
  {| state := state r; fields := fields r ++ [field r]; field := [] |}.

(** [parse_add_char]. *)
Definition parse_add_char (r : Reader) (c : N) : result Reader :=
  if field_limit <=? N.of_nat (length (field r)) then
    Raise (CsvError "field larger than field limit (131072)")
  else Ok {| state := state r; fields := fields r; field := field r ++ [c] |}.

Definition is_newline (c : option N) : bool :=
  match c with
  | Some ch => (ch =? 0x0A) || (ch =? 0x0D)
  | None => false
  end.

Definition after_line (c : option N) : ParserState :=
  match c with
  | None => START_RECORD
  | Some _ => EAT_CRNL
  end.

(** [parse_process_char]; the end of a line, [EOL], is [None]. *)
Definition parse_process_char (r : Reader) (c : option N) : result Reader :=
  let start_field (r : Reader) :=
    match c with
    | None => Ok (set_state START_RECORD (parse_save_field r))
    | Some ch =>
        if is_newline c then Ok (set_state EAT_CRNL (parse_save_field r))
        else if ch =? quotechar then Ok (set_state IN_QUOTED_FIELD r)
        else if ch =? delimiter then Ok (parse_save_field r)
        else match parse_add_char r ch with
             | Ok r' => Ok (set_state IN_FIELD r')
             | Raise e => Raise e
             end
    end in
  match state r with
  | START_RECORD =>
      match c with
      | None => Ok r
      | Some _ =>
          if is_newline c then Ok (set_state EAT_CRNL r)
          else start_field (set_state START_FIELD r)
      end
  | START_FIELD => start_field r
  | IN_FIELD =>
      match c with
      | None => Ok (set_state START_RECORD (parse_save_field r))
      | Some ch =>
          if is_newline c then Ok (set_state EAT_CRNL (parse_save_field r))
          else if ch =? delimiter then Ok (set_state START_FIELD (parse_save_field r))
          else parse_add_char r ch
      end
  | IN_QUOTED_FIELD =>
      match c with
      | None => Ok r
      | Some ch =>
          if ch =? quotechar then Ok (set_state QUOTE_IN_QUOTED_FIELD r)
          else parse_add_char r ch
      end
  | QUOTE_IN_QUOTED_FIELD =>
      match c with
      | None => Ok (set_state START_RECORD (parse_save_field r))
      | Some ch =>
          if ch =? quotechar then
            match parse_add_char r ch with
            | Ok r' => Ok (set_state IN_QUOTED_FIELD r')
            | Raise e => Raise e
            end
          else if ch =? delimiter then Ok (set_state START_FIELD (parse_save_field r))
          else if is_newline c then Ok (set_state EAT_CRNL (parse_save_field r))
          else match parse_add_char r ch with
               | Ok r' => Ok (set_state IN_FIELD r')
               | Raise e => Raise e
               end
      end
  | EAT_CRNL =>
      match c with
      | None => Ok (set_state START_RECORD r)
      | Some _ =>
          if is_newline c then Ok r
          else Raise (CsvError "new-line character seen in unquoted field - do you need to open the file with newline=''?")
      end
  end.

(** The characters of one line, then [EOL]. *)
Fixpoint parse_line (r : Reader) (line : pystr) : result Reader :=
  match line with
  | [] => parse_process_char r None
  | c :: rest =>
      match parse_process_char r (Some c) with
      | Ok r' => parse_line r' rest
      | Raise e => Raise e
      end
  end.

(** [parse_reset]. *)
Definition parse_reset : Reader :=
  {| state := START_RECORD; fields := []; field := [] |}.

Definition pending (r : Reader) : bool :=
  negb (N.of_nat (length (field r)) =? 0)
  || match state r with IN_QUOTED_FIELD => true | _ => false end.

(** The rows the successive calls of [Reader_iternext] return, and the
    error that ends the iteration if one does.  A call reads lines
    until the parser is back in [START_RECORD]; at the end of the input
    a pending field (or an open quote) is saved as a last row; the
    next call starts from [parse_reset]. *)
Fixpoint rows_from (r : Reader) (lines : list pystr) : list (list pystr) * option exn :=
  match lines with
  | [] => if pending r then ([fields (parse_save_field r)], None) else ([], None)
  | line :: rest =>
      match parse_line r line with
      | Raise e => ([], Some e)
      | Ok r' =>
          match state r' with
          | START_RECORD =>
              let '(rows, e) := rows_from parse_reset rest in (fields r' :: rows, e)
          | _ => rows_from r' rest
          end
      end
  end.

Definition reader (lines : list pystr) : list (list pystr) * option exn :=
  rows_from parse_reset lines.

(** A value of a [DictReader] row: a field, [restval] ([None]) for a
    column a short row does not reach, or the list of surplus fields
    stored under [restkey]. *)
Inductive value :=
| VStr (s : pystr)
| VNone
| VList (l : list pystr).

(** A row dictionary; the key [None] is [restkey]. *)
Abbreviation row_dict := (gmap (option pystr) value).

(** [dict(zip(fieldnames, row))]: a later duplicate name overwrites. *)
Fixpoint dict_zip (fieldnames row : list pystr) (d : row_dict) : row_dict :=
  match fieldnames, row with
  | k :: ks, v :: vs => dict_zip ks vs (<[Some k := VStr v]> d)
  | _, _ => d
  end.

(** The dictionary [DictReader.__next__] builds from a non-empty row. *)
Definition make_row (fieldnames row : list pystr) : row_dict :=
  let d := dict_zip fieldnames row ∅ in
  let lf := length fieldnames in
  let lr := length row in
  if (lf <? lr)%nat then <[None := VList (drop lf row)]> d
  else if (lr <? lf)%nat then
    fold_left (fun d key => <[Some key := VNone]> d) (drop lr fieldnames) d
  else d.

Definition nonempty_row (row : list pystr) : bool :=
  match row with [] => false | _ => true end.

(** [csv.DictReader]: the first row the reader returns is [fieldnames]
    (even an empty one); of the rows after it the empty ones are
    skipped and each other one becomes a dictionary.  The result is the
    dictionaries the iteration yields and the error that ends it, if
    one does. *)
Definition DictReader (lines : list pystr) : list row_dict * option exn :=
  match reader lines with
  | ([], e) => ([], e)
  | (fieldnames :: rows, e) =>
      (map (make_row fieldnames) (List.filter nonempty_row rows), e)
  end.

End Csv.

(** ** Data of the script *)

(** The dictionaries [{'title': title, 'sjr': sjr}] the extractor appends. *)
Record journal := { title : pystr; sjr : PyFloat.float }.

(** A formatted string: the literal parts of an f-string and the values
    put in its replacement fields. *)
Inductive frag :=
| FLit (s : string)
| FStr (s : pystr)
| FInt (n : Z)
| FFloat (x : PyFloat.float).

Abbreviation message := (list frag).

Record SchemaField := { field_name : string; field_type : string; mode : string }.

Inductive WriteDisposition := WRITE_TRUNCATE | WRITE_APPEND | WRITE_EMPTY.

Record LoadJobConfig := {
  schema : list SchemaField;
  write_disposition : WriteDisposition
}.

(** The load job [load_table_from_json] starts. *)
Record LoadJob := {
  job_rows : list journal;
  job_destination : pystr;
  job_config : LoadJobConfig
}.

(** The part of [bigquery.Table] the script reads back. *)
Record TableInfo := { num_rows : Z }.

(** The arguments [argparse] hands to [main]. *)
Record Args := {
  project_id : pystr;
  dataset_id : pystr;
  table_id : pystr;
  csv_file : pystr
}.

(** ** Programs over the environment *)

(** What the script asks of its environment.  A call that can raise
    answers with a [result]. *)
Inductive event : Type -> Type :=
| Print (m : message) : event unit
| PathExists (path : pystr) : event bool
| ReadText (path : pystr) : event (result pystr)
| NewClient (project : pystr) : event (result unit)
| NewTable (table_ref : pystr) (sch : list SchemaField) : event (result unit)
| DeleteTable (table_ref : pystr) : event (result unit)
| CreateTable (table_ref : pystr) (sch : list SchemaField) : event (result unit)
| LoadTableFromJson (rows : list journal) (table_ref : pystr) (cfg : LoadJobConfig)
    : event (result LoadJob)
| JobResult (job : LoadJob) : event (result unit)
| GetTable (table_ref : pystr) : event (result TableInfo).

(** A program: it returns, raises an exception, leaves through
    [sys.exit], or asks the environment and goes on with the answer. *)
Inductive prog (R : Type) : Type :=
| Ret (r : R)
| Throw (e : exn)
| Exit (code : Z)
| Vis {X : Type} (ev : event X) (k : X -> prog R).
Arguments Ret {R} r.
Arguments Throw {R} e.
Arguments Exit {R} code.
Arguments Vis {R X} ev k.

Fixpoint bind {A B : Type} (p : prog A) (f : A -> prog B) : prog B :=
  match p with
  | Ret a => f a
  | Throw e => Throw e
  | Exit c => Exit c
  | Vis ev k => Vis ev (fun x => bind (k x) f)
  end.

#[global] Instance prog_ret : MRet prog := @Ret.
#[global] Instance prog_bind : MBind prog := fun A B f p => bind p f.

(** An environment call whose answer is used as it is. *)
Definition trigger {X : Type} (ev : event X) : prog X := Vis ev Ret.

(** An environment call that may raise. *)
Definition call {X : Type} (ev : event (result X)) : prog X :=
  Vis ev (fun r => match r with Ok x => Ret x | Raise e => Throw e end).

(** A pure step that may raise. *)
Definition lift {X : Type} (r : result X) : prog X :=
  match r with Ok x => Ret x | Raise e => Throw e end.

(** [try: p  except Exception: h].  [SystemExit] is not an [Exception]
    and passes through. *)
Fixpoint try_except {R : Type} (p : prog R) (h : exn -> prog R) : prog R :=
  match p with
  | Ret r => Ret r
  | Throw e => h e
  | Exit c => Exit c
  | Vis ev k => Vis ev (fun x => try_except (k x) h)
  end.

(** [for x in l: body x]. *)
Fixpoint for_each {A : Type} (l : list A) (body : A -> prog unit) : prog unit :=
  match l with
  | [] => Ret tt
  | x :: l' => body x;; for_each l' body
  end.

(** ** The script *)

Module Script.
Import PyStr Csv.

(** [row[key]]. *)
Definition getitem (row : row_dict) (key : string) : result value :=
  match row !! Some (lit key) with
  | Some v => Ok v
  | None => Raise (KeyError (lit key))
  end.

(** [v.strip()]: only a [str] has the method. *)
Definition strip_method (v : value) : result pystr :=
  match v with
  | VStr s => Ok (strip s)
  | VNone => Raise (AttributeError "NoneType")
  | VList _ => Raise (AttributeError "list")
  end.

Definition warning (sjr_str title : pystr) : message :=
  [FLit "Warning: Could not parse SJR value '"; FStr sjr_str;
   FLit "' for journal '"; FStr title; FLit "'"].

(** The body of the loop of [process_scimagojr_csv]: the record of one
    row. *)
Definition process_row (row : row_dict) : prog journal :=
  title_v ← lift (getitem row "Title");
  title ← lift (strip_method title_v);
  sjr_v ← lift (getitem row "SJR");
  sjr_str ← lift (strip_method sjr_v);
  sjr ← match PyFloat.float_of_str (replace comma period sjr_str) with
        | Some x => Ret x
        | None => trigger (Print (warning sjr_str title));; Ret PyFloat.zero
        end;
  Ret {| title := title; sjr := sjr |}.

(** The loop: [journals] is the list built so far. *)
Fixpoint process_rows (rows : list row_dict) (journals : list journal)
  : prog (list journal) :=
  match rows with
  | [] => Ret journals
  | row :: rest =>
      j ← process_row row;
      process_rows rest (journals ++ [j])
  end.

(** The extractor on the text of the file. *)
Definition process_text (text : pystr) : prog (list journal) :=
  let '(rows, err) := DictReader (file_lines text) in
  journals ← process_rows rows [];
  match err with
  | None => Ret journals
  | Some e => Throw e
  end.

(** [process_scimagojr_csv]: the file is opened and decoded as UTF-8
    text ([ReadText]), then read row by row. *)
Definition process_scimagojr_csv (csv_file_path : pystr) : prog (list journal) :=
  text ← call (ReadText csv_file_path);
  process_text text.

Definition table_schema : list SchemaField :=
  [ {| field_name := "title"; field_type := "STRING"; mode := "REQUIRED" |};
    {| field_name := "sjr"; field_type := "FLOAT64"; mode := "REQUIRED" |} ].

(** [f"{project_id}.{dataset_id}.{table_id}"]. *)
Definition table_ref_of (project_id dataset_id table_id : pystr) : pystr :=
  project_id ++ lit "." ++ dataset_id ++ lit "." ++ table_id.

(** [create_bigquery_table]. *)
Definition create_bigquery_table (project_id dataset_id table_id : pystr)
  : prog pystr :=
  call (NewClient project_id);;
  let table_ref := table_ref_of project_id dataset_id table_id in
  call (NewTable table_ref table_schema);;
  try_except
    (call (DeleteTable table_ref);;
     trigger (Print [FLit "Deleted existing table "; FStr table_ref]))
    (fun _ => Ret tt);;
  call (CreateTable table_ref table_schema);;
  trigger (Print [FLit "Created table "; FStr table_ref]);;
  Ret table_ref.

(** [load_data_to_bigquery]. *)
Definition load_data_to_bigquery (project_id dataset_id table_id : pystr)
    (journals_data : list journal) : prog unit :=
  call (NewClient project_id);;
  let table_ref := table_ref_of project_id dataset_id table_id in
  let job_config :=
    {| schema := table_schema; write_disposition := WRITE_TRUNCATE |} in
  job ← call (LoadTableFromJson journals_data table_ref job_config);
  call (JobResult job);;
  table ← call (GetTable table_ref);
  trigger (Print [FLit "Loaded "; FInt (num_rows table); FLit " rows into ";
                  FStr table_ref]).

Definition newline : frag := FStr [0x0A].

(** [main], from the parsed arguments on. *)
Definition main (args : Args) : prog unit :=
  found ← trigger (PathExists (csv_file args));
  (if negb found then
     trigger (Print [FLit "Error: CSV file '"; FStr (csv_file args);
                     FLit "' not found"]);;
     Exit 1
   else Ret tt);;
  trigger (Print [FLit "Processing CSV file: "; FStr (csv_file args)]);;
  journals ← process_scimagojr_csv (csv_file args);
  trigger (Print [FLit "Extracted "; FInt (Z.of_nat (length journals));
                  FLit " journal entries"]);;
  trigger (Print [newline; FLit "Sample data (first 5 entries):"]);;
  for_each (take 5 journals) (fun journal =>
    trigger (Print [FLit "  "; FStr (title journal); FLit ": ";
                    FFloat (sjr journal)]));;
  trigger (Print [newline; FLit "Creating BigQuery table..."]);;
  create_bigquery_table (project_id args) (dataset_id args) (table_id args);;
  trigger (Print [FLit "Loading data into BigQuery..."]);;
  load_data_to_bigquery (project_id args) (dataset_id args) (table_id args) journals;;
  trigger (Print [newline; FLit "Done! Journal data has been loaded into BigQuery."]);;
  trigger (Print [newline; FLit "To update your application to use this new table:"]);;
  trigger (Print [FLit "1. Update the query in fetch_journal_impact_data() in main.py to use '";
                  FStr (table_id args); FLit "' instead of 'scimagojr_2023'"]);;
  trigger (Print [FLit "2. Redeploy the Cloud Function"]).

End Script.

(** ** Running a program in an environment *)

(** How a run ends: the process exit status is 0 for [Returned], the
    code of [sys.exit] for [Exited], and 1 for an uncaught exception. *)
Inductive outcome (R : Type) :=
| Returned (r : R)
| Uncaught (e : exn)
| Exited (code : Z).
Arguments Returned {R} r.
Arguments Uncaught {R} e.
Arguments Exited {R} code.

Definition exit_status {R : Type} (o : outcome R) : Z :=
  match o with
  | Returned _ => 0
  | Uncaught _ => 1
  | Exited code => code
  end.

(** One entry of the log of a run: an environment call and its answer. *)
Inductive entry :=
| EPrint (m : message)
| EPathExists (path : pystr) (answer : bool)
| EReadText (path : pystr) (answer : result pystr)
| ENewClient (project : pystr) (answer : result unit)
| ENewTable (table_ref : pystr) (sch : list SchemaField) (answer : result unit)
| EDeleteTable (table_ref : pystr) (answer : result unit)
| ECreateTable (table_ref : pystr) (sch : list SchemaField) (answer : result unit)
| ELoadTableFromJson (rows : list journal) (table_ref : pystr) (cfg : LoadJobConfig)
    (answer : result LoadJob)
| EJobResult (job : LoadJob) (answer : result unit)
| EGetTable (table_ref : pystr) (answer : result TableInfo).

Definition log_entry {X : Type} (ev : event X) : X -> entry :=
  match ev in event X return X -> entry with
  | Print m => fun _ => EPrint m
  | PathExists p => EPathExists p
  | ReadText p => EReadText p
  | NewClient p => ENewClient p
  | NewTable t s => ENewTable t s
  | DeleteTable t => EDeleteTable t
  | CreateTable t s => ECreateTable t s
  | LoadTableFromJson rows t cfg => ELoadTableFromJson rows t cfg
  | JobResult j => EJobResult j
  | GetTable t => EGetTable t
  end.

(** An environment: a state and an answer to every call. *)
Definition handler (W : Type) : Type := forall X : Type, event X -> W -> X * W.

(** The run of a program: its outcome, the log of its calls and the
    state of the environment at the end. *)
Fixpoint run {W R : Type} (h : handler W) (p : prog R) (w : W)
  : outcome R * list entry * W :=
  match p with
  | Ret r => (Returned r, [], w)
  | Throw e => (Uncaught e, [], w)
  | Exit c => (Exited c, [], w)
  | Vis ev k =>
      let '(x, w1) := h _ ev w in
      let '(o, log, w2) := run h (k x) w1 in
      (o, log_entry ev x :: log, w2)
  end.

(** ** A reference environment: files, console and warehouse *)

Module Env.

Record Table := { table_schema : list SchemaField; table_rows : list journal }.

(** [faults] scripts the failures of the calls that can raise: each
    such call takes the head of the list and raises it if it is an
    exception. *)
Record World := {
  files : gmap pystr pystr;
  tables : gmap pystr Table;
  console : list message;
  faults : list (option exn)
}.

Definition set_tables (ts : gmap pystr Table) (w : World) : World :=
  {| files := files w; tables := ts; console := console w; faults := faults w |}.

Definition set_faults (fs : list (option exn)) (w : World) : World :=
  {| files := files w; tables := tables w; console := console w; faults := fs |}.

Definition fallible {X : Type} (w : World) (k : World -> result X * World)
  : result X * World :=
  match faults w with
  | Some e :: fs => (Raise e, set_faults fs w)
  | None :: fs => k (set_faults fs w)
  | [] => k w
  end.

(** The effect of a load job that completes, by write disposition. *)
Definition write_rows (job : LoadJob) (w : World) : result unit * World :=
  let dest := job_destination job in
  let fresh := {| table_schema := schema (job_config job);
                  table_rows := job_rows job |} in
  match write_disposition (job_config job), tables w !! dest with
  | WRITE_TRUNCATE, _ | _, None => (Ok tt, set_tables (<[dest := fresh]> (tables w)) w)
  | WRITE_APPEND, Some t =>
      (Ok tt, set_tables (<[dest := {| table_schema := table_schema t;
                                       table_rows := table_rows t ++ job_rows job |}]>
                            (tables w)) w)
  | WRITE_EMPTY, Some t =>
      match table_rows t with
      | [] => (Ok tt, set_tables (<[dest := fresh]> (tables w)) w)
      | _ => (Raise (EnvError "Conflict"), w)
      end
  end.

Definition step : handler World := fun X ev =>
  match ev in event X return World -> X * World with
  | Print m => fun w =>
      (tt, {| files := files w; tables := tables w;
              console := console w ++ [m]; faults := faults w |})
  | PathExists p => fun w => (bool_decide (is_Some (files w !! p)), w)
  | ReadText p => fun w =>
      fallible w (fun w =>
        match files w !! p with
        | Some text => (Ok text, w)
        | None => (Raise (EnvError "FileNotFoundError"), w)
        end)
  | NewClient _ => fun w => fallible w (fun w => (Ok tt, w))
  | NewTable _ _ => fun w => fallible w (fun w => (Ok tt, w))
  | DeleteTable t => fun w =>
      fallible w (fun w =>
        match tables w !! t with
        | Some _ => (Ok tt, set_tables (delete t (tables w)) w)
        | None => (Raise (EnvError "NotFound"), w)
        end)
  | CreateTable t sch => fun w =>
      fallible w (fun w =>
        match tables w !! t with
        | Some _ => (Raise (EnvError "Conflict"), w)
        | None =>
            (Ok tt, set_tables (<[t := {| table_schema := sch; table_rows := [] |}]>
                                  (tables w)) w)
        end)
  | LoadTableFromJson rows t cfg => fun w =>
      fallible w (fun w =>
        (Ok {| job_rows := rows; job_destination := t; job_config := cfg |}, w))
  | JobResult job => fun w => fallible w (write_rows job)
  | GetTable t => fun w =>
      fallible w (fun w =>
        match tables w !! t with
        | Some tb => (Ok {| num_rows := Z.of_nat (length (table_rows tb)) |}, w)
        | None => (Raise (EnvError "NotFound"), w)
        end)
  end.

End Env.

(** ** The extractor without its environment *)

Module Pure.
Import PyStr Csv Script.

(** The record of a row and the warning printed for it, if any. *)
Definition convert (row : row_dict) : result (journal * option message) :=
  match getitem row "Title" with
  | Raise e => Raise e
  | Ok title_v =>
  match strip_method title_v with
  | Raise e => Raise e
  | Ok title =>
  match getitem row "SJR" with
  | Raise e => Raise e
  | Ok sjr_v =>
  match strip_method sjr_v with
  | Raise e => Raise e
  | Ok sjr_str =>
      match PyFloat.float_of_str (replace comma period sjr_str) with
      | Some x => Ok ({| title := title; sjr := x |}, None)
      | None => Ok ({| title := title; sjr := PyFloat.zero |},
                    Some (warning sjr_str title))
      end
  end end end end.

(** The records and warnings of the rows up to the first row that
    raises, and its exception. *)
Fixpoint convert_rows (rows : list row_dict)
  : list (journal * option message) * option exn :=
  match rows with
  | [] => ([], None)
  | row :: rest =>
      match convert row with
      | Raise e => ([], Some e)
      | Ok jm => let '(jms, e) := convert_rows rest in (jm :: jms, e)
      end
  end.

(** The data rows of a text: the dictionaries [DictReader] yields. *)
Definition data_rows (text : pystr) : list row_dict :=
  (DictReader (file_lines text)).1.

(** The records of a text, when the extractor returns. *)
Definition extract (text : pystr) : result (list journal) :=
  let '(rows, err) := DictReader (file_lines text) in
  match convert_rows rows, err with
  | (jms, None), None => Ok (jms.*1)
  | (_, Some e), _ | (_, None), Some e => Raise e
  end.

(** The state of the environment after it has printed [ms]. *)
Definition printed {W : Type} (h : handler W) (ms : list message) (w : W) : W :=
  fold_left (fun w m => (h _ (Print m) w).2) ms w.

Definition warnings (jms : list (journal * option message)) : list message :=
  omap snd jms.

(** The field of a row under a column name, when the row has a string
    there. *)
Definition field_of (row : row_dict) (key : string) : option pystr :=
  match row !! Some (lit key) with
  | Some (VStr s) => Some s
  | _ => None
  end.

(** The exceptions of [row[key]] and of [.strip()] on a value that is
    not a string. *)
Definition is_lookup_error (e : exn) : Prop :=
  match e with
  | KeyError _ | AttributeError _ => True
  | _ => False
  end.

(** A column is missing from a row when the header does not name it, or
    names it at a position the row does not reach. *)
Definition missing (fieldnames row : list pystr) (key : string) : Prop :=
  lit key ∉ fieldnames ∨
  ∃ i : nat, fieldnames !! i = Some (lit key) ∧ (length row <= i)%nat.

Definition all_whitespace (s : pystr) : Prop := forallb is_whitespace s = true.

(** No whitespace at either end. *)
Definition trimmed (s : pystr) : Prop :=
  (∀ c r, s = c :: r → is_whitespace c = false) ∧
  (∀ c r, s = r ++ [c] → is_whitespace c = false).

End Pure.

(** ** Sample inputs *)

Module Sample.
Import PyStr Csv Script.

Definition nl : pystr := [0x0A].

(** The end-to-end scenario of the specification. *)
Definition cell_text : pystr := lit "Title;SJR" ++ nl ++ lit "Cell;14,1" ++ nl.

(** [14.1] and [1.234] as binary64: [0x1.c333333333333p+3] and
    [0x1.3be76c8b43958p+0]. *)
Definition float_14_1 : PyFloat.float := S754_finite false 7937594343240499 (-49).
Definition float_1_234 : PyFloat.float := S754_finite false 5557441940175192 (-52).

Definition cell_row : row_dict :=
  make_row [lit "Title"; lit "SJR"] [lit "Cell"; lit "14,1"].

Definition padded_row : row_dict :=
  make_row [lit "Rank"; lit "Title"; lit "SJR"]
           [lit "7"; lit "  Nature Reviews  "; lit " 1,234 "].


(** A file with a score that does not parse and scores that [float]
    reads as an infinity and as a NaN. *)
Definition mixed_text : pystr :=
  lit "Title;SJR" ++ nl ++ lit "Cell;14,1" ++ nl ++ lit "Lancet ;N/A" ++ nl
  ++ lit "Acta;inf" ++ nl ++ lit "Brain;nan" ++ nl.


(** A header without a [Title] column and no data row. *)
Definition header_only_text : pystr := lit "Name;SJR" ++ nl.

(** A header without a [Title] column, and a row shorter than the
    header. *)
Definition no_title_text : pystr := lit "Name;SJR" ++ nl ++ lit "Cell;14,1" ++ nl.
Definition short_row_text : pystr := lit "Title;SJR" ++ nl ++ lit "Cell" ++ nl.

Definition args : Args :=
  {| project_id := lit "proj"; dataset_id := lit "journal_rank";
     table_id := lit "scimagojr_2024"; csv_file := lit "scimagojr_2024.csv" |}.

Definition table_ref : pystr := lit "proj.journal_rank.scimagojr_2024".

(** An environment with nothing in it. *)
Definition empty_world : Env.World :=
  {| Env.files := ∅; Env.tables := ∅; Env.console := []; Env.faults := [] |}.

(** The input file is present; the destination table already exists
    with another shape and other rows. *)
Definition stale_world : Env.World :=
  {| Env.files := {[ lit "scimagojr_2024.csv" := cell_text ]};
     Env.tables :=
       {[ table_ref :=
            {| Env.table_schema :=
                 [{| field_name := "name"; field_type := "STRING"; mode := "NULLABLE" |}];
               Env.table_rows :=
                 [{| title := lit "Old"; sjr := S754_zero false |};
                  {| title := lit "Older"; sjr := S754_zero false |}] |} ]};
     Env.console := []; Env.faults := [] |}.

(** A warehouse that accepts every call and stores nothing: the table
    metadata always reports no row. *)
Definition forgetful : handler unit := fun X ev =>
  match ev in event X return unit -> X * unit with
  | Print _ => fun w => (tt, w)
  | PathExists _ => fun w => (true, w)
  | ReadText _ => fun w => (Ok cell_text, w)
  | NewClient _ | NewTable _ _ | DeleteTable _ | CreateTable _ _ | JobResult _ =>
      fun w => (Ok tt, w)
  | LoadTableFromJson rows t cfg => fun w =>
      (Ok {| job_rows := rows; job_destination := t; job_config := cfg |}, w)
  | GetTable _ => fun w => (Ok {| num_rows := 0 |}, w)
  end.

(** The deletion is refused for a reason other than a missing table. *)
Definition forbidden_world : Env.World :=
  {| Env.files := ∅; Env.tables := ∅; Env.console := [];
     Env.faults := [None; None; Some (EnvError "Forbidden")] |}.

End Sample.

(** ** Texts of plain rows *)

Module CsvText.
Import Csv.

(** The only [csv.Error] the dialect of the script can meet. *)
Definition limit_error : exn := CsvError "field larger than field limit (131072)".

(** The parser fed the characters [cs], without the end of the line. *)
Fixpoint feed (r : Reader) (cs : pystr) : result Reader :=
  match cs with
  | [] => Ok r
  | c :: cs' =>
      match parse_process_char r (Some c) with
      | Ok r' => feed r' cs'
      | Raise e => Raise e
      end
  end.

(** A character with no meaning for the reader: no delimiter, quote or
    line end. *)
Definition plain (c : N) : bool :=
  negb ((c =? delimiter) || (c =? quotechar) || (c =? 0x0A) || (c =? 0x0D)).

(** A field that can be written as it is: plain characters, within the
    field limit. *)
Definition plain_field (f : pystr) : Prop :=
  forallb plain f = true ∧ N.of_nat (length f) <= field_limit.

(** A field as a CSV file writes it: as it is, or between double
    quotes. *)
Inductive cell :=
| Plain (f : pystr)
| Quoted (f : pystr).

(** The field the cell stands for, and its text in the file. *)
Definition cell_value (c : cell) : pystr :=
  match c with Plain f | Quoted f => f end.

Definition cell_text (c : cell) : pystr :=
  match c with
  | Plain f => f
  | Quoted f => quotechar :: f ++ [quotechar]
  end.

(** Between quotes a field may hold the delimiter; here it holds no
    quote and no line end. *)
Definition quotable (c : N) : bool :=
  negb ((c =? quotechar) || (c =? 0x0A) || (c =? 0x0D)).

Definition cell_ok (c : cell) : Prop :=
  match c with
  | Plain f => plain_field f
  | Quoted f => forallb quotable f = true ∧ N.of_nat (length f) <= field_limit
  end.

(** A row written on one line: its cells with a [';'] between them and
    a line feed at the end. *)
Fixpoint render_cells (row : list cell) : pystr :=
  match row with
  | [] => [0x0A]
  | [c] => cell_text c ++ [0x0A]
  | c :: cs => cell_text c ++ delimiter :: render_cells cs
  end.

Definition render (rows : list (list cell)) : pystr :=
  concat (render_cells <$> rows).

(** A row that reads back as it was written: at least one cell, not
    the single empty unquoted cell (its line would be blank), cells as
    above. *)
Definition writable (row : list cell) : Prop :=
  row ≠ [] ∧ row ≠ [Plain []] ∧ Forall cell_ok row.

(** The fields a row of cells stands for. *)
Definition row_values (row : list cell) : list pystr := cell_value <$> row.

(** A line as the file object gives it: a line feed only at the end, no
    carriage return. *)
Definition line_ok (l : pystr) : Prop :=
  ∃ body, (l = body ∨ l = body ++ [0x0A]) ∧ (0x0A ∉ body) ∧ (0x0D ∉ body).

End CsvText.

(** ** The console narrative of [main] and the kinds of calls *)

Module Narrative.
Import PyStr Script.

Definition processing (args : Args) : message :=
  [FLit "Processing CSV file: "; FStr (csv_file args)].

(** The line [main] prints for one sample record. *)
Definition sample_line (j : journal) : message :=
  [FLit "  "; FStr (title j); FLit ": "; FFloat (sjr j)].

(** What [main] prints between the extraction and the table creation. *)
Definition report (js : list journal) : list message :=
  [ [FLit "Extracted "; FInt (Z.of_nat (length js)); FLit " journal entries"];
    [newline; FLit "Sample data (first 5 entries):"] ]
  ++ (sample_line <$> take 5 js)
  ++ [ [newline; FLit "Creating BigQuery table..."] ].

Definition loading : message := [FLit "Loading data into BigQuery..."].

(** What [main] prints after the load. *)
Definition closing (args : Args) : list message :=
  [ [newline; FLit "Done! Journal data has been loaded into BigQuery."];
    [newline; FLit "To update your application to use this new table:"];
    [FLit "1. Update the query in fetch_journal_impact_data() in main.py to use '";
     FStr (table_id args); FLit "' instead of 'scimagojr_2023'"];
    [FLit "2. Redeploy the Cloud Function"] ].

(** The calls to the BigQuery client library. *)
Definition is_warehouse_call (e : entry) : bool :=
  match e with
  | EPrint _ | EPathExists _ _ | EReadText _ _ => false
  | _ => true
  end.

(** The calls that change what the warehouse stores. *)
Definition is_table_change (e : entry) : bool :=
  match e with
  | EDeleteTable _ _ | ECreateTable _ _ _ | ELoadTableFromJson _ _ _ _
  | EJobResult _ _ => true
  | _ => false
  end.

(** The entries [create_bigquery_table] can log for a table reference. *)
Definition create_entry (ref : pystr) (e : entry) : Prop :=
  match e with
  | ENewClient _ _ => True
  | ENewTable r sch _ | ECreateTable r sch _ => r = ref ∧ sch = table_schema
  | EDeleteTable r _ => r = ref
  | EPrint m => m = [FLit "Deleted existing table "; FStr ref]
                ∨ m = [FLit "Created table "; FStr ref]
  | _ => False
  end.

(** The entries [load_data_to_bigquery] can log for a table reference
    and the records it is given. *)
Definition load_entry (ref : pystr) (data : list journal) (e : entry) : Prop :=
  match e with
  | ENewClient _ _ | EJobResult _ _ => True
  | ELoadTableFromJson rows r cfg _ =>
      rows = data ∧ r = ref
      ∧ cfg = {| schema := table_schema; write_disposition := WRITE_TRUNCATE |}
  | EGetTable r _ => r = ref
  | EPrint m => ∃ n, m = [FLit "Loaded "; FInt n; FLit " rows into "; FStr ref]
  | _ => False
  end.

(** The entries [process_scimagojr_csv] can log. *)
Definition extract_entry (path : pystr) (e : entry) : Prop :=
  match e with
  | EReadText p _ => p = path
  | EPrint m => ∃ s t, m = warning s t
  | _ => False
  end.

(** The warning the loop prints for a row, if it prints one: the row
    has both fields and its score does not parse. *)
Definition row_warning (row : Csv.row_dict) : option message :=
  match Pure.field_of row "Title", Pure.field_of row "SJR" with
  | Some t, Some s =>
      match PyFloat.float_of_str (replace comma period (strip s)) with
      | Some _ => None
      | None => Some (warning (strip s) (strip t))
      end
  | _, _ => None
  end.

(** The exception an entry records, if the call raised. *)
Definition raised (e : entry) : option exn :=
  match e with
  | EReadText _ (Raise x) | ENewClient _ (Raise x) | ENewTable _ _ (Raise x)
  | EDeleteTable _ (Raise x) | ECreateTable _ _ (Raise x)
  | ELoadTableFromJson _ _ _ (Raise x) | EJobResult _ (Raise x)
  | EGetTable _ (Raise x) => Some x
  | _ => None
  end.

(** What a run has printed, in order. *)
Definition prints (log : list entry) : list message :=
  omap (fun e => match e with EPrint m => Some m | _ => None end) log.




End Narrative.

(** ** Further sample inputs *)

Module Cases.
Import PyStr Csv Script CsvText.


(** Its records: 106.094, 24.5, 0.0 for the score that does not parse,
    12.1, 11.0 and 4.2 as binary64. *)
Definition six_records : list journal :=
  [ {| title := lit "Ca-A Cancer Journal for Clinicians";
       sjr := S754_finite false 7465701544785084 (-46) |};
    {| title := lit "Cell"; sjr := S754_finite false 6896136929411072 (-48) |};
    {| title := lit "Nature"; sjr := S754_zero false |};
    {| title := lit "Lancet"; sjr := S754_finite false 6811694436397875 (-49) |};
    {| title := lit "Science"; sjr := S754_finite false 6192449487634432 (-49) |};
    {| title := lit "Brain"; sjr := S754_finite false 4728779608739021 (-50) |} ].


(** The client cannot be constructed. *)
Definition no_credentials_world : Env.World :=
  {| Env.files := ∅; Env.tables := ∅; Env.console := [];
     Env.faults := [Some (EnvError "DefaultCredentialsError")] |}.

(** The third call that can raise does: for the loader alone, the wait
    for the job. *)
Definition failing_job_world : Env.World :=
  {| Env.files := ∅; Env.tables := ∅; Env.console := [];
     Env.faults := [None; None; Some (EnvError "BadRequest")] |}.

(** The destination table exists and its deletion is refused. *)
Definition locked_world : Env.World :=
  {| Env.files := Env.files Sample.stale_world;
     Env.tables := Env.tables Sample.stale_world;
     Env.console := [];
     Env.faults := [None; None; Some (EnvError "Forbidden")] |}.

(** The whole pipeline over a stale table; the eighth call that can
    raise, the wait for the load job, does. *)
Definition failing_load_world : Env.World :=
  {| Env.files := Env.files Sample.stale_world;
     Env.tables := Env.tables Sample.stale_world;
     Env.console := [];
     Env.faults := [None; None; None; None; None; None; None;
                    Some (EnvError "BadRequest")] |}.

Definition stale_table : Env.Table :=
  {| Env.table_schema :=
       [{| field_name := "name"; field_type := "STRING"; mode := "NULLABLE" |}];
     Env.table_rows :=
       [{| title := lit "Old"; sjr := S754_zero false |};
        {| title := lit "Older"; sjr := S754_zero false |}] |}.





(** A file whose titles are written between quotes, one of them with a
    semicolon. *)
Definition quoted_header : list cell :=
  [Plain (lit "Rank"); Quoted (lit "Title"); Plain (lit "SJR")].
Definition quoted_rows : list (list cell) :=
  [ [Plain (lit "1"); Quoted (lit "Cell; Host and Microbe"); Plain (lit "7,1")];
    [Plain (lit "2"); Plain (lit "Brain"); Plain (lit "4,2"); Plain (lit "Q1")] ].

(** 131073 times the letter [a]. *)
Definition long_text : pystr := repeat 0x61 (N.to_nat 131073).

End Cases.

(** * Properties *)

Import PyStr Csv Script Pure.

(** ** Running sequences *)

Lemma run_bind {W A B : Type} (h : handler W) (p : prog A) (f : A -> prog B) (w : W) :
  run h (p ≫= f) w =
  match run h p w with
  | (Returned a, log, w1) =>
      let '(o, log2, w2) := run h (f a) w1 in (o, log ++ log2, w2)
  | (Uncaught e, log, w1) => (Uncaught e, log, w1)
  | (Exited c, log, w1) => (Exited c, log, w1)
  end.
Proof.
  unfold mbind, prog_bind. revert w.
  induction p as [a|e|c|X ev k IH]; intros w; simpl; try reflexivity.
  - destruct (run h (f a) w) as [[o log] w2]. reflexivity.
  - destruct (h X ev w) as [x w1]. rewrite IH.
    destruct (run h (k x) w1) as [[[a|e|c] log] w2]; try reflexivity.
    destruct (run h (f a) w2) as [[o log2] w3]. reflexivity.
Qed.

Lemma run_trigger {W X : Type} (h : handler W) (ev : event X) (w : W) :
  run h (trigger ev) w = (Returned (h X ev w).1, [log_entry ev (h X ev w).1], (h X ev w).2).
Proof. simpl. destruct (h X ev w). reflexivity. Qed.

Lemma run_call {W X : Type} (h : handler W) (ev : event (result X)) (w : W) :
  run h (call ev) w =
  (match (h _ ev w).1 with Ok x => Returned x | Raise e => Uncaught e end,
   [log_entry ev (h _ ev w).1], (h _ ev w).2).
Proof. simpl. destruct (h _ ev w) as [[x|e] w1]; reflexivity. Qed.

Lemma run_lift {W X : Type} (h : handler W) (r : result X) (w : W) :
  run h (lift r) w =
  (match r with Ok x => Returned x | Raise e => Uncaught e end, [], w).
Proof. destruct r; reflexivity. Qed.

(** ** The loop body and the loop, against their pure forms *)

Lemma run_process_row {W : Type} (h : handler W) (row : row_dict) (w : W) :
  run h (process_row row) w =
  match convert row with
  | Raise e => (Uncaught e, [], w)
  | Ok (j, None) => (Returned j, [], w)
  | Ok (j, Some m) => (Returned j, [EPrint m], (h _ (Print m) w).2)
  end.
Proof.
  unfold process_row, convert.
  rewrite run_bind, run_lift. destruct (getitem row "Title") as [tv|e]; [|reflexivity].
  rewrite run_bind, run_lift. destruct (strip_method tv) as [t|e]; [|reflexivity].
  rewrite run_bind, run_lift. destruct (getitem row "SJR") as [sv|e]; [|reflexivity].
  rewrite run_bind, run_lift. destruct (strip_method sv) as [s|e]; [|reflexivity].
  rewrite run_bind.
  destruct (PyFloat.float_of_str (replace comma period s)) as [x|]; simpl.
  - reflexivity.
  - destruct (h unit (Print (warning s t)) w) as [[] w1]. reflexivity.
Qed.

Lemma run_process_rows {W : Type} (h : handler W) (rows : list row_dict)
    (acc : list journal) (w : W) :
  run h (process_rows rows acc) w =
  (match (convert_rows rows).2 with
   | None => Returned (acc ++ (convert_rows rows).1.*1)
   | Some e => Uncaught e
   end,
   EPrint <$> warnings (convert_rows rows).1,
   printed h (warnings (convert_rows rows).1) w).
Proof.
  revert acc w. induction rows as [|row rest IH]; intros acc w; simpl.
  - rewrite app_nil_r. reflexivity.
  - rewrite run_bind, run_process_row.
    destruct (convert row) as [[j [m|]]|e]; [| |reflexivity].
    + rewrite IH. destruct (convert_rows rest) as [jms [e|]]; simpl.
      * reflexivity.
      * rewrite <- app_assoc. reflexivity.
    + rewrite IH. destruct (convert_rows rest) as [jms [e|]]; simpl.
      * reflexivity.
      * rewrite <- app_assoc. reflexivity.
Qed.

(** ** [strip] *)

Lemma lstrip_decompose (s : pystr) :
  ∃ l, s = l ++ lstrip s ∧ all_whitespace l ∧
       ∀ c r, lstrip s = c :: r → is_whitespace c = false.
Proof.
  induction s as [|ch s IH]; simpl.
  - exists []. repeat split. intros c r H. discriminate H.
  - destruct (is_whitespace ch) eqn:Hch.
    + destruct IH as (l & Hs & Hl & Hhd). exists (ch :: l). repeat split.
      * simpl. congruence.
      * unfold all_whitespace in *. simpl. rewrite Hch. exact Hl.
      * exact Hhd.
    + exists []. repeat split. intros c r H. congruence.
Qed.

Lemma all_whitespace_rev (s : pystr) : all_whitespace s → all_whitespace (rev s).
Proof.
  unfold all_whitespace. rewrite !forallb_forall. intros H x Hx.
  apply H. apply in_rev. exact Hx.
Qed.

Lemma rstrip_decompose (s : pystr) :
  ∃ r, s = rstrip s ++ r ∧ all_whitespace r ∧
       ∀ c t, rstrip s = t ++ [c] → is_whitespace c = false.
Proof.
  unfold rstrip. destruct (lstrip_decompose (rev s)) as (l & Hs & Hl & Hhd).
  exists (rev l). repeat split.
  - rewrite <- rev_app_distr, <- Hs, rev_involutive. reflexivity.
  - apply all_whitespace_rev. exact Hl.
  - intros c t H. apply (Hhd c (rev t)).
    rewrite <- (rev_involutive (lstrip (rev s))), H, rev_app_distr. reflexivity.
Qed.

Lemma strip_decompose (s : pystr) :
  ∃ l r, s = l ++ strip s ++ r ∧ all_whitespace l ∧ all_whitespace r ∧
         trimmed (strip s).
Proof.
  unfold strip.
  destruct (lstrip_decompose s) as (l & Hs & Hl & Hhd).
  destruct (rstrip_decompose (lstrip s)) as (r & Hr & Hrw & Hlast).
  exists l, r. repeat split; try assumption.
  - rewrite <- Hr. exact Hs.
  - intros c t H. rewrite H in Hr. simpl in Hr. apply (Hhd c (t ++ r)). exact Hr.
Qed.

(** ** Row dictionaries *)

Lemma dict_zip_notin (k : pystr) (fieldnames row : list pystr) (d : row_dict) :
  k ∉ fieldnames → dict_zip fieldnames row d !! Some k = d !! Some k.
Proof.
  revert row d. induction fieldnames as [|f fs IH]; intros row d Hk; simpl.
  - reflexivity.
  - destruct row as [|v vs]; [reflexivity|].
    apply not_elem_of_cons in Hk as [Hkf Hk].
    rewrite IH by exact Hk. apply lookup_insert_ne. congruence.
Qed.

Lemma fill_none_lookup (k : pystr) (keys : list pystr) (d : row_dict) :
  fold_left (fun d key => <[Some key := VNone]> d) keys d !! Some k =
  if decide (k ∈ keys) then Some VNone else d !! Some k.
Proof.
  revert d. induction keys as [|key keys IH]; intros d; cbn [fold_left].
  - rewrite decide_False by apply not_elem_of_nil. reflexivity.
  - rewrite IH. destruct (decide (k ∈ keys)) as [Hin|Hin].
    + rewrite decide_True by (apply elem_of_cons; auto). reflexivity.
    + destruct (decide (k = key)) as [->|Hne].
      * rewrite decide_True by (apply elem_of_cons; auto).
        apply lookup_insert_eq.
      * rewrite decide_False by (rewrite elem_of_cons; tauto).
        apply lookup_insert_ne. congruence.
Qed.

Lemma make_row_notin (k : pystr) (fieldnames row : list pystr) :
  k ∉ fieldnames → make_row fieldnames row !! Some k = None.
Proof.
  intros Hk. unfold make_row.
  destruct (length fieldnames <? length row)%nat.
  - rewrite lookup_insert_ne by discriminate. rewrite dict_zip_notin by exact Hk.
    apply lookup_empty.
  - destruct (length row <? length fieldnames)%nat.
    + rewrite fill_none_lookup. rewrite decide_False.
      * rewrite dict_zip_notin by exact Hk. apply lookup_empty.
      * intros Hin. apply Hk. apply list_elem_of_lookup in Hin as [i Hi].
        rewrite lookup_drop in Hi. eapply list_elem_of_lookup_2. exact Hi.
    + rewrite dict_zip_notin by exact Hk. apply lookup_empty.
Qed.

Lemma make_row_short (k : pystr) (fieldnames row : list pystr) (i : nat) :
  fieldnames !! i = Some k → (length row <= i)%nat →
  make_row fieldnames row !! Some k = Some VNone.
Proof.
  intros Hi Hlen. unfold make_row.
  assert (Hlt : (i < length fieldnames)%nat) by (eapply lookup_lt_Some; exact Hi).
  destruct (Nat.ltb_spec (length fieldnames) (length row)) as [H|_]; [lia|].
  destruct (Nat.ltb_spec (length row) (length fieldnames)) as [_|H]; [|lia].
  rewrite fill_none_lookup. rewrite decide_True; [reflexivity|].
  apply list_elem_of_lookup. exists (i - length row)%nat.
  rewrite lookup_drop. rewrite <- Hi. f_equal. lia.
Qed.

Lemma make_row_missing (fieldnames row : list pystr) (key : string) :
  missing fieldnames row key → field_of (make_row fieldnames row) key = None.
Proof.
  unfold field_of. intros [Hnotin|(i & Hi & Hlen)].
  - rewrite make_row_notin by exact Hnotin. reflexivity.
  - erewrite make_row_short by eassumption. reflexivity.
Qed.



(** ** One row *)

Lemma field_of_getitem (row : row_dict) (key : string) (s : pystr) :
  field_of row key = Some s →
  getitem row key = Ok (VStr s).
Proof.
  unfold field_of, getitem. destruct (row !! Some (lit key)) as [[x| |l]|]; congruence.
Qed.

Lemma field_of_none_raises (row : row_dict) (key : string) :
  field_of row key = None →
  ∃ e, is_lookup_error e ∧
       match getitem row key with
       | Ok v => strip_method v = Raise e
       | Raise e' => e' = e
       end.
Proof.
  unfold field_of, getitem. destruct (row !! Some (lit key)) as [[x| |l]|]; intros H.
  - discriminate H.
  - exists (AttributeError "NoneType"). split; [exact I|reflexivity].
  - exists (AttributeError "list"). split; [exact I|reflexivity].
  - exists (KeyError (lit key)). split; [exact I|reflexivity].
Qed.

Lemma convert_fields (row : row_dict) (t s : pystr) :
  field_of row "Title" = Some t → field_of row "SJR" = Some s →
  convert row =
  Ok (match PyFloat.float_of_str (replace comma period (strip s)) with
      | Some x => ({| title := strip t; sjr := x |}, None)
      | None => ({| title := strip t; sjr := PyFloat.zero |},
                 Some (warning (strip s) (strip t)))
      end).
Proof.
  intros Ht Hs. unfold convert.
  rewrite (field_of_getitem _ _ _ Ht), (field_of_getitem _ _ _ Hs). simpl.
  destruct (PyFloat.float_of_str _); reflexivity.
Qed.

Lemma convert_missing (row : row_dict) :
  field_of row "Title" = None ∨ field_of row "SJR" = None →
  ∃ e, convert row = Raise e ∧ is_lookup_error e.
Proof.
  intros H. unfold convert.
  destruct (field_of row "Title") as [t|] eqn:Ht.
  - destruct H as [H|H]; [discriminate H|].
    rewrite (field_of_getitem _ _ _ Ht). simpl.
    destruct (field_of_none_raises _ _ H) as (e & He & Hg). exists e.
    destruct (getitem row "SJR") as [v|e'].
    + rewrite Hg. auto.
    + subst e'. auto.
  - destruct (field_of_none_raises _ _ Ht) as (e & He & Hg). exists e.
    destruct (getitem row "Title") as [v|e'].
    + rewrite Hg. auto.
    + subst e'. auto.
Qed.

Lemma convert_ok_fields (row : row_dict) (jm : journal * option message) :
  convert row = Ok jm →
  ∃ t s, field_of row "Title" = Some t ∧ field_of row "SJR" = Some s.
Proof.
  intros H.
  destruct (field_of row "Title") as [t|] eqn:Ht;
    [destruct (field_of row "SJR") as [s|] eqn:Hs|].
  - eauto.
  - destruct (convert_missing row) as (e & He & _); [auto|congruence].
  - destruct (convert_missing row) as (e & He & _); [auto|congruence].
Qed.

(** ** All rows *)


Lemma convert_rows_none_inv (rows : list row_dict) (jms : list (journal * option message)) :
  convert_rows rows = (jms, None) →
  Forall2 (fun row jm => convert row = Ok jm) rows jms.
Proof.
  revert jms. induction rows as [|row rest IH]; intros jms; simpl.
  - intros [= <-]. constructor.
  - destruct (convert row) as [jm|e] eqn:Hrow; [|discriminate].
    destruct (convert_rows rest) as [jms' e']. intros [= <- ->].
    constructor; [exact Hrow|]. apply IH. reflexivity.
Qed.

Lemma convert_rows_missing (rows : list row_dict) (row : row_dict) :
  row ∈ rows →
  field_of row "Title" = None ∨ field_of row "SJR" = None →
  ∃ e, (convert_rows rows).2 = Some e ∧ is_lookup_error e.
Proof.
  intros Hin Hmiss. induction rows as [|r rest IH]; [inversion Hin|]. simpl.
  destruct (convert r) as [jm|e] eqn:Hr.
  - apply elem_of_cons in Hin as [->|Hin].
    + destruct (convert_missing _ Hmiss) as (e & He & _). congruence.
    + destruct (IH Hin) as (e & He & Hle). exists e.
      destruct (convert_rows rest) as [jms e']. simpl in *. auto.
  - destruct (field_of r "Title") as [t|] eqn:Ht;
      [destruct (field_of r "SJR") as [s|] eqn:Hs|].
    + rewrite (convert_fields _ _ _ Ht Hs) in Hr. discriminate Hr.
    + destruct (convert_missing r) as (e' & He' & Hle); [auto|].
      exists e. split; [reflexivity|congruence].
    + destruct (convert_missing r) as (e' & He' & Hle); [auto|].
      exists e. split; [reflexivity|congruence].
Qed.

Lemma run_process_text {W : Type} (h : handler W) (text : pystr) (w : W) :
  run h (process_text text) w =
  (match (convert_rows (data_rows text)).2, (DictReader (file_lines text)).2 with
   | Some e, _ | None, Some e => Uncaught e
   | None, None => Returned ((convert_rows (data_rows text)).1.*1)
   end,
   EPrint <$> warnings (convert_rows (data_rows text)).1,
   printed h (warnings (convert_rows (data_rows text)).1) w).
Proof.
  unfold process_text, data_rows.
  destruct (DictReader (file_lines text)) as [rows err]. simpl.
  rewrite run_bind, run_process_rows.
  destruct (convert_rows rows) as [jms [e|]]; simpl; [reflexivity|].
  destruct err; simpl; rewrite app_nil_r; reflexivity.
Qed.

(** The extractor returns exactly on the texts whose rows all have both
    fields and whose reading raises nothing; its records are those of
    [extract]. *)
Lemma process_text_returned {W : Type} (h : handler W) (text : pystr) (w : W)
    (js : list journal) (log : list entry) (w' : W) :
  run h (process_text text) w = (Returned js, log, w') →
  (DictReader (file_lines text)).2 = None ∧
  ∃ jms, convert_rows (data_rows text) = (jms, None) ∧ js = jms.*1.
Proof.
  rewrite run_process_text.
  destruct (convert_rows (data_rows text)) as [jms [e|]]; simpl; [discriminate|].
  destruct (DictReader (file_lines text)).2; [discriminate|].
  intros [= <- _ _]. eauto.
Qed.

Lemma extract_run {W : Type} (h : handler W) (text : pystr) (w : W) :
  (run h (process_text text) w).1.1 =
  match extract text with Ok js => Returned js | Raise e => Uncaught e end.
Proof.
  rewrite run_process_text. unfold extract, data_rows. simpl.
  destruct (DictReader (file_lines text)) as [rows err]. simpl.
  destruct (convert_rows rows) as [jms [e|]], err; reflexivity.
Qed.

(** ** The extractor: claims on rows and records *)

(** C1.  For a data row whose [SJR] field, once trimmed and with every
    comma replaced by a period, parses as a float, the loop body returns
    a record whose [sjr] is exactly that float (and prints nothing). *)
Theorem C1_sjr_is_the_parsed_float {W : Type} (h : handler W) (w : W)
    (row : row_dict) (t s : pystr) (x : PyFloat.float) :
  field_of row "Title" = Some t →
  field_of row "SJR" = Some s →
  PyFloat.float_of_str (replace comma period (strip s)) = Some x →
  ∃ j, run h (process_row row) w = (Returned j, [], w) ∧ sjr j = x.
Proof.
  intros Ht Hs Hx. rewrite run_process_row, (convert_fields _ _ _ Ht Hs), Hx.
  eexists. split; reflexivity.
Qed.


(** C5.  For a data row the loop body returns a record whose title is
    the [Title] field without its leading and trailing whitespace: the
    field is the title between two runs of whitespace, and the title has
    whitespace at neither end. *)
Theorem C5_title_is_trimmed_field {W : Type} (h : handler W) (w : W)
    (row : row_dict) (t s : pystr) :
  field_of row "Title" = Some t →
  field_of row "SJR" = Some s →
  ∃ j log w', run h (process_row row) w = (Returned j, log, w') ∧
    title j = strip t ∧
    ∃ l r, t = l ++ title j ++ r ∧ all_whitespace l ∧ all_whitespace r ∧
           trimmed (title j).
Proof.
  intros Ht Hs. rewrite run_process_row, (convert_fields _ _ _ Ht Hs).
  destruct (PyFloat.float_of_str _);
    do 3 eexists; (split; [reflexivity|]); (split; [reflexivity|]);
    apply strip_decompose.
Qed.



(** C10, as the code has it.  When a data row misses the [Title] or the
    [SJR] column (the header does not name it, or the row stops before
    it), the extractor ends in an uncaught [KeyError] or
    [AttributeError]: the substitution of 0.0 is for strings that do not
    parse, never for a missing field. *)
Theorem C10_missing_field_raises {W : Type} (h : handler W) (w : W) (text : pystr)
    (fieldnames : list pystr) (rows : list (list pystr)) (err : option exn)
    (row : list pystr) :
  reader (file_lines text) = (fieldnames :: rows, err) →
  row ∈ rows → row ≠ [] →
  missing fieldnames row "Title" ∨ missing fieldnames row "SJR" →
  ∃ e log w', run h (process_text text) w = (Uncaught e, log, w') ∧
              is_lookup_error e.
Proof.
  intros Hreader Hin Hne Hmiss.
  assert (Hrows : data_rows text = make_row fieldnames <$> List.filter nonempty_row rows).
  { unfold data_rows, DictReader. rewrite Hreader. reflexivity. }
  destruct (convert_rows_missing (data_rows text) (make_row fieldnames row))
    as (e & He & Hle).
  - rewrite Hrows. apply list_elem_of_fmap_2. apply list_elem_of_In.
    apply filter_In. split; [apply list_elem_of_In; exact Hin|].
    destruct row; [congruence|reflexivity].
  - destruct Hmiss as [H|H]; [left|right]; apply make_row_missing; exact H.
  - rewrite run_process_text. destruct (convert_rows (data_rows text)) as [jms e'].
    simpl in *. subst e'. eauto.
Qed.

(** ** The schema manager, the loader and [main] *)

Lemma run_try_except {W R : Type} (h : handler W) (p : prog R) (handle : exn -> prog R)
    (w : W) :
  run h (try_except p handle) w =
  match run h p w with
  | (Uncaught e, log, w1) =>
      let '(o, log2, w2) := run h (handle e) w1 in (o, log ++ log2, w2)
  | r => r
  end.
Proof.
  revert w. induction p as [a|e|c|X ev k IH]; intros w; simpl; try reflexivity.
  - destruct (run h (handle e) w) as [[o log] w2]. reflexivity.
  - destruct (h X ev w) as [x w1]. rewrite IH.
    destruct (run h (k x) w1) as [[[a|e|c] log] w2]; try reflexivity.
    destruct (run h (handle e) w2) as [[o log2] w3]. reflexivity.
Qed.

(** The deletion step of [create_bigquery_table]: it returns whatever
    the warehouse answers. *)
Lemma run_delete_step {W : Type} (h : handler W) (ref : pystr) (w : W) :
  let m := [FLit "Deleted existing table "; FStr ref] in
  run h (try_except (call (DeleteTable ref);; trigger (Print m)) (fun _ => Ret tt)) w =
  match (h _ (DeleteTable ref) w).1 with
  | Ok u => (Returned tt, [EDeleteTable ref (Ok u); EPrint m],
             (h _ (Print m) (h _ (DeleteTable ref) w).2).2)
  | Raise e => (Returned tt, [EDeleteTable ref (Raise e)], (h _ (DeleteTable ref) w).2)
  end.
Proof.
  intros m. rewrite run_try_except, run_bind, run_call.
  destruct (h _ (DeleteTable ref) w) as [[u|e] w1]; simpl; [|reflexivity].
  destruct (h _ (Print m) w1) as [[] w2]. reflexivity.
Qed.

(** C4.  When the path given as [--csv-file] does not exist, [main]
    prints the error and exits with status 1: the file is not read and
    the warehouse is not called. *)
Theorem C4_missing_file_exits_before_any_work {W : Type} (h : handler W) (w : W)
    (args : Args) :
  (h _ (PathExists (csv_file args)) w).1 = false →
  ∃ o w',
    run h (main args) w =
      (o, [EPathExists (csv_file args) false;
           EPrint [FLit "Error: CSV file '"; FStr (csv_file args); FLit "' not found"]],
       w') ∧
    o = Exited 1 ∧ exit_status o ≠ 0%Z.
Proof.
  intros Hmissing. unfold main. rewrite run_bind, run_trigger, Hmissing.
  cbn [negb]. rewrite run_bind, run_bind, run_trigger. simpl.
  do 2 eexists. split; [reflexivity|]. split; [reflexivity|]. discriminate.
Qed.

Lemma run_create_bigquery_table {W : Type} (h : handler W) (p d t : pystr) (w : W) :
  let ref := table_ref_of p d t in
  let created := [FLit "Created table "; FStr ref] in
  run h (create_bigquery_table p d t) w =
  match h _ (NewClient p) w with
  | (Raise e, w1) => (Uncaught e, [ENewClient p (Raise e)], w1)
  | (Ok u1, w1) =>
      match h _ (NewTable ref table_schema) w1 with
      | (Raise e, w2) =>
          (Uncaught e, [ENewClient p (Ok u1); ENewTable ref table_schema (Raise e)], w2)
      | (Ok u2, w2) =>
          let dlog :=
            match (h _ (DeleteTable ref) w2).1 with
            | Ok u => [EDeleteTable ref (Ok u);
                       EPrint [FLit "Deleted existing table "; FStr ref]]
            | Raise e => [EDeleteTable ref (Raise e)]
            end in
          let w3 :=
            match (h _ (DeleteTable ref) w2).1 with
            | Ok u => (h _ (Print [FLit "Deleted existing table "; FStr ref])
                         (h _ (DeleteTable ref) w2).2).2
            | Raise e => (h _ (DeleteTable ref) w2).2
            end in
          match h _ (CreateTable ref table_schema) w3 with
          | (Raise e, w4) =>
              (Uncaught e,
               [ENewClient p (Ok u1); ENewTable ref table_schema (Ok u2)] ++ dlog
               ++ [ECreateTable ref table_schema (Raise e)], w4)
          | (Ok u4, w4) =>
              (Returned ref,
               [ENewClient p (Ok u1); ENewTable ref table_schema (Ok u2)] ++ dlog
               ++ [ECreateTable ref table_schema (Ok u4); EPrint created],
               (h _ (Print created) w4).2)
          end
      end
  end.
Proof.
  intros ref created. unfold create_bigquery_table. fold ref. fold created.
  rewrite run_bind, run_call.
  destruct (h _ (NewClient p) w) as [[u1|e] w1]; cbn [fst snd]; [|reflexivity].
  rewrite run_bind, run_call.
  destruct (h _ (NewTable ref table_schema) w1) as [[u2|e] w2]; cbn [fst snd];
    [|reflexivity].
  rewrite run_bind, run_delete_step.
  destruct (h _ (DeleteTable ref) w2) as [[u3|e] w3]; cbn [fst snd].
  - rewrite run_bind, run_call.
    destruct (h _ (CreateTable ref table_schema) _) as [[u4|e] w4]; cbn [fst snd];
      [|reflexivity].
    rewrite run_bind, run_trigger. reflexivity.
  - rewrite run_bind, run_call.
    destruct (h _ (CreateTable ref table_schema) _) as [[u4|e'] w4]; cbn [fst snd];
      [|reflexivity].
    rewrite run_bind, run_trigger. reflexivity.
Qed.

(** C6.  In [create_bigquery_table], whatever the warehouse answers to
    the deletion (done, no such table, any other failure), the call
    after it is the creation of the table, and the run ends as the
    creation does: it returns the table reference if the table was
    created and ends in the exception of the creation otherwise; an
    exception of the deletion is never the outcome. *)
Theorem C6_delete_failure_swallowed_create_failure_raised {W : Type} (h : handler W)
    (w : W) (p d t : pystr) (o : outcome pystr) (log : list entry) (w' : W)
    (pre post : list entry) (ans : result unit) :
  run h (create_bigquery_table p d t) w = (o, log, w') →
  log = pre ++ EDeleteTable (table_ref_of p d t) ans :: post →
  ∃ mid ans_c post',
    post = mid ++ ECreateTable (table_ref_of p d t) table_schema ans_c :: post' ∧
    (mid = [] ∨ mid = [EPrint [FLit "Deleted existing table ";
                               FStr (table_ref_of p d t)]]) ∧
    o = match ans_c with
        | Ok _ => Returned (table_ref_of p d t)
        | Raise e => Uncaught e
        end.
Proof.
  rewrite run_create_bigquery_table. set (ref := table_ref_of p d t).
  destruct (h _ (NewClient p) w) as [[u1|e] w1].
  2: { intros [= <- <- <-] Hlog. destruct pre as [|? [|? ?]]; simplify_eq/=. }
  destruct (h _ (NewTable ref table_schema) w1) as [[u2|e] w2].
  2: { intros [= <- <- <-] Hlog. do 3 (try destruct pre as [|? pre]; simplify_eq/=). }
  destruct (h _ (DeleteTable ref) w2) as [[u3|e3] w3]; simpl;
    destruct (h _ (CreateTable ref table_schema) _) as [[u4|e4] w4];
    intros [= <- <- <-] Hlog;
    do 7 (try destruct pre as [|? pre]; simplify_eq/=);
    first
      [ eexists [], _, _; split; [reflexivity|]; split; [left; reflexivity|reflexivity]
      | eexists [_], _, _; split; [reflexivity|]; split; [right; reflexivity|reflexivity] ].
Qed.

Lemma run_load_data_to_bigquery {W : Type} (h : handler W) (p d t : pystr)
    (data : list journal) (w : W) :
  let ref := table_ref_of p d t in
  let cfg := {| schema := table_schema; write_disposition := WRITE_TRUNCATE |} in
  let loaded (info : TableInfo) :=
    [FLit "Loaded "; FInt (num_rows info); FLit " rows into "; FStr ref] in
  run h (load_data_to_bigquery p d t data) w =
  match h _ (NewClient p) w with
  | (Raise e, w1) => (Uncaught e, [ENewClient p (Raise e)], w1)
  | (Ok u1, w1) =>
      match h _ (LoadTableFromJson data ref cfg) w1 with
      | (Raise e, w2) =>
          (Uncaught e,
           [ENewClient p (Ok u1); ELoadTableFromJson data ref cfg (Raise e)], w2)
      | (Ok job, w2) =>
          match h _ (JobResult job) w2 with
          | (Raise e, w3) =>
              (Uncaught e,
               [ENewClient p (Ok u1); ELoadTableFromJson data ref cfg (Ok job);
                EJobResult job (Raise e)], w3)
          | (Ok u3, w3) =>
              match h _ (GetTable ref) w3 with
              | (Raise e, w4) =>
                  (Uncaught e,
                   [ENewClient p (Ok u1); ELoadTableFromJson data ref cfg (Ok job);
                    EJobResult job (Ok u3); EGetTable ref (Raise e)], w4)
              | (Ok info, w4) =>
                  (Returned tt,
                   [ENewClient p (Ok u1); ELoadTableFromJson data ref cfg (Ok job);
                    EJobResult job (Ok u3); EGetTable ref (Ok info);
                    EPrint (loaded info)],
                   (h _ (Print (loaded info)) w4).2)
              end
          end
      end
  end.
Proof.
  intros ref cfg loaded. unfold load_data_to_bigquery. fold ref. fold cfg.
  rewrite run_bind, run_call.
  destruct (h _ (NewClient p) w) as [[u1|e] w1]; cbn [fst snd]; [|reflexivity].
  rewrite run_bind, run_call.
  destruct (h _ (LoadTableFromJson data ref cfg) w1) as [[job|e] w2]; cbn [fst snd];
    [|reflexivity].
  rewrite run_bind, run_call.
  destruct (h _ (JobResult job) w2) as [[u3|e] w3]; cbn [fst snd]; [|reflexivity].
  rewrite run_bind, run_call.
  destruct (h _ (GetTable ref) w3) as [[info|e] w4]; cbn [fst snd]; [|reflexivity].
  rewrite run_trigger. destruct (h _ (Print _) w4) as [[] w5]. reflexivity.
Qed.

(** C8.  In [load_data_to_bigquery], whenever the table metadata is
    fetched, the load job was started with the write disposition
    [WRITE_TRUNCATE] and its [result()] has returned before; the row
    count printed after is the one of the fetched metadata, whatever the
    number of records sent. *)
Theorem C8_load_waits_then_reports_fetched_count {W : Type} (h : handler W) (w : W)
    (p d t : pystr) (data : list journal) (o : outcome unit) (log : list entry)
    (w' : W) (pre post : list entry) (ans : result TableInfo) :
  run h (load_data_to_bigquery p d t data) w = (o, log, w') →
  log = pre ++ EGetTable (table_ref_of p d t) ans :: post →
  ∃ job,
    pre = [ENewClient p (Ok tt);
           ELoadTableFromJson data (table_ref_of p d t)
             {| schema := table_schema; write_disposition := WRITE_TRUNCATE |} (Ok job);
           EJobResult job (Ok tt)] ∧
    post = match ans with
           | Ok info => [EPrint [FLit "Loaded "; FInt (num_rows info);
                                 FLit " rows into "; FStr (table_ref_of p d t)]]
           | Raise _ => []
           end.
Proof.
  rewrite run_load_data_to_bigquery. set (ref := table_ref_of p d t).
  destruct (h _ (NewClient p) w) as [[[]|e] w1].
  2: { intros [= <- <- <-] Hlog. do 2 (try destruct pre as [|? pre]; simplify_eq/=). }
  destruct (h _ (LoadTableFromJson _ _ _) w1) as [[job|e] w2].
  2: { intros [= <- <- <-] Hlog. do 3 (try destruct pre as [|? pre]; simplify_eq/=). }
  destruct (h _ (JobResult job) w2) as [[[]|e] w3].
  2: { intros [= <- <- <-] Hlog. do 4 (try destruct pre as [|? pre]; simplify_eq/=). }
  destruct (h _ (GetTable ref) w3) as [[info|e] w4];
    intros [= <- <- <-] Hlog;
    do 6 (try destruct pre as [|? pre]; simplify_eq/=);
    exists job; split; reflexivity.
Qed.

(** ** The reference environment *)

Lemma run_bind_returned {W A B : Type} (h : handler W) (p : prog A) (f : A -> prog B)
    (w : W) (b : B) (log : list entry) (w' : W) :
  run h (p ≫= f) w = (Returned b, log, w') →
  ∃ a log1 w1 log2,
    run h p w = (Returned a, log1, w1) ∧ run h (f a) w1 = (Returned b, log2, w') ∧
    log = log1 ++ log2.
Proof.
  rewrite run_bind. destruct (run h p w) as [[[a|e|c] log1] w1]; try discriminate.
  destruct (run h (f a) w1) as [[o log2] w2] eqn:Hf. intros [= -> <- ->].
  exists a, log1, w1, log2. auto.
Qed.

Lemma fallible_inv {X : Type} (w : Env.World) (k : Env.World -> result X * Env.World)
    (r : result X) (w' : Env.World) :
  Env.fallible w k = (r, w') →
  (∃ e, r = Raise e ∧ Env.files w' = Env.files w ∧ Env.tables w' = Env.tables w) ∨
  (∃ w0, k w0 = (r, w') ∧ Env.files w0 = Env.files w ∧ Env.tables w0 = Env.tables w).
Proof.
  unfold Env.fallible. destruct (Env.faults w) as [|[e|] fs].
  - intros H. right. exists w. auto.
  - intros [= <- <-]. left. exists e. auto.
  - intros H. right. eexists. split; [exact H|]. auto.
Qed.

(** No call changes the files. *)
Lemma env_step_files {X : Type} (ev : event X) (w : Env.World) :
  Env.files (Env.step X ev w).2 = Env.files w.
Proof.
  destruct ev; simpl; try reflexivity;
    match goal with
    | |- Env.files (Env.fallible ?w ?k).2 = _ =>
        destruct (Env.fallible w k) as [r w'] eqn:H;
        apply fallible_inv in H as [(e & _ & Hf & _)|(w0 & H & Hf & _)];
        [exact Hf|rewrite <- Hf]
    end; simpl in *.
  - destruct (Env.files w0 !! path); injection H as _ <-; reflexivity.
  - injection H as _ <-. reflexivity.
  - injection H as _ <-. reflexivity.
  - destruct (Env.tables w0 !! table_ref); injection H as _ <-; reflexivity.
  - destruct (Env.tables w0 !! table_ref); injection H as _ <-; reflexivity.
  - injection H as _ <-. reflexivity.
  - unfold Env.write_rows in H.
    destruct (write_disposition (job_config job)),
      (Env.tables w0 !! job_destination job) as [tb|];
      try destruct (Env.table_rows tb); injection H as _ <-; reflexivity.
  - destruct (Env.tables w0 !! table_ref); injection H as _ <-; reflexivity.
Qed.

Lemma env_run_files {R : Type} (p : prog R) (w : Env.World) :
  Env.files (run Env.step p w).2 = Env.files w.
Proof.
  revert w. induction p as [a|e|c|X ev k IH]; intros w; simpl; try reflexivity.
  destruct (Env.step X ev w) as [x w1] eqn:Hstep.
  specialize (IH x w1). destruct (run Env.step (k x) w1) as [[o log] w2].
  simpl in *. rewrite IH. rewrite <- (env_step_files ev w), Hstep. reflexivity.
Qed.

Lemma env_read_text (path text : pystr) (w w' : Env.World) :
  Env.step _ (ReadText path) w = (Ok text, w') → Env.files w !! path = Some text.
Proof.
  simpl. intros H. apply fallible_inv in H as [(e & He & _)|(w0 & H & Hf & _)];
    [discriminate He|].
  rewrite <- Hf. destruct (Env.files w0 !! path); congruence.
Qed.

Lemma env_load_job (rows : list journal) (ref : pystr) (cfg : LoadJobConfig)
    (job : LoadJob) (w w' : Env.World) :
  Env.step _ (LoadTableFromJson rows ref cfg) w = (Ok job, w') →
  job = {| job_rows := rows; job_destination := ref; job_config := cfg |}.
Proof.
  simpl. intros H. apply fallible_inv in H as [(e & He & _)|(w0 & H & _)];
    [discriminate He|]. congruence.
Qed.

Lemma env_job_result_truncate (rows : list journal) (ref : pystr)
    (sch : list SchemaField) (u : unit) (w w' : Env.World) :
  Env.step _ (JobResult {| job_rows := rows; job_destination := ref;
                           job_config := {| schema := sch;
                                            write_disposition := WRITE_TRUNCATE |} |}) w
    = (Ok u, w') →
  Env.tables w' !! ref = Some {| Env.table_schema := sch; Env.table_rows := rows |}.
Proof.
  simpl. intros H. apply fallible_inv in H as [(e & He & _)|(w0 & H & _)];
    [discriminate He|].
  unfold Env.write_rows in H. simpl in H. injection H as _ <-. simpl.
  apply lookup_insert_eq.
Qed.

Lemma env_get_table (ref : pystr) (info : TableInfo) (w w' : Env.World) :
  Env.step _ (GetTable ref) w = (Ok info, w') →
  Env.tables w' = Env.tables w ∧
  ∃ tb, Env.tables w !! ref = Some tb ∧
        info = {| num_rows := Z.of_nat (length (Env.table_rows tb)) |}.
Proof.
  simpl. intros H. apply fallible_inv in H as [(e & He & _)|(w0 & H & _ & Ht)];
    [discriminate He|].
  rewrite <- Ht. destruct (Env.tables w0 !! ref) as [tb|]; [|discriminate H].
  injection H as <- <-. eauto.
Qed.

(** A load that returns leaves exactly the records sent in the
    destination table, with the schema of the load, and reports their
    number. *)
Lemma env_load_returned (p d t : pystr) (data : list journal) (w w' : Env.World)
    (log : list entry) :
  run Env.step (load_data_to_bigquery p d t data) w = (Returned tt, log, w') →
  Env.tables w' !! table_ref_of p d t =
    Some {| Env.table_schema := table_schema; Env.table_rows := data |} ∧
  EPrint [FLit "Loaded "; FInt (Z.of_nat (length data)); FLit " rows into ";
          FStr (table_ref_of p d t)] ∈ log.
Proof.
  rewrite run_load_data_to_bigquery. set (ref := table_ref_of p d t).
  destruct (Env.step _ (NewClient p) w) as [[u1|e] w1]; [|discriminate].
  destruct (Env.step _ (LoadTableFromJson _ _ _) w1) as [[job|e] w2] eqn:Hload;
    [|discriminate].
  apply env_load_job in Hload as ->.
  destruct (Env.step _ (JobResult _) w2) as [[u3|e] w3] eqn:Hjob; [|discriminate].
  apply env_job_result_truncate in Hjob.
  destruct (Env.step _ (GetTable ref) w3) as [[info|e] w4] eqn:Hget; [|discriminate].
  apply env_get_table in Hget as (Ht & tb & Htb & ->).
  rewrite Hjob in Htb. injection Htb as <-. simpl.
  intros [= <- <-]. split.
  - simpl. rewrite Ht. exact Hjob.
  - set_solver.
Qed.

Lemma env_run_files_eq {R : Type} (p : prog R) (w w' : Env.World) (o : outcome R)
    (log : list entry) :
  run Env.step p w = (o, log, w') → Env.files w' = Env.files w.
Proof. intros H. rewrite <- (env_run_files p w), H. reflexivity. Qed.

Lemma env_print_tables (m : message) (w w' : Env.World) (o : outcome unit)
    (log : list entry) :
  run Env.step (trigger (Print m)) w = (o, log, w') → Env.tables w' = Env.tables w.
Proof. simpl. intros [= _ _ <-]. reflexivity. Qed.

(** One run of [main] that returns: the destination table holds the
    records extracted from the file, under the schema of the script, and
    their number is the row count printed. *)
Lemma env_main_returned (args : Args) (text : pystr) (w w' : Env.World)
    (log : list entry) :
  Env.files w !! csv_file args = Some text →
  run Env.step (main args) w = (Returned tt, log, w') →
  ∃ js, extract text = Ok js ∧
    Env.tables w' !! table_ref_of (project_id args) (dataset_id args) (table_id args) =
      Some {| Env.table_schema := table_schema; Env.table_rows := js |} ∧
    EPrint [FLit "Loaded "; FInt (Z.of_nat (length js)); FLit " rows into ";
            FStr (table_ref_of (project_id args) (dataset_id args) (table_id args))]
      ∈ log.
Proof.
  intros Hfile Hrun. unfold main in Hrun.
  apply run_bind_returned in Hrun as (found & l1 & wa & ? & H1 & Hrun & ->).
  apply env_run_files_eq in H1 as F1.
  apply run_bind_returned in Hrun as (? & l2 & wb & ? & H2 & Hrun & ->).
  apply env_run_files_eq in H2 as F2.
  apply run_bind_returned in Hrun as (? & l3 & wc & ? & H3 & Hrun & ->).
  apply env_run_files_eq in H3 as F3.
  apply run_bind_returned in Hrun as (js & l4 & wd & ? & H4 & Hrun & ->).
  exists js.
  assert (Hjs : extract text = Ok js).
  { unfold process_scimagojr_csv in H4.
    apply run_bind_returned in H4 as (text' & l5 & we & ? & Hread & Htext & ->).
    rewrite run_call in Hread.
    destruct (Env.step _ (ReadText (csv_file args)) wc) as [[txt|e] wr] eqn:Hstep;
      [|discriminate]. apply env_read_text in Hstep.
    injection Hread as -> _ _.
    rewrite F3, F2, F1, Hfile in Hstep. injection Hstep as ->.
    pose proof (extract_run Env.step text' we) as Hex. rewrite Htext in Hex.
    simpl in Hex. destruct (extract text'); congruence. }
  split; [exact Hjs|].
  do 6 (apply run_bind_returned in Hrun as (? & ? & ? & ? & _ & Hrun & ->)).
  apply run_bind_returned in Hrun as ([] & lload & wl & ? & Hload & Hrun & ->).
  apply env_load_returned in Hload as [Htable Hprint].
  apply run_bind_returned in Hrun as (? & ? & ? & ? & P1 & Hrun & ->).
  apply run_bind_returned in Hrun as (? & ? & ? & ? & P2 & Hrun & ->).
  apply run_bind_returned in Hrun as (? & ? & ? & ? & P3 & Hrun & ->).
  apply env_print_tables in P1, P2, P3, Hrun.
  split.
  - rewrite Hrun, P3, P2, P1. exact Htable.
  - set_solver.
Qed.

(** C9.  In the reference environment, two runs of the pipeline on the
    same input text that both return leave the same destination table:
    exactly the records extracted from the text under the schema of the
    script, whatever the tables held before each run; the row count
    reported is the same.  The second run may start where the first one
    ended. *)
Theorem C9_full_refresh_is_idempotent (args : Args) (text : pystr)
    (w1 w2 w1' w2' : Env.World) (log1 log2 : list entry) :
  Env.files w1 !! csv_file args = Some text →
  Env.files w2 !! csv_file args = Some text →
  run Env.step (main args) w1 = (Returned tt, log1, w1') →
  run Env.step (main args) w2 = (Returned tt, log2, w2') →
  let ref := table_ref_of (project_id args) (dataset_id args) (table_id args) in
  ∃ js, extract text = Ok js ∧
    Env.tables w1' !! ref =
      Some {| Env.table_schema := table_schema; Env.table_rows := js |} ∧
    Env.tables w2' !! ref = Env.tables w1' !! ref ∧
    Env.files w1' !! csv_file args = Some text ∧
    EPrint [FLit "Loaded "; FInt (Z.of_nat (length js)); FLit " rows into "; FStr ref]
      ∈ log1 ∧
    EPrint [FLit "Loaded "; FInt (Z.of_nat (length js)); FLit " rows into "; FStr ref]
      ∈ log2.
Proof.
  intros Hf1 Hf2 Hrun1 Hrun2 ref.
  destruct (env_main_returned _ _ _ _ _ Hf1 Hrun1) as (js & Hjs & Ht1 & Hp1).
  destruct (env_main_returned _ _ _ _ _ Hf2 Hrun2) as (js' & Hjs' & Ht2 & Hp2).
  assert (js' = js) as -> by congruence.
  exists js. repeat split; try assumption.
  - unfold ref. rewrite Ht1, Ht2. reflexivity.
  - rewrite (env_run_files_eq _ _ _ _ _ Hrun1). exact Hf1.
Qed.

(** ** The claims at the sample inputs *)

Lemma C1_witness :
  ∃ j, run Env.step (process_row Sample.cell_row) Sample.empty_world
         = (Returned j, [], Sample.empty_world) ∧
       sjr j = Sample.float_14_1.
Proof.
  apply (C1_sjr_is_the_parsed_float Env.step Sample.empty_world Sample.cell_row
           (lit "Cell") (lit "14,1") Sample.float_14_1);
    vm_compute; reflexivity.
Defined.

(** The examples of the specification: ["1,234"] is read as 1.234, and
    the row [Cell;14,1] gives the score 14.1. *)
Example sjr_1_234 :
  PyFloat.float_of_str (replace comma period (strip (lit "1,234")))
  = Some Sample.float_1_234.
Proof. vm_compute. reflexivity. Qed.

Example cell_text_records :
  extract Sample.cell_text = Ok [{| title := lit "Cell"; sjr := Sample.float_14_1 |}].
Proof. vm_compute. reflexivity. Qed.




Lemma C4_witness :
  ∃ o w',
    run Env.step (main Sample.args) Sample.empty_world =
      (o, [EPathExists (lit "scimagojr_2024.csv") false;
           EPrint [FLit "Error: CSV file '"; FStr (lit "scimagojr_2024.csv");
                   FLit "' not found"]],
       w') ∧
    o = Exited 1 ∧ exit_status o ≠ 0%Z.
Proof.
  apply (C4_missing_file_exits_before_any_work Env.step Sample.empty_world Sample.args).
  vm_compute. reflexivity.
Defined.

Lemma C5_witness :
  ∃ j log w',
    run Env.step (process_row Sample.padded_row) Sample.empty_world
      = (Returned j, log, w') ∧
    title j = strip (lit "  Nature Reviews  ") ∧
    ∃ l r, lit "  Nature Reviews  " = l ++ title j ++ r ∧
           all_whitespace l ∧ all_whitespace r ∧ trimmed (title j).
Proof.
  apply (C5_title_is_trimmed_field Env.step Sample.empty_world Sample.padded_row
           (lit "  Nature Reviews  ") (lit " 1,234 "));
    vm_compute; reflexivity.
Defined.

Example strip_nature_reviews :
  strip (lit "  Nature Reviews  ") = lit "Nature Reviews".
Proof. vm_compute. reflexivity. Qed.

(** The deletion is refused ([Forbidden]); the table is created all the
    same and the run returns. *)
Lemma C6_witness :
  ∃ mid ans_c post',
    [ECreateTable Sample.table_ref table_schema (Ok tt);
     EPrint [FLit "Created table "; FStr Sample.table_ref]]
      = mid ++ ECreateTable
                 (table_ref_of (lit "proj") (lit "journal_rank") (lit "scimagojr_2024"))
                 table_schema ans_c :: post' ∧
    (mid = [] ∨
     mid = [EPrint [FLit "Deleted existing table ";
                    FStr (table_ref_of (lit "proj") (lit "journal_rank")
                            (lit "scimagojr_2024"))]]) ∧
    Returned Sample.table_ref =
      match ans_c with
      | Ok _ => Returned (table_ref_of (lit "proj") (lit "journal_rank")
                            (lit "scimagojr_2024"))
      | Raise e => Uncaught e
      end.
Proof.
  apply (C6_delete_failure_swallowed_create_failure_raised Env.step
           Sample.forbidden_world (lit "proj") (lit "journal_rank") (lit "scimagojr_2024")
           (Returned Sample.table_ref)
           (run Env.step (create_bigquery_table (lit "proj") (lit "journal_rank")
                            (lit "scimagojr_2024")) Sample.forbidden_world).1.2
           (run Env.step (create_bigquery_table (lit "proj") (lit "journal_rank")
                            (lit "scimagojr_2024")) Sample.forbidden_world).2
           [ENewClient (lit "proj") (Ok tt);
            ENewTable Sample.table_ref table_schema (Ok tt)]
           [ECreateTable Sample.table_ref table_schema (Ok tt);
            EPrint [FLit "Created table "; FStr Sample.table_ref]]
           (Raise (EnvError "Forbidden")));
    vm_compute; reflexivity.
Defined.


Example mixed_text_records :
  extract Sample.mixed_text =
  Ok [ {| title := lit "Cell"; sjr := Sample.float_14_1 |};
       {| title := lit "Lancet"; sjr := S754_zero false |};
       {| title := lit "Acta"; sjr := S754_infinity false |};
       {| title := lit "Brain"; sjr := S754_nan |} ].
Proof. vm_compute. reflexivity. Qed.

(** One record is sent to a warehouse that stores nothing: the count
    printed is the 0 of the fetched metadata, not the 1 sent. *)
Lemma C8_witness :
  let data := [{| title := lit "Cell"; sjr := Sample.float_14_1 |}] in
  let ref := table_ref_of (lit "proj") (lit "journal_rank") (lit "scimagojr_2024") in
  let cfg := {| schema := table_schema; write_disposition := WRITE_TRUNCATE |} in
  let job := {| job_rows := data; job_destination := ref; job_config := cfg |} in
  ∃ job',
    [ENewClient (lit "proj") (Ok tt); ELoadTableFromJson data ref cfg (Ok job);
     EJobResult job (Ok tt)]
    = [ENewClient (lit "proj") (Ok tt); ELoadTableFromJson data ref cfg (Ok job');
       EJobResult job' (Ok tt)] ∧
    [EPrint [FLit "Loaded "; FInt 0; FLit " rows into "; FStr ref]]
    = [EPrint [FLit "Loaded "; FInt (num_rows {| num_rows := 0 |});
               FLit " rows into "; FStr ref]].
Proof.
  intros data ref cfg job.
  apply (C8_load_waits_then_reports_fetched_count Sample.forgetful tt
           (lit "proj") (lit "journal_rank") (lit "scimagojr_2024") data
           (Returned tt)
           (run Sample.forgetful
              (load_data_to_bigquery (lit "proj") (lit "journal_rank")
                 (lit "scimagojr_2024") data) tt).1.2
           tt
           [ENewClient (lit "proj") (Ok tt); ELoadTableFromJson data ref cfg (Ok job);
            EJobResult job (Ok tt)]
           [EPrint [FLit "Loaded "; FInt 0; FLit " rows into "; FStr ref]]
           (Ok {| num_rows := 0 |}));
    vm_compute; reflexivity.
Defined.

(** The pipeline run twice on the file of the end-to-end scenario, the
    first time over a table of another shape with two other rows: both
    times the table ends with the one record of the file, and the count
    reported is 1. *)
Lemma C9_witness :
  let w1 := Sample.stale_world in
  let w2 := (run Env.step (main Sample.args) w1).2 in
  let w3 := (run Env.step (main Sample.args) w2).2 in
  let ref := table_ref_of (project_id Sample.args) (dataset_id Sample.args)
               (table_id Sample.args) in
  ∃ js, extract Sample.cell_text = Ok js ∧
    Env.tables w2 !! ref =
      Some {| Env.table_schema := table_schema; Env.table_rows := js |} ∧
    Env.tables w3 !! ref = Env.tables w2 !! ref ∧
    Env.files w2 !! csv_file Sample.args = Some Sample.cell_text ∧
    EPrint [FLit "Loaded "; FInt (Z.of_nat (length js)); FLit " rows into "; FStr ref]
      ∈ (run Env.step (main Sample.args) w1).1.2 ∧
    EPrint [FLit "Loaded "; FInt (Z.of_nat (length js)); FLit " rows into "; FStr ref]
      ∈ (run Env.step (main Sample.args) w2).1.2.
Proof.
  intros w1 w2 w3 ref.
  apply (C9_full_refresh_is_idempotent Sample.args Sample.cell_text w1 w2 w2 w3);
    vm_compute; reflexivity.
Defined.

Example end_to_end_row_count :
  Env.tables (run Env.step (main Sample.args) Sample.stale_world).2 !! Sample.table_ref
    = Some {| Env.table_schema := table_schema;
              Env.table_rows := [{| title := lit "Cell"; sjr := Sample.float_14_1 |}] |} ∧
  EGetTable Sample.table_ref (Ok {| num_rows := 1 |})
    ∈ (run Env.step (main Sample.args) Sample.stale_world).1.2.
Proof. split; [vm_compute; reflexivity|]. vm_compute. set_solver. Qed.

(** A header without [Title] and one data row: [KeyError]. *)
Lemma C10_witness :
  ∃ e log w',
    run Env.step (process_text Sample.no_title_text) Sample.empty_world
      = (Uncaught e, log, w') ∧ is_lookup_error e.
Proof.
  apply (C10_missing_field_raises Env.step Sample.empty_world Sample.no_title_text
           [lit "Name"; lit "SJR"] [[lit "Cell"; lit "14,1"]] None
           [lit "Cell"; lit "14,1"]).
  - vm_compute. reflexivity.
  - apply list_elem_of_here.
  - discriminate.
  - left. left. intros H. apply list_elem_of_In in H. simpl in H.
    vm_compute in H. intuition discriminate.
Defined.

Example no_title_raises_key_error :
  extract Sample.no_title_text = Raise (KeyError (lit "Title")).
Proof. vm_compute. reflexivity. Qed.

Example short_row_raises_attribute_error :
  extract Sample.short_row_text = Raise (AttributeError "NoneType").
Proof. vm_compute. reflexivity. Qed.

(** A header without a [Title] column and no data row: nothing is
    raised, the extractor returns no record. *)
Lemma C10_counterexample :
  lit "Title" ∉ [lit "Name"; lit "SJR"] ∧
  reader (file_lines Sample.header_only_text) = ([[lit "Name"; lit "SJR"]], None) ∧
  run Env.step (process_text Sample.header_only_text) Sample.empty_world
    = (Returned [], [], Sample.empty_world).
Proof.
  split; [|split; [vm_compute; reflexivity|vm_compute; reflexivity]].
  intros H. apply list_elem_of_In in H. vm_compute in H. intuition discriminate.
Qed.

(** * Further properties of the script *)

Import Narrative.

(** ** Sequences of prints *)

Lemma run_print_then {W R : Type} (h : handler W) (m : message) (p : prog R) (w : W) :
  run h (trigger (Print m);; p) w =
  let '(o, log, w') := run h p (h _ (Print m) w).2 in (o, EPrint m :: log, w').
Proof.
  rewrite run_bind, run_trigger.
  destruct (run h p (h _ (Print m) w).2) as [[o log] w']. reflexivity.
Qed.

Lemma run_for_each_print {W A : Type} (h : handler W) (l : list A) (g : A -> message)
    (w : W) :
  run h (for_each l (fun x => trigger (Print (g x)))) w =
  (Returned tt, EPrint <$> (g <$> l), printed h (g <$> l) w).
Proof.
  revert w. induction l as [|x l IH]; intros w; [reflexivity|].
  cbn [for_each]. rewrite run_print_then, IH. reflexivity.
Qed.

Lemma printed_app {W : Type} (h : handler W) (ms1 ms2 : list message) (w : W) :
  printed h (ms1 ++ ms2) w = printed h ms2 (printed h ms1 w).
Proof. unfold printed. apply fold_left_app. Qed.

Lemma run_process_scimagojr_csv {W : Type} (h : handler W) (path : pystr) (w : W) :
  run h (process_scimagojr_csv path) w =
  match h _ (ReadText path) w with
  | (Raise e, w1) => (Uncaught e, [EReadText path (Raise e)], w1)
  | (Ok text, w1) =>
      (match extract text with Ok js => Returned js | Raise e => Uncaught e end,
       EReadText path (Ok text)
         :: (EPrint <$> warnings (convert_rows (data_rows text)).1),
       printed h (warnings (convert_rows (data_rows text)).1) w1)
  end.
Proof.
  unfold process_scimagojr_csv. rewrite run_bind, run_call.
  destruct (h _ (ReadText path) w) as [[text|e] w1]; cbn [fst snd]; [|reflexivity].
  pose proof (extract_run h text w1) as Hex. rewrite run_process_text in Hex |- *.
  cbn [fst] in Hex. rewrite Hex. reflexivity.
Qed.

(** [main] is the sequence of its parts, cut at the first one that does
    not return. *)
Lemma run_main {W : Type} (h : handler W) (args : Args) (w : W) :
  let p := project_id args in
  let d := dataset_id args in
  let t := table_id args in
  let head := [EPathExists (csv_file args) true; EPrint (processing args)] in
  run h (main args) w =
  match h _ (PathExists (csv_file args)) w with
  | (false, w1) =>
      let err := [FLit "Error: CSV file '"; FStr (csv_file args); FLit "' not found"] in
      (Exited 1, [EPathExists (csv_file args) false; EPrint err], (h _ (Print err) w1).2)
  | (true, w1) =>
      match run h (process_scimagojr_csv (csv_file args))
              (h _ (Print (processing args)) w1).2 with
      | (Returned js, l1, w3) =>
          match run h (create_bigquery_table p d t) (printed h (report js) w3) with
          | (Returned _, l2, w5) =>
              match run h (load_data_to_bigquery p d t js)
                      (h _ (Print loading) w5).2 with
              | (Returned _, l3, w7) =>
                  (Returned tt,
                   head ++ l1 ++ (EPrint <$> report js) ++ l2 ++ [EPrint loading] ++ l3
                   ++ (EPrint <$> closing args),
                   printed h (closing args) w7)
              | (Uncaught e, l3, w7) =>
                  (Uncaught e,
                   head ++ l1 ++ (EPrint <$> report js) ++ l2 ++ [EPrint loading] ++ l3,
                   w7)
              | (Exited c, l3, w7) =>
                  (Exited c,
                   head ++ l1 ++ (EPrint <$> report js) ++ l2 ++ [EPrint loading] ++ l3,
                   w7)
              end
          | (Uncaught e, l2, w5) =>
              (Uncaught e, head ++ l1 ++ (EPrint <$> report js) ++ l2, w5)
          | (Exited c, l2, w5) =>
              (Exited c, head ++ l1 ++ (EPrint <$> report js) ++ l2, w5)
          end
      | (Uncaught e, l1, w3) => (Uncaught e, head ++ l1, w3)
      | (Exited c, l1, w3) => (Exited c, head ++ l1, w3)
      end
  end.
Proof.
  intros p d t head. unfold main. rewrite run_bind, run_trigger.
  destruct (h _ (PathExists (csv_file args)) w) as [[|] w1]; cbn [fst snd negb].
  2: { rewrite run_bind, run_bind, run_trigger. reflexivity. }
  rewrite run_bind. cbn [run]. rewrite run_print_then, run_bind.
  fold (processing args).
  destruct (run h (process_scimagojr_csv (csv_file args)) _) as [[[js|e|c] l1] w3];
    try reflexivity.
  rewrite run_print_then, run_print_then, run_bind, run_for_each_print.
  rewrite run_print_then, run_bind. fold p d t.
  assert (Hw :
    (h unit (Print [newline; FLit "Creating BigQuery table..."])
       (printed h
          ((fun x : journal => [FLit "  "; FStr (title x); FLit ": "; FFloat (sjr x)])
             <$> take 5 js)
          (h unit (Print [newline; FLit "Sample data (first 5 entries):"])
             (h unit (Print [FLit "Extracted "; FInt (Z.of_nat (length js));
                             FLit " journal entries"]) w3).2).2)).2
    = printed h (report js) w3).
  { unfold report, sample_line. rewrite !printed_app. reflexivity. }
  rewrite Hw.
  assert (Hlog : ∀ rest : list entry,
    EPathExists (csv_file args) true
      :: EPrint (processing args)
      :: l1 ++
         EPrint [FLit "Extracted "; FInt (Z.of_nat (length js)); FLit " journal entries"]
         :: EPrint [newline; FLit "Sample data (first 5 entries):"]
         :: (EPrint <$> (sample_line <$> take 5 js)) ++
            EPrint [newline; FLit "Creating BigQuery table..."] :: rest
    = head ++ l1 ++ (EPrint <$> report js) ++ rest).
  { intros rest. unfold head, report. rewrite !fmap_app. cbn.
    rewrite <- !app_assoc. reflexivity. }
  destruct (run h (create_bigquery_table p d t) _) as [[[r|e|c] l2] w5].
  - rewrite run_print_then, run_bind. fold loading.
    destruct (run h (load_data_to_bigquery p d t js) _) as [[[[]|e|c] l3] w7].
    + rewrite !run_print_then, run_trigger. cbn [fst snd].
      rewrite <- Hlog. fold t. unfold closing, printed. cbn.
      destruct (h unit (Print [FLit "2. Redeploy the Cloud Function"]) _) as [[] w8].
      reflexivity.
    + rewrite <- Hlog. reflexivity.
    + rewrite <- Hlog. reflexivity.
  - rewrite <- Hlog. reflexivity.
  - rewrite <- Hlog. reflexivity.
Qed.

(** ** What each part logs *)

Ltac split_in H :=
  repeat first [rewrite elem_of_app in H | rewrite elem_of_cons in H
               | rewrite elem_of_nil in H].

Ltac each_entry :=
  repeat first [apply Forall_nil_2 | apply Forall_cons_2]; simpl; eauto.

Lemma convert_warning (row : row_dict) (j : journal) (m : message) :
  convert row = Ok (j, Some m) → ∃ s t, m = warning s t.
Proof.
  intros H. destruct (convert_ok_fields _ _ H) as (t & s & Ht & Hs).
  rewrite (convert_fields _ _ _ Ht Hs) in H.
  destruct (PyFloat.float_of_str _); simplify_eq. eauto.
Qed.

Lemma convert_rows_prefix (rows : list row_dict) :
  ∃ good, good `prefix_of` rows ∧
          Forall2 (fun row jm => convert row = Ok jm) good (convert_rows rows).1.
Proof.
  induction rows as [|row rest (good & Hpre & Hall)]; simpl.
  - exists []. split; [reflexivity|constructor].
  - destruct (convert row) as [jm|e] eqn:Hrow.
    + destruct (convert_rows rest) as [jms e]. exists (row :: good). split.
      * apply prefix_cons. exact Hpre.
      * constructor; assumption.
    + exists []. split; [apply prefix_nil|constructor].
Qed.

Lemma warnings_are_warnings (rows : list row_dict) :
  Forall (fun m => ∃ s t, m = warning s t) (warnings (convert_rows rows).1).
Proof.
  destruct (convert_rows_prefix rows) as (good & _ & Hall).
  unfold warnings. induction Hall as [|row [j [m|]] good jms Hrow _ IH]; simpl.
  - constructor.
  - constructor; [eapply convert_warning; exact Hrow|exact IH].
  - exact IH.
Qed.

Lemma extract_log_entries {W : Type} (h : handler W) (path : pystr) (w w' : W)
    (o : outcome (list journal)) (log : list entry) :
  run h (process_scimagojr_csv path) w = (o, log, w') →
  Forall (extract_entry path) log ∧
  (∀ c, o ≠ Exited c) ∧
  ∀ js, o = Returned js →
    ∃ text, EReadText path (Ok text) ∈ log ∧ extract text = Ok js.
Proof.
  rewrite run_process_scimagojr_csv.
  destruct (h _ (ReadText path) w) as [[text|e] w1]; intros [= <- <- <-].
  - split; [|split].
    + constructor; [reflexivity|]. apply Forall_fmap.
      eapply Forall_impl; [apply warnings_are_warnings|]. intros m Hm. exact Hm.
    + intros c. destruct (extract text); discriminate.
    + intros js Hjs. exists text. split; [apply list_elem_of_here|].
      destruct (extract text); congruence.
  - split; [|split].
    + repeat constructor.
    + discriminate.
    + discriminate.
Qed.

Lemma create_log_entries {W : Type} (h : handler W) (p d t : pystr) (w w' : W)
    (o : outcome pystr) (log : list entry) :
  run h (create_bigquery_table p d t) w = (o, log, w') →
  Forall (create_entry (table_ref_of p d t)) log ∧
  (∀ c, o ≠ Exited c) ∧
  ∀ r, o = Returned r →
    r = table_ref_of p d t ∧
    ECreateTable (table_ref_of p d t) table_schema (Ok tt) ∈ log.
Proof.
  rewrite run_create_bigquery_table. set (ref := table_ref_of p d t).
  destruct (h _ (NewClient p) w) as [[u1|e] w1].
  2: { intros [= <- <- <-]. repeat split; try discriminate. each_entry. }
  destruct (h _ (NewTable ref table_schema) w1) as [[u2|e] w2].
  2: { intros [= <- <- <-]. repeat split; try discriminate. each_entry. }
  destruct (h _ (DeleteTable ref) w2) as [[u3|e3] w3]; cbn [fst snd];
    destruct (h _ (CreateTable ref table_schema) _) as [[[]|e4] w4];
    intros [= <- <- <-]; (split; [|split]); try discriminate;
    try (intros r [= <-]; split; [reflexivity|set_solver]);
    each_entry.
Qed.

Lemma load_log_entries {W : Type} (h : handler W) (p d t : pystr) (data : list journal)
    (w w' : W) (o : outcome unit) (log : list entry) :
  run h (load_data_to_bigquery p d t data) w = (o, log, w') →
  Forall (load_entry (table_ref_of p d t) data) log ∧
  (∀ c, o ≠ Exited c) ∧
  (o = Returned tt →
   ∃ job info, EJobResult job (Ok tt) ∈ log ∧
               EGetTable (table_ref_of p d t) (Ok info) ∈ log).
Proof.
  rewrite run_load_data_to_bigquery. set (ref := table_ref_of p d t).
  destruct (h _ (NewClient p) w) as [[u1|e] w1].
  2: { intros [= <- <- <-]. repeat split; try discriminate. each_entry. }
  destruct (h _ (LoadTableFromJson _ _ _) w1) as [[job|e] w2].
  2: { intros [= <- <- <-]. repeat split; try discriminate. each_entry. }
  destruct (h _ (JobResult job) w2) as [[[]|e] w3].
  2: { intros [= <- <- <-]. repeat split; try discriminate. each_entry. }
  destruct (h _ (GetTable ref) w3) as [[info|e] w4]; intros [= <- <- <-].
  - split; [|split]; try discriminate.
    + each_entry.
    + intros _. exists job, info. split; set_solver.
  - repeat split; try discriminate. each_entry.
Qed.

(** ** The runs of [main], by the part that ends them *)

Lemma main_cases {W : Type} (h : handler W) (args : Args) (w w' : W)
    (o : outcome unit) (log : list entry) :
  run h (main args) w = (o, log, w') →
  let f := csv_file args in
  let ref := table_ref_of (project_id args) (dataset_id args) (table_id args) in
  let head := [EPathExists f true; EPrint (processing args)] in
  (o = Exited 1 ∧
   log = [EPathExists f false;
          EPrint [FLit "Error: CSV file '"; FStr f; FLit "' not found"]])
  ∨ (∃ e l1, o = Uncaught e ∧ log = head ++ l1 ∧ Forall (extract_entry f) l1)
  ∨ ∃ js text l1 l2,
      Forall (extract_entry f) l1 ∧ EReadText f (Ok text) ∈ l1 ∧ extract text = Ok js ∧
      Forall (create_entry ref) l2 ∧
      ((∃ e, o = Uncaught e ∧ log = head ++ l1 ++ (EPrint <$> report js) ++ l2)
       ∨ ECreateTable ref table_schema (Ok tt) ∈ l2 ∧
         ∃ l3, Forall (load_entry ref js) l3 ∧
           ((∃ e, o = Uncaught e ∧
                  log = head ++ l1 ++ (EPrint <$> report js) ++ l2
                        ++ [EPrint loading] ++ l3)
            ∨ (o = Returned tt ∧
               (∃ job info, EJobResult job (Ok tt) ∈ l3 ∧ EGetTable ref (Ok info) ∈ l3) ∧
               log = head ++ l1 ++ (EPrint <$> report js) ++ l2
                     ++ [EPrint loading] ++ l3 ++ (EPrint <$> closing args)))).
Proof.
  rewrite run_main. intros Hrun f ref head.
  destruct (h _ (PathExists (csv_file args)) w) as [[|] w1].
  2: { injection Hrun as <- <- <-. left. auto. }
  right.
  destruct (run h (process_scimagojr_csv (csv_file args)) _) as [[o1 l1] w3] eqn:H1.
  apply extract_log_entries in H1 as (Hl1 & Hex1 & Hjs).
  destruct o1 as [js|e|c]; [|injection Hrun as <- <- <-; left; eauto|destruct (Hex1 c eq_refl)].
  right. destruct (Hjs js eq_refl) as (text & Hread & Hextract).
  exists js, text, l1.
  destruct (run h (create_bigquery_table _ _ _) _) as [[o2 l2] w5] eqn:H2.
  apply create_log_entries in H2 as (Hl2 & Hex2 & Hret2).
  exists l2. do 4 (split; [assumption|]).
  destruct o2 as [r|e|c]; [|injection Hrun as <- <- <-; left; eauto|destruct (Hex2 c eq_refl)].
  right. destruct (Hret2 r eq_refl) as [_ Hcreated]. split; [exact Hcreated|].
  destruct (run h (load_data_to_bigquery _ _ _ _) _) as [[o3 l3] w7] eqn:H3.
  apply load_log_entries in H3 as (Hl3 & Hex3 & Hret3).
  exists l3. split; [exact Hl3|].
  destruct o3 as [[]|e|c]; [|injection Hrun as <- <- <-; left; eauto|destruct (Hex3 c eq_refl)].
  injection Hrun as <- <- <-. right. auto.
Qed.

Lemma extract_entry_local (path : pystr) (e : entry) :
  extract_entry path e → is_warehouse_call e = false.
Proof. destruct e; simpl; intros H; try reflexivity; destruct H. Qed.

Lemma report_not_warehouse (js : list journal) (e : entry) :
  e ∈ EPrint <$> report js → ∃ m, e = EPrint m.
Proof. intros H. apply list_elem_of_fmap in H as (m & -> & _). eauto. Qed.

(** X1.  [main] calls the BigQuery client only after the file was read and
    every data row converted: with a file that cannot be read, a missing
    column or a short row, no client is built and no table is deleted,
    created or loaded. *)
Theorem main_warehouse_only_after_extraction {W : Type} (h : handler W) (args : Args)
    (w w' : W) (o : outcome unit) (log : list entry) (e : entry) :
  run h (main args) w = (o, log, w') →
  e ∈ log → is_warehouse_call e = true →
  ∃ text js, EReadText (csv_file args) (Ok text) ∈ log ∧ extract text = Ok js.
Proof.
  intros Hrun Hin Hcall. apply main_cases in Hrun.
  destruct Hrun as [[_ ->]|[(x & l1 & _ & -> & Hl1)|(js & text & l1 & l2 & Hl1 & Hread & Hex & _ & Hrest)]].
  - apply elem_of_cons in Hin as [->|Hin]; [discriminate|].
    apply elem_of_cons in Hin as [->|Hin]; [discriminate|]. inversion Hin.
  - apply elem_of_cons in Hin as [->|Hin]; [discriminate|].
    apply elem_of_cons in Hin as [->|Hin]; [discriminate|].
    rewrite Forall_forall in Hl1. apply Hl1, extract_entry_local in Hin. congruence.
  - exists text, js. split; [|exact Hex].
    assert (Hpre : ∀ rest, EReadText (csv_file args) (Ok text)
                     ∈ [EPathExists (csv_file args) true; EPrint (processing args)]
                       ++ l1 ++ rest).
    { intros rest. rewrite !elem_of_app. auto. }
    destruct Hrest as [(x & _ & ->)|(_ & l3 & _ & [(x & _ & ->)|(_ & _ & ->)])];
      apply Hpre.
Qed.

Lemma create_entry_not_load (ref : pystr) (rows : list journal) (r : pystr)
    (cfg : LoadJobConfig) (ans : result LoadJob) (l : list entry) :
  Forall (create_entry ref) l → ELoadTableFromJson rows r cfg ans ∉ l.
Proof.
  intros Hl Hin. rewrite Forall_forall in Hl. exact (Hl _ Hin).
Qed.

Lemma extract_entry_not_load (path : pystr) (rows : list journal) (r : pystr)
    (cfg : LoadJobConfig) (ans : result LoadJob) (l : list entry) :
  Forall (extract_entry path) l → ELoadTableFromJson rows r cfg ans ∉ l.
Proof.
  intros Hl Hin. rewrite Forall_forall in Hl. exact (Hl _ Hin).
Qed.

(** X2.  Whatever [main] hands to the load is the whole list of records
    extracted from the file it read, sent to the table
    [project.dataset.table] with the two-field schema and the write
    disposition [WRITE_TRUNCATE], and only after that table was created
    successfully. *)
Theorem main_loads_the_extracted_records {W : Type} (h : handler W) (args : Args)
    (w w' : W) (o : outcome unit) (log : list entry) (rows : list journal)
    (r : pystr) (cfg : LoadJobConfig) (ans : result LoadJob) :
  run h (main args) w = (o, log, w') →
  ELoadTableFromJson rows r cfg ans ∈ log →
  r = table_ref_of (project_id args) (dataset_id args) (table_id args) ∧
  cfg = {| schema := table_schema; write_disposition := WRITE_TRUNCATE |} ∧
  ECreateTable r table_schema (Ok tt) ∈ log ∧
  ∃ text, EReadText (csv_file args) (Ok text) ∈ log ∧ extract text = Ok rows.
Proof.
  intros Hrun Hin. apply main_cases in Hrun.
  destruct Hrun as [[_ ->]|[(x & l1 & _ & -> & Hl1)|(js & text & l1 & l2 & Hl1 & Hread & Hex & Hl2 & Hrest)]].
  - repeat (apply elem_of_cons in Hin as [Hin|Hin]; [discriminate|]). inversion Hin.
  - repeat (apply elem_of_cons in Hin as [Hin|Hin]; [discriminate|]).
    destruct (extract_entry_not_load _ _ _ _ _ _ Hl1 Hin).
  - assert (Hhead : ∀ rest, ELoadTableFromJson rows r cfg ans
              ∈ [EPathExists (csv_file args) true; EPrint (processing args)]
                ++ l1 ++ (EPrint <$> report js) ++ l2 ++ rest →
              ELoadTableFromJson rows r cfg ans ∈ rest).
    { intros rest. rewrite !elem_of_app.
      intros [H|[H|[H|[H|H]]]]; [| | | |exact H].
      - repeat (apply elem_of_cons in H as [H|H]; [discriminate|]). inversion H.
      - destruct (extract_entry_not_load _ _ _ _ _ _ Hl1 H).
      - apply report_not_warehouse in H as [m H]. discriminate.
      - destruct (create_entry_not_load _ _ _ _ _ _ Hl2 H). }
    assert (Hload : ∀ l3 rest, Forall (load_entry
                (table_ref_of (project_id args) (dataset_id args) (table_id args)) js) l3 →
              (∀ x, x ∈ rest → ∃ m, x = EPrint m) →
              ELoadTableFromJson rows r cfg ans ∈ [EPrint loading] ++ l3 ++ rest →
              rows = js ∧
              r = table_ref_of (project_id args) (dataset_id args) (table_id args) ∧
              cfg = {| schema := table_schema; write_disposition := WRITE_TRUNCATE |}).
    { intros l3 rest Hl3 Hprints. rewrite !elem_of_app.
      intros [H|[H|H]].
      - apply elem_of_cons in H as [H|H]; [discriminate|inversion H].
      - rewrite Forall_forall in Hl3. exact (Hl3 _ H).
      - apply Hprints in H as [m H]. discriminate. }
    destruct Hrest as [(x & _ & ->)|(Hcreated & l3 & Hl3 & [(x & _ & ->)|(_ & _ & ->)])].
    + specialize (Hhead []). rewrite app_nil_r in Hhead. apply Hhead in Hin. inversion Hin.
    + apply Hhead in Hin.
      destruct (Hload l3 [] Hl3) as (-> & -> & ->).
      { intros y Hy. inversion Hy. }
      { rewrite app_nil_r. exact Hin. }
      repeat split.
      * rewrite !elem_of_app. auto.
      * exists text. split; [rewrite !elem_of_app; auto|exact Hex].
    + apply Hhead in Hin.
      destruct (Hload l3 (EPrint <$> closing args) Hl3) as (-> & -> & ->).
      { intros y Hy. apply list_elem_of_fmap in Hy as (m & -> & _). eauto. }
      { exact Hin. }
      repeat split.
      * rewrite !elem_of_app. auto.
      * exists text. split; [rewrite !elem_of_app; auto|exact Hex].
Qed.

(** X3.  The closing message ["Done! ..."] is printed only by a run that
    returns, after the load job has completed and the table metadata was
    fetched: it is never printed by a run that ends in an exception or
    in [sys.exit]. *)
Theorem main_done_only_on_success {W : Type} (h : handler W) (args : Args)
    (w w' : W) (o : outcome unit) (log : list entry) :
  run h (main args) w = (o, log, w') →
  EPrint [newline; FLit "Done! Journal data has been loaded into BigQuery."] ∈ log →
  o = Returned tt ∧
  ∃ job info,
    EJobResult job (Ok tt) ∈ log ∧
    EGetTable (table_ref_of (project_id args) (dataset_id args) (table_id args))
      (Ok info) ∈ log.
Proof.
  intros Hrun Hin. apply main_cases in Hrun.
  set (done := EPrint [newline; FLit "Done! Journal data has been loaded into BigQuery."])
    in *.
  assert (Hex : ∀ l, Forall (extract_entry (csv_file args)) l → done ∉ l).
  { intros l Hl H. rewrite Forall_forall in Hl. destruct (Hl _ H) as (s & t & Hm).
    discriminate Hm. }
  assert (Hcr : ∀ l, Forall (create_entry
            (table_ref_of (project_id args) (dataset_id args) (table_id args))) l →
            done ∉ l).
  { intros l Hl H. rewrite Forall_forall in Hl. destruct (Hl _ H) as [Hm|Hm];
      discriminate Hm. }
  assert (Hld : ∀ js l, Forall (load_entry
            (table_ref_of (project_id args) (dataset_id args) (table_id args)) js) l →
            done ∉ l).
  { intros js l Hl H. rewrite Forall_forall in Hl. destruct (Hl _ H) as [n Hm].
    discriminate Hm. }
  assert (Hrep : ∀ js, done ∉ EPrint <$> report js).
  { intros js H. apply list_elem_of_fmap in H as (m & Hm & H). injection Hm as <-.
    unfold report in H. rewrite !elem_of_app in H. destruct H as [H|[H|H]].
    - repeat (apply elem_of_cons in H as [H|H]; [discriminate H|]). inversion H.
    - apply list_elem_of_fmap in H as (j & Hj & _). discriminate Hj.
    - repeat (apply elem_of_cons in H as [H|H]; [discriminate H|]). inversion H. }
  assert (Hhd : done ∉ [EPathExists (csv_file args) true; EPrint (processing args)]).
  { intros H. repeat (apply elem_of_cons in H as [H|H]; [discriminate H|]). inversion H. }
  destruct Hrun as [[_ ->]|[(x & l1 & _ & -> & Hl1)|(js & text & l1 & l2 & Hl1 & Hread & _ & Hl2 & Hrest)]].
  - repeat (apply elem_of_cons in Hin as [Hin|Hin]; [discriminate Hin|]). inversion Hin.
  - rewrite elem_of_app in Hin. destruct Hin as [H|H]; [destruct (Hhd H)|destruct (Hex _ Hl1 H)].
  - destruct Hrest as [(x & _ & ->)|(_ & l3 & Hl3 & [(x & _ & ->)|(-> & (job & info & Hjob & Hget) & ->)])].
    + rewrite !elem_of_app in Hin. destruct Hin as [H|[H|[H|H]]].
      * destruct (Hhd H).
      * destruct (Hex _ Hl1 H).
      * destruct (Hrep _ H).
      * destruct (Hcr _ Hl2 H).
    + rewrite !elem_of_app in Hin. destruct Hin as [H|[H|[H|[H|[H|H]]]]].
      * destruct (Hhd H).
      * destruct (Hex _ Hl1 H).
      * destruct (Hrep _ H).
      * destruct (Hcr _ Hl2 H).
      * apply elem_of_cons in H as [H|H]; [discriminate H|inversion H].
      * destruct (Hld _ _ Hl3 H).
    + split; [reflexivity|]. exists job, info. rewrite !elem_of_app. auto 10.
Qed.

(** ** Warnings *)

Lemma convert_row_warning (row : row_dict) (j : journal) (m : option message) :
  convert row = Ok (j, m) → m = row_warning row.
Proof.
  intros H. destruct (convert_ok_fields _ _ H) as (t & s & Ht & Hs).
  rewrite (convert_fields _ _ _ Ht Hs) in H. unfold row_warning. rewrite Ht, Hs.
  destruct (PyFloat.float_of_str _); congruence.
Qed.

Lemma warnings_row_warning (rows : list row_dict) (jms : list (journal * option message)) :
  Forall2 (fun row jm => convert row = Ok jm) rows jms →
  warnings jms = omap row_warning rows.
Proof.
  unfold warnings. induction 1 as [|row [j m] rows jms Hrow _ IH]; [reflexivity|].
  cbn [omap list_omap snd]. rewrite <- (convert_row_warning _ _ _ Hrow), <- IH.
  reflexivity.
Qed.


(** X4.  The extractor prints nothing but warnings: in a run that returns,
    exactly one for each data row whose score does not parse, in row
    order, and the environment is changed by these prints only. *)
Theorem extractor_prints_one_warning_per_unparsable_row {W : Type} (h : handler W)
    (w w' : W) (text : pystr) (js : list journal) (log : list entry) :
  run h (process_text text) w = (Returned js, log, w') →
  log = EPrint <$> omap row_warning (data_rows text) ∧
  w' = printed h (omap row_warning (data_rows text)) w.
Proof.
  intros Hrun. pose proof Hrun as Hret.
  apply process_text_returned in Hret as (_ & jms & Hjms & _).
  rewrite run_process_text, Hjms in Hrun. simpl in Hrun.
  apply convert_rows_none_inv in Hjms.
  rewrite (warnings_row_warning _ _ Hjms) in Hrun.
  injection Hrun as _ <- <-. auto.
Qed.





Lemma extract_ok_inv (text : pystr) (js : list journal) :
  extract text = Ok js →
  (DictReader (file_lines text)).2 = None ∧
  ∃ jms, convert_rows (data_rows text) = (jms, None) ∧ js = jms.*1.
Proof.
  unfold extract, data_rows. destruct (DictReader (file_lines text)) as [rows err].
  simpl. destruct (convert_rows rows) as [jms [e|]], err; try discriminate.
  intros [= <-]. eauto.
Qed.


(** ** The schema manager and the loader on their own *)

(** X8.  When the client or the table object cannot be built,
    [create_bigquery_table] ends in that exception before it has asked
    for any deletion or creation. *)
Theorem create_construction_failure_changes_no_table {W : Type} (h : handler W)
    (w w' : W) (p d t : pystr) (o : outcome pystr) (log : list entry) (e : exn) :
  run h (create_bigquery_table p d t) w = (o, log, w') →
  ENewClient p (Raise e) ∈ log ∨
  ENewTable (table_ref_of p d t) table_schema (Raise e) ∈ log →
  o = Uncaught e ∧ Forall (fun x => is_table_change x = false) log.
Proof.
  rewrite run_create_bigquery_table. set (ref := table_ref_of p d t).
  destruct (h _ (NewClient p) w) as [[u1|e1] w1].
  2: { intros [= <- <- <-] [H|H];
         repeat (apply elem_of_cons in H as [H|H]; [simplify_eq|]); try inversion H;
         split; try reflexivity; each_entry. }
  destruct (h _ (NewTable ref table_schema) w1) as [[u2|e2] w2].
  2: { intros [= <- <- <-] [H|H];
         repeat (apply elem_of_cons in H as [H|H]; [simplify_eq|]); try inversion H;
         split; try reflexivity; each_entry. }
  cbn [fst snd].
  destruct (h _ (DeleteTable ref) w2) as [[u3|e3] w3];
    destruct (h _ (CreateTable ref table_schema) _) as [[u4|e4] w4];
    intros [= <- <- <-] [H|H]; simpl in H;
    repeat (apply elem_of_cons in H as [H|H]; [simplify_eq|]); inversion H.
Qed.

(** X9.  [load_data_to_bigquery] ends with the first call that raises, in the
    exception of that call, and then it has printed no row count. *)
Theorem load_failure_is_the_first_raise {W : Type} (h : handler W) (w w' : W)
    (p d t : pystr) (data : list journal) (e : exn) (log : list entry) :
  run h (load_data_to_bigquery p d t data) w = (Uncaught e, log, w') →
  ∃ pre last, log = pre ++ [last] ∧ raised last = Some e ∧
    Forall (fun x => raised x = None) pre ∧
    ∀ m, EPrint m ∉ log.
Proof.
  rewrite run_load_data_to_bigquery. set (ref := table_ref_of p d t).
  assert (Hnp : ∀ (l : list entry) m,
            Forall (fun x => match x with EPrint _ => False | _ => True end) l →
            EPrint m ∉ l).
  { intros l m Hl H. rewrite Forall_forall in Hl. exact (Hl _ H). }
  destruct (h _ (NewClient p) w) as [[u1|e1] w1].
  2: { intros [= <- <- <-]. exists [], (ENewClient p (Raise e1)).
       repeat split; [constructor|]. intros m. apply Hnp. each_entry. }
  destruct (h _ (LoadTableFromJson _ _ _) w1) as [[job|e2] w2].
  2: { intros [= <- <- <-]. eexists [_], _.
       split; [reflexivity|]. split; [reflexivity|]. split; [each_entry|].
       intros m. apply Hnp. each_entry. }
  destruct (h _ (JobResult job) w2) as [[u3|e3] w3].
  2: { intros [= <- <- <-]. eexists [_; _], _.
       split; [reflexivity|]. split; [reflexivity|]. split; [each_entry|].
       intros m. apply Hnp. each_entry. }
  destruct (h _ (GetTable ref) w3) as [[info|e4] w4]; intros [= <- <- <-].
  eexists [_; _; _], _.
  split; [reflexivity|]. split; [reflexivity|]. split; [each_entry|].
  intros m. apply Hnp. each_entry.
Qed.

(** ** The schema manager in the reference environment *)

Lemma env_step_tables_same {X : Type} (ev : event X) (w : Env.World) :
  match ev with
  | DeleteTable _ | CreateTable _ _ | JobResult _ => True
  | _ => Env.tables (Env.step X ev w).2 = Env.tables w
  end.
Proof.
  destruct ev; simpl; try exact I; try reflexivity;
    match goal with
    | |- Env.tables (Env.fallible ?w ?k).2 = _ =>
        destruct (Env.fallible w k) as [r w'] eqn:H;
        apply fallible_inv in H as [(e & _ & _ & Ht)|(w0 & H & _ & Ht)];
        [exact Ht|rewrite <- Ht]
    end; simpl in *.
  - destruct (Env.files w0 !! path); injection H as _ <-; reflexivity.
  - injection H as _ <-. reflexivity.
  - injection H as _ <-. reflexivity.
  - injection H as _ <-. reflexivity.
  - destruct (Env.tables w0 !! table_ref); injection H as _ <-; reflexivity.
Qed.

Lemma env_delete_table (ref : pystr) (r : result unit) (w w' : Env.World) :
  Env.step _ (DeleteTable ref) w = (r, w') →
  match r with
  | Ok _ => Env.tables w' = delete ref (Env.tables w)
  | Raise _ => Env.tables w' = Env.tables w
  end.
Proof.
  simpl. intros H. apply fallible_inv in H as [(e & -> & _ & Ht)|(w0 & H & _ & Ht)];
    [exact Ht|].
  rewrite <- Ht. destruct (Env.tables w0 !! ref); injection H as <- <-; reflexivity.
Qed.

Lemma env_create_table (ref : pystr) (sch : list SchemaField) (r : result unit)
    (w w' : Env.World) :
  Env.step _ (CreateTable ref sch) w = (r, w') →
  match r with
  | Ok _ => Env.tables w !! ref = None ∧
            Env.tables w' =
              <[ref := {| Env.table_schema := sch; Env.table_rows := [] |}]> (Env.tables w)
  | Raise _ => Env.tables w' = Env.tables w
  end.
Proof.
  simpl. intros H. apply fallible_inv in H as [(e & -> & _ & Ht)|(w0 & H & _ & Ht)];
    [exact Ht|].
  rewrite <- Ht. destruct (Env.tables w0 !! ref) eqn:Hlook; injection H as <- <-; auto.
Qed.

Lemma env_create_exists (ref : pystr) (sch : list SchemaField) (w : Env.World) (tb : Env.Table) :
  Env.tables w !! ref = Some tb →
  ∃ e, (Env.step _ (CreateTable ref sch) w).1 = Raise e.
Proof.
  intros Htb. destruct (Env.step _ (CreateTable ref sch) w) as [[u|e] w'] eqn:H.
  - apply env_create_table in H as [Hnone _]. congruence.
  - eauto.
Qed.

Lemma env_new_client_tables (p : pystr) (w : Env.World) :
  Env.tables (Env.step _ (NewClient p) w).2 = Env.tables w.
Proof. exact (env_step_tables_same (NewClient p) w). Qed.

Lemma env_new_table_tables (ref : pystr) (sch : list SchemaField) (w : Env.World) :
  Env.tables (Env.step _ (NewTable ref sch) w).2 = Env.tables w.
Proof. exact (env_step_tables_same (NewTable ref sch) w). Qed.

Lemma env_print_step_tables (m : message) (w : Env.World) :
  Env.tables (Env.step _ (Print m) w).2 = Env.tables w.
Proof. reflexivity. Qed.

Lemma env_printed_tables (ms : list message) (w : Env.World) :
  Env.tables (printed Env.step ms w) = Env.tables w.
Proof.
  revert w. induction ms as [|m ms IH]; intros w; [reflexivity|].
  unfold printed in *. simpl. rewrite IH. reflexivity.
Qed.

Lemma env_create_returned (p d t : pystr) (w w' : Env.World)
    (r : pystr) (log : list entry) :
  run Env.step (create_bigquery_table p d t) w = (Returned r, log, w') →
  r = table_ref_of p d t ∧
  Env.tables w' =
    <[table_ref_of p d t := {| Env.table_schema := table_schema; Env.table_rows := [] |}]>
      (Env.tables w).
Proof.
  rewrite run_create_bigquery_table. set (ref := table_ref_of p d t).
  pose proof (env_new_client_tables p w) as T1.
  destruct (Env.step _ (NewClient p) w) as [[u1|e] w1]; [|discriminate].
  pose proof (env_new_table_tables ref table_schema w1) as T2.
  destruct (Env.step _ (NewTable ref table_schema) w1) as [[u2|e] w2]; [|discriminate].
  cbn [fst snd] in *.
  destruct (Env.step _ (DeleteTable ref) w2) as [[u3|e3] w3] eqn:Hdel;
    apply env_delete_table in Hdel; cbn [fst snd];
    destruct (Env.step _ (CreateTable ref table_schema) _) as [[u4|e4] w4] eqn:Hcr;
    try discriminate; apply env_create_table in Hcr as [_ Hcr];
    intros [= <- _ <-]; (split; [reflexivity|]);
    simpl; rewrite Hcr; simpl; rewrite Hdel, T2, T1.
  - apply insert_delete_eq.
  - reflexivity.
Qed.

(** X10.  In the reference environment, a [create_bigquery_table] that
    returns leaves the destination as an empty table with the two-field
    schema, whatever it held before, and every other table as it was. *)
Theorem env_create_leaves_an_empty_table (p d t : pystr) (w w' : Env.World)
    (r : pystr) (log : list entry) :
  run Env.step (create_bigquery_table p d t) w = (Returned r, log, w') →
  r = table_ref_of p d t ∧
  Env.tables w' !! table_ref_of p d t
    = Some {| Env.table_schema := table_schema; Env.table_rows := [] |} ∧
  ∀ other, other ≠ table_ref_of p d t →
           Env.tables w' !! other = Env.tables w !! other.
Proof.
  intros Hrun. apply env_create_returned in Hrun as [-> ->].
  split; [reflexivity|]. split; [apply lookup_insert_eq|].
  intros other Hne. apply lookup_insert_ne. congruence.
Qed.

(** X11.  In the reference environment, when the destination table exists and
    its deletion fails, the failure is swallowed, the creation is
    refused, and [create_bigquery_table] ends in an exception with every
    table as it was. *)
Theorem env_failed_delete_keeps_the_table (p d t : pystr) (w w' : Env.World)
    (o : outcome pystr) (log : list entry) (e : exn) (tb : Env.Table) :
  run Env.step (create_bigquery_table p d t) w = (o, log, w') →
  Env.tables w !! table_ref_of p d t = Some tb →
  EDeleteTable (table_ref_of p d t) (Raise e) ∈ log →
  (∃ e', o = Uncaught e' ∧
         ECreateTable (table_ref_of p d t) table_schema (Raise e') ∈ log) ∧
  Env.tables w' = Env.tables w.
Proof.
  rewrite run_create_bigquery_table. set (ref := table_ref_of p d t).
  pose proof (env_new_client_tables p w) as T1.
  destruct (Env.step _ (NewClient p) w) as [[u1|e1] w1].
  2: { intros [= <- <- <-] _ H.
       repeat (apply elem_of_cons in H as [H|H]; [simplify_eq|]). inversion H. }
  pose proof (env_new_table_tables ref table_schema w1) as T2.
  destruct (Env.step _ (NewTable ref table_schema) w1) as [[u2|e2] w2].
  2: { intros [= <- <- <-] _ H.
       repeat (apply elem_of_cons in H as [H|H]; [simplify_eq|]). inversion H. }
  cbn [fst snd] in *.
  destruct (Env.step _ (DeleteTable ref) w2) as [[u3|e3] w3] eqn:Hdel;
    apply env_delete_table in Hdel; cbn [fst snd].
  - destruct (Env.step _ (CreateTable ref table_schema) _) as [[u4|e4] w4];
      intros [= <- <- <-] _ H; simpl in H;
      repeat (apply elem_of_cons in H as [H|H]; [simplify_eq|]); inversion H.
  - intros Hrun Htb _.
    assert (Hthere : Env.tables w3 !! ref = Some tb) by (rewrite Hdel, T2, T1; exact Htb).
    destruct (env_create_exists ref table_schema w3 tb Hthere) as [e4 He4].
    destruct (Env.step _ (CreateTable ref table_schema) w3) as [[u4|e4'] w4] eqn:Hcr;
      simpl in He4; [discriminate|]. injection He4 as ->.
    apply env_create_table in Hcr. injection Hrun as <- <- <-. split.
    + exists e4. split; [reflexivity|]. set_solver.
    + rewrite Hcr, Hdel, T2, T1. reflexivity.
Qed.

Lemma env_job_result_raise (job : LoadJob) (e : exn) (w w' : Env.World) :
  Env.step _ (JobResult job) w = (Raise e, w') → Env.tables w' = Env.tables w.
Proof.
  simpl. intros H. apply fallible_inv in H as [(e' & _ & _ & Ht)|(w0 & H & _ & Ht)];
    [exact Ht|].
  rewrite <- Ht. unfold Env.write_rows in H.
  destruct (write_disposition (job_config job)),
    (Env.tables w0 !! job_destination job) as [tb|];
    try destruct (Env.table_rows tb); simplify_eq; reflexivity.
Qed.

Lemma env_load_failed_job (p d t : pystr) (data : list journal) (w w' : Env.World)
    (o : outcome unit) (log : list entry) (job : LoadJob) (e : exn) :
  run Env.step (load_data_to_bigquery p d t data) w = (o, log, w') →
  EJobResult job (Raise e) ∈ log →
  o = Uncaught e ∧ Env.tables w' = Env.tables w.
Proof.
  rewrite run_load_data_to_bigquery. set (ref := table_ref_of p d t).
  pose proof (env_new_client_tables p w) as T1.
  destruct (Env.step _ (NewClient p) w) as [[u1|e1] w1].
  2: { intros [= <- <- <-] H.
       repeat (apply elem_of_cons in H as [H|H]; [simplify_eq|]). inversion H. }
  pose proof (env_step_tables_same
                (LoadTableFromJson data ref
                   {| schema := table_schema; write_disposition := WRITE_TRUNCATE |}) w1)
    as T2. cbv beta iota in T2.
  destruct (Env.step _ (LoadTableFromJson _ _ _) w1) as [[job0|e2] w2].
  2: { intros [= <- <- <-] H.
       repeat (apply elem_of_cons in H as [H|H]; [simplify_eq|]). inversion H. }
  destruct (Env.step _ (JobResult job0) w2) as [[u3|e3] w3] eqn:Hjob.
  - destruct (Env.step _ (GetTable ref) w3) as [[info|e4] w4];
      intros [= <- <- <-] H;
      repeat (apply elem_of_cons in H as [H|H]; [simplify_eq|]); inversion H.
  - apply env_job_result_raise in Hjob. intros [= <- <- <-] H.
    repeat (apply elem_of_cons in H as [H|H]; [simplify_eq|]); [|inversion H].
    split; [reflexivity|]. cbn [snd] in *. rewrite Hjob, T2, T1. reflexivity.
Qed.

(** X12.  In the reference environment, when the load job of a run of [main]
    fails, the run ends in the exception of the job and the destination
    is left as the empty table the schema manager has just created: what
    it held before the run is gone. *)
Theorem env_failed_load_leaves_an_empty_table (args : Args) (w w' : Env.World)
    (o : outcome unit) (log : list entry) (job : LoadJob) (e : exn) :
  run Env.step (main args) w = (o, log, w') →
  EJobResult job (Raise e) ∈ log →
  o = Uncaught e ∧
  Env.tables w' !! table_ref_of (project_id args) (dataset_id args) (table_id args)
    = Some {| Env.table_schema := table_schema; Env.table_rows := [] |}.
Proof.
  set (ref := table_ref_of (project_id args) (dataset_id args) (table_id args)).
  rewrite run_main.
  assert (Hnp : ∀ ms : list message, EJobResult job (Raise e) ∉ EPrint <$> ms).
  { intros ms H. apply list_elem_of_fmap in H as (m & H & _). discriminate H. }
  destruct (Env.step _ (PathExists (csv_file args)) w) as [[|] w1].
  2: { intros [= <- <- <-] H. split_in H.
       intuition (try discriminate; try (exfalso; eapply Hnp; eassumption)). }
  destruct (run Env.step (process_scimagojr_csv _) _) as [[o1 l1] w3] eqn:H1.
  apply extract_log_entries in H1 as (Hl1 & _ & _).
  assert (Hn1 : EJobResult job (Raise e) ∉ l1).
  { intros H. rewrite Forall_forall in Hl1. exact (Hl1 _ H). }
  destruct o1 as [js|e1|c].
  2,3: intros [= <- <- <-] H; split_in H;
    intuition (try discriminate; try (exfalso; eapply Hnp; eassumption)).
  destruct (run Env.step (create_bigquery_table _ _ _) _) as [[o2 l2] w5] eqn:H2.
  pose proof H2 as Hl2. apply create_log_entries in Hl2 as (Hl2 & _ & _).
  assert (Hn2 : EJobResult job (Raise e) ∉ l2).
  { intros H. rewrite Forall_forall in Hl2. exact (Hl2 _ H). }
  pose proof (Hnp (report js)) as Hnr.
  destruct o2 as [r|e2|c].
  2,3: intros [= <- <- <-] H; split_in H;
    intuition (try discriminate; try (exfalso; eapply Hnp; eassumption)).
  apply env_create_returned in H2 as [_ H2].
  destruct (run Env.step (load_data_to_bigquery _ _ _ _) _) as [[o3 l3] w7] eqn:H3.
  intros Hrun Hin.
  assert (Hl3 : EJobResult job (Raise e) ∈ l3).
  { pose proof (Hnp (closing args)) as Hnc.
    destruct o3 as [[]|e3|c]; injection Hrun as _ <- _; split_in Hin;
      intuition (try discriminate; try (exfalso; eapply Hnp; eassumption)). }
  destruct (env_load_failed_job _ _ _ _ _ _ _ _ _ _ H3 Hl3) as [-> Ht].
  injection Hrun as <- _ <-. split; [reflexivity|].
  rewrite Ht. simpl. rewrite H2. apply lookup_insert_eq.
Qed.

(** ** Columns *)


(** ** The lines the reader is given *)

Import CsvText.

Lemma universal_newlines_cons (c : N) (r : pystr) :
  universal_newlines (c :: r) =
  if c =? 0x0D then
    0x0A :: universal_newlines
              match r with
              | c' :: r' => if c' =? 0x0A then r' else r
              | [] => r
              end
  else c :: universal_newlines r.
Proof.
  destruct (N.eqb_spec c 0x0D) as [->|Hc].
  - destruct r as [|c' r']; [reflexivity|].
    destruct (N.eqb_spec c' 0x0A) as [->|Hc']; [reflexivity|].
    destruct c' as [|p]; [reflexivity|].
    do 5 (try destruct p as [p|p|]); try reflexivity; congruence.
  - destruct c as [|p]; [reflexivity|].
    do 5 (try destruct p as [p|p|]); try reflexivity; congruence.
Qed.

Lemma universal_newlines_facts (n : nat) (s : pystr) :
  (length s <= n)%nat →
  (length (universal_newlines s) <= length s)%nat ∧
  Forall (fun c => c ≠ 0x0D) (universal_newlines s).
Proof.
  revert s. induction n as [|n IH]; intros s Hn.
  - destruct s; [|simpl in Hn; lia]. split; [reflexivity|constructor].
  - destruct s as [|c r]; [split; [reflexivity|constructor]|].
    rewrite universal_newlines_cons. simpl in Hn.
    destruct (N.eqb_spec c 0x0D) as [->|Hc].
    + destruct r as [|c' r'].
      * split; [reflexivity|repeat constructor; discriminate].
      * destruct (c' =? 0x0A).
        -- destruct (IH r') as [Hlen Hall]; [simpl in Hn; lia|].
           split; [simpl; lia|constructor; [discriminate|exact Hall]].
        -- destruct (IH (c' :: r')) as [Hlen Hall]; [simpl in *; lia|].
           split; [simpl in *; lia|constructor; [discriminate|exact Hall]].
    + destruct (IH r) as [Hlen Hall]; [lia|].
      split; [simpl; lia|constructor; assumption].
Qed.

Lemma concat_split_lines (s : pystr) : concat (split_lines s) = s.
Proof.
  induction s as [|c r IH]; [reflexivity|]. simpl.
  destruct (c =? 0x0A).
  - simpl. rewrite IH. reflexivity.
  - destruct (split_lines r) as [|l ls]; simpl in *; rewrite <- IH; reflexivity.
Qed.

Lemma split_lines_ok (s : pystr) :
  Forall (fun c => c ≠ 0x0D) s → Forall line_ok (split_lines s).
Proof.
  induction 1 as [|c r Hc _ IH]; [constructor|]. simpl.
  destruct (N.eqb_spec c 0x0A) as [->|Hnl].
  - constructor; [|exact IH]. exists []. split; [right; reflexivity|].
    split; apply not_elem_of_nil.
  - destruct (split_lines r) as [|l ls].
    + constructor; [|constructor]. exists [c]. split; [left; reflexivity|].
      split; intros H; apply list_elem_of_singleton in H; congruence.
    + apply Forall_cons in IH as [(body & Hl & H10 & H13) IH].
      constructor; [|exact IH]. exists (c :: body). split.
      * destruct Hl as [->| ->]; [left|right]; reflexivity.
      * split; intros H; apply elem_of_cons in H as [H|H]; congruence || tauto.
Qed.

Lemma file_lines_ok (text : pystr) :
  Forall line_ok (file_lines text) ∧
  (length (concat (file_lines text)) <= length text)%nat.
Proof.
  unfold file_lines.
  destruct (universal_newlines_facts (length text) text (le_n _)) as [Hlen Hall].
  split; [apply split_lines_ok; exact Hall|].
  rewrite concat_split_lines. exact Hlen.
Qed.

(** ** The parser, character by character *)

Lemma parse_add_char_spec (r : Reader) (c : N) :
  match parse_add_char r c with
  | Ok r' => state r' = state r ∧ fields r' = fields r ∧ field r' = field r ++ [c] ∧
             N.of_nat (length (field r)) < field_limit
  | Raise e => e = limit_error ∧ field_limit <= N.of_nat (length (field r))
  end.
Proof.
  unfold parse_add_char.
  destruct (N.leb_spec field_limit (N.of_nat (length (field r)))); simpl; auto.
Qed.

Ltac add_char r c :=
  let H := fresh "Hadd" in
  pose proof (parse_add_char_spec r c) as H;
  destruct (parse_add_char r c) as [?r'|?e];
  [destruct H as (?Hst & ?Hfs & ?Hf & ?Hlt)|destruct H as [-> ?Hge]].

Lemma char_step (r : Reader) (c : N) :
  c ≠ 0x0A → c ≠ 0x0D → state r ≠ EAT_CRNL →
  match parse_process_char r (Some c) with
  | Ok r' => state r' ≠ EAT_CRNL ∧ (length (field r') <= S (length (field r)))%nat
  | Raise e => e = limit_error ∧ field_limit <= N.of_nat (length (field r))
  end.
Proof.
  intros H10 H13 Hst. unfold parse_process_char, is_newline.
  apply N.eqb_neq in H10, H13. rewrite H10, H13. cbn [orb].
  destruct (state r) eqn:Hs; try congruence;
    destruct (c =? quotechar), (c =? delimiter); simpl; rewrite ?Hs;
    try (split; [discriminate|lia]);
    first
      [ add_char r c; simpl;
        [split; [congruence|rewrite ?Hf, ?length_app; simpl; lia]|auto]
      | add_char (set_state START_FIELD r) c; simpl;
        [split; [discriminate|rewrite ?Hf, ?length_app; simpl; lia]|auto] ].
Qed.

Lemma newline_step (r : Reader) :
  state r ≠ EAT_CRNL →
  match parse_process_char r (Some 0x0A) with
  | Ok r' => (length (field r') <= S (length (field r)))%nat
  | Raise e => e = limit_error ∧ field_limit <= N.of_nat (length (field r))
  end.
Proof.
  intros Hst. unfold parse_process_char, is_newline. cbn [N.eqb Pos.eqb orb].
  destruct (state r) eqn:Hs; try congruence; simpl; try lia.
  add_char r 0x0A; [rewrite Hf, length_app; simpl; lia|auto].
Qed.

Lemma eol_step (r : Reader) :
  ∃ r', parse_process_char r None = Ok r' ∧ state r' ≠ EAT_CRNL ∧
        (length (field r') <= length (field r))%nat.
Proof.
  unfold parse_process_char. destruct (state r) eqn:Hs; eexists;
    (split; [reflexivity|]); simpl; (split; [congruence|lia]).
Qed.

Lemma parse_line_feed (r : Reader) (a b : pystr) :
  parse_line r (a ++ b) =
  match feed r a with
  | Ok r' => parse_line r' b
  | Raise e => Raise e
  end.
Proof.
  revert r. induction a as [|c a IH]; intros r; [reflexivity|]. simpl.
  destruct (parse_process_char r (Some c)); [apply IH|reflexivity].
Qed.

Lemma feed_body (body : pystr) (r : Reader) :
  0x0A ∉ body → 0x0D ∉ body → state r ≠ EAT_CRNL →
  match feed r body with
  | Ok r' => state r' ≠ EAT_CRNL ∧
             (length (field r') <= length (field r) + length body)%nat
  | Raise e => e = limit_error ∧
               field_limit < N.of_nat (length (field r) + length body)
  end.
Proof.
  revert r. induction body as [|c body IH]; intros r H10 H13 Hst; simpl.
  - split; [exact Hst|lia].
  - apply not_elem_of_cons in H10 as [Hc10 H10], H13 as [Hc13 H13].
    pose proof (char_step r c (not_eq_sym Hc10) (not_eq_sym Hc13) Hst) as Hc.
    destruct (parse_process_char r (Some c)) as [r'|e].
    + destruct Hc as [Hst' Hlen]. specialize (IH r' H10 H13 Hst').
      destruct (feed r' body) as [r''|e].
      * destruct IH as [? ?]. split; [assumption|lia].
      * destruct IH as [-> ?]. split; [reflexivity|lia].
    + destruct Hc as [-> Hge]. split; [reflexivity|lia].
Qed.

Lemma parse_line_ok (l : pystr) (r : Reader) :
  line_ok l → state r ≠ EAT_CRNL →
  match parse_line r l with
  | Ok r' => state r' ≠ EAT_CRNL ∧
             (length (field r') <= length (field r) + length l)%nat
  | Raise e => e = limit_error ∧ field_limit < N.of_nat (length (field r) + length l)
  end.
Proof.
  intros (body & Hl & H10 & H13) Hst.
  pose proof (feed_body body r H10 H13 Hst) as Hbody.
  destruct Hl as [->| ->].
  - pose proof (parse_line_feed r body []) as Hfeed. rewrite app_nil_r in Hfeed.
    rewrite Hfeed.
    destruct (feed r body) as [r'|e]; [|exact Hbody]. destruct Hbody as [Hst' Hlen].
    simpl. destruct (eol_step r') as (r'' & -> & ? & ?). split; [assumption|lia].
  - rewrite parse_line_feed, length_app. simpl.
    destruct (feed r body) as [r'|e].
    + destruct Hbody as [Hst' Hlen]. pose proof (newline_step r' Hst') as Hn.
      destruct (parse_process_char r' (Some 0x0A)) as [r''|e].
      * destruct (eol_step r'') as (r3 & -> & ? & ?). split; [assumption|lia].
      * destruct Hn as [-> ?]. split; [reflexivity|lia].
    + destruct Hbody as [-> ?]. split; [reflexivity|lia].
Qed.

Lemma rows_from_error (lines : list pystr) (r : Reader) (e : exn) :
  Forall line_ok lines → state r ≠ EAT_CRNL →
  (rows_from r lines).2 = Some e →
  e = limit_error ∧ field_limit < N.of_nat (length (field r) + length (concat lines)).
Proof.
  intros Hlines. revert r. induction Hlines as [|l lines Hl _ IH]; intros r Hst; simpl.
  - destruct (pending r); discriminate.
  - pose proof (parse_line_ok l r Hl Hst) as Hline.
    destruct (parse_line r l) as [r'|e'].
    + destruct Hline as [Hst' Hlen]. rewrite length_app.
      destruct (state r') eqn:Hs.
      * specialize (IH parse_reset). simpl in IH.
        destruct (rows_from parse_reset lines) as [rows e0]. simpl. intros He.
        destruct (IH ltac:(discriminate) He) as [-> ?]. split; [reflexivity|lia].
      * intros He. destruct (IH r' ltac:(congruence) He) as [-> ?].
        split; [reflexivity|lia].
      * intros He. destruct (IH r' ltac:(congruence) He) as [-> ?].
        split; [reflexivity|lia].
      * intros He. destruct (IH r' ltac:(congruence) He) as [-> ?].
        split; [reflexivity|lia].
      * intros He. destruct (IH r' ltac:(congruence) He) as [-> ?].
        split; [reflexivity|lia].
      * congruence.
    + simpl. intros [= <-]. destruct Hline as [-> ?]. split; [reflexivity|].
      rewrite length_app. lia.
Qed.

Lemma convert_rows_error (rows : list row_dict) (e : exn) :
  (convert_rows rows).2 = Some e → is_lookup_error e.
Proof.
  induction rows as [|row rest IH]; simpl; [discriminate|].
  destruct (convert row) as [jm|e'] eqn:Hrow.
  - destruct (convert_rows rest) as [jms e0]. exact IH.
  - simpl. intros [= <-].
    destruct (field_of row "Title") as [t|] eqn:Ht;
      [destruct (field_of row "SJR") as [s|] eqn:Hs|].
    + rewrite (convert_fields _ _ _ Ht Hs) in Hrow. discriminate.
    + destruct (convert_missing row) as (e0 & He0 & Hle); [auto|]. congruence.
    + destruct (convert_missing row) as (e0 & He0 & Hle); [auto|]. congruence.
Qed.

(** X14.  The extractor can end in a [csv.Error] only because a field is
    longer than the field limit of the [csv] module: never on a text of
    at most 131072 characters, and never with the "new-line character
    seen in unquoted field" error, whatever line ends the file uses. *)
Theorem extractor_csv_error_needs_a_long_field {W : Type} (h : handler W) (w w' : W)
    (text : pystr) (msg : string) (log : list entry) :
  run h (process_text text) w = (Uncaught (CsvError msg), log, w') →
  msg = "field larger than field limit (131072)"%string ∧
  131072 < N.of_nat (length text).
Proof.
  rewrite run_process_text.
  destruct (convert_rows (data_rows text)) as [jms [e|]] eqn:Hrows; simpl.
  - intros [= -> _ _]. pose proof (convert_rows_error (data_rows text) (CsvError msg)) as H.
    rewrite Hrows in H. destruct (H eq_refl).
  - destruct (DictReader (file_lines text)).2 as [e|] eqn:Herr; [|discriminate].
    intros [= -> _ _].
    assert (Hreader : (reader (file_lines text)).2 = Some (CsvError msg)).
    { unfold DictReader in Herr. destruct (reader (file_lines text)) as [[|fn rows] e0];
        exact Herr. }
    destruct (file_lines_ok text) as [Hlines Hlen].
    destruct (rows_from_error _ parse_reset _ Hlines ltac:(discriminate) Hreader)
      as [Hmsg Hlim].
    injection Hmsg as ->. split; [reflexivity|].
    unfold field_limit in Hlim. simpl in Hlim. lia.
Qed.

(** ** Reading back rows of plain and quoted cells *)

Lemma plain_spec (c : N) :
  plain c = true → c ≠ delimiter ∧ c ≠ quotechar ∧ c ≠ 0x0A ∧ c ≠ 0x0D.
Proof.
  unfold plain. rewrite negb_true_iff, !orb_false_iff, !N.eqb_neq. tauto.
Qed.

Lemma quotable_spec (c : N) :
  quotable c = true → c ≠ quotechar ∧ c ≠ 0x0A ∧ c ≠ 0x0D.
Proof.
  unfold quotable. rewrite negb_true_iff, !orb_false_iff, !N.eqb_neq. tauto.
Qed.

Lemma feed_app (r : Reader) (a b : pystr) :
  feed r (a ++ b) = match feed r a with Ok r' => feed r' b | Raise e => Raise e end.
Proof.
  revert r. induction a as [|c a IH]; intros r; [reflexivity|]. simpl.
  destruct (parse_process_char r (Some c)); [apply IH|reflexivity].
Qed.

Lemma plain_char_step (r : Reader) (c : N) :
  plain c = true →
  state r = START_RECORD ∨ state r = START_FIELD ∨ state r = IN_FIELD →
  N.of_nat (length (field r)) < field_limit →
  parse_process_char r (Some c)
  = Ok {| state := IN_FIELD; fields := fields r; field := field r ++ [c] |}.
Proof.
  intros Hc Hst Hlen. apply plain_spec in Hc as (Hd & Hq & H10 & H13).
  apply N.eqb_neq in Hd, Hq, H10, H13.
  unfold parse_process_char, is_newline, parse_add_char. rewrite Hd, Hq, H10, H13.
  cbn [orb].
  destruct Hst as [Hs|[Hs|Hs]]; rewrite Hs; simpl;
    (destruct (N.leb_spec field_limit (N.of_nat (length (field r)))); [lia|]);
    reflexivity.
Qed.

Lemma feed_plain_in_field (f : pystr) (fs : list pystr) (cur : pystr) :
  forallb plain f = true →
  N.of_nat (length cur + length f) <= field_limit →
  feed {| state := IN_FIELD; fields := fs; field := cur |} f
  = Ok {| state := IN_FIELD; fields := fs; field := cur ++ f |}.
Proof.
  revert cur. induction f as [|c f IH]; intros cur Hf Hlen; simpl.
  - rewrite app_nil_r. reflexivity.
  - simpl in Hf. apply andb_true_iff in Hf as [Hc Hf].
    rewrite plain_char_step; simpl in *; auto; [|lia].
    rewrite IH; [|exact Hf|rewrite length_app; simpl; lia].
    rewrite <- app_assoc. reflexivity.
Qed.

Lemma feed_plain_field (c : N) (f : pystr) (r : Reader) :
  forallb plain (c :: f) = true →
  N.of_nat (length (c :: f)) <= field_limit →
  field r = [] →
  state r = START_RECORD ∨ state r = START_FIELD →
  feed r (c :: f) = Ok {| state := IN_FIELD; fields := fields r; field := c :: f |}.
Proof.
  intros Hf Hlen Hcur Hst. simpl in Hf. apply andb_true_iff in Hf as [Hc Hf].
  cbn [feed]. rewrite plain_char_step; [|exact Hc|tauto|rewrite Hcur; reflexivity].
  rewrite Hcur. simpl. rewrite feed_plain_in_field; [reflexivity|exact Hf|].
  simpl in *. lia.
Qed.

Lemma feed_quoted_content (f : pystr) (fs : list pystr) (cur : pystr) :
  forallb quotable f = true →
  N.of_nat (length cur + length f) <= field_limit →
  feed {| state := IN_QUOTED_FIELD; fields := fs; field := cur |} f
  = Ok {| state := IN_QUOTED_FIELD; fields := fs; field := cur ++ f |}.
Proof.
  revert cur. induction f as [|c f IH]; intros cur Hf Hlen; simpl.
  - rewrite app_nil_r. reflexivity.
  - simpl in Hf. apply andb_true_iff in Hf as [Hc Hf].
    apply quotable_spec in Hc as (Hq & _). apply N.eqb_neq in Hq.
    unfold parse_process_char, parse_add_char. simpl. rewrite Hq.
    destruct (N.leb_spec field_limit (N.of_nat (length cur))); [simpl in Hlen; lia|].
    rewrite IH; [|exact Hf|rewrite length_app; simpl in *; lia].
    rewrite <- app_assoc. reflexivity.
Qed.

(** A quoted cell: the opening quote, the content, the closing quote. *)
Lemma feed_quoted_cell (f : pystr) (r : Reader) :
  forallb quotable f = true → N.of_nat (length f) <= field_limit →
  field r = [] →
  state r = START_RECORD ∨ state r = START_FIELD →
  feed r (quotechar :: f ++ [quotechar])
  = Ok {| state := QUOTE_IN_QUOTED_FIELD; fields := fields r; field := f |}.
Proof.
  intros Hf Hlen Hcur Hst. cbn [feed].
  assert (Hopen : parse_process_char r (Some quotechar)
                  = Ok {| state := IN_QUOTED_FIELD; fields := fields r; field := [] |}).
  { unfold parse_process_char. destruct Hst as [Hs|Hs]; rewrite Hs; simpl;
      unfold set_state; simpl; rewrite Hcur; reflexivity. }
  rewrite Hopen, feed_app, feed_quoted_content; [|exact Hf|simpl; lia].
  reflexivity.
Qed.

(** A cell followed by the delimiter, and a cell at the end of its
    line. *)
Lemma cell_then_delimiter (c : cell) (r : Reader) :
  cell_ok c → field r = [] →
  state r = START_RECORD ∨ state r = START_FIELD →
  feed r (cell_text c ++ [delimiter])
  = Ok {| state := START_FIELD; fields := fields r ++ [cell_value c]; field := [] |}.
Proof.
  intros Hc Hcur Hst. destruct c as [[|ch f]|f]; simpl in Hc.
  - simpl. unfold parse_process_char.
    destruct Hst as [Hs|Hs]; rewrite Hs; simpl;
      unfold set_state, parse_save_field; simpl; rewrite Hcur, ?Hs; reflexivity.
  - destruct Hc as [Hf Hlen]. cbn [cell_text cell_value].
    rewrite feed_app, (feed_plain_field ch f r Hf Hlen Hcur Hst). reflexivity.
  - destruct Hc as [Hf Hlen]. cbn [cell_text cell_value].
    rewrite feed_app, (feed_quoted_cell f r Hf Hlen Hcur Hst). reflexivity.
Qed.

Lemma cell_then_line_end (c : cell) (r : Reader) :
  cell_ok c → field r = [] →
  state r = START_FIELD ∨ (state r = START_RECORD ∧ c ≠ Plain []) →
  parse_line r (cell_text c ++ [0x0A])
  = Ok {| state := START_RECORD; fields := fields r ++ [cell_value c]; field := [] |}.
Proof.
  intros Hc Hcur Hst. destruct c as [[|ch f]|f]; simpl in Hc.
  - destruct Hst as [Hs|[_ Hne]]; [|congruence].
    simpl. unfold parse_process_char. rewrite Hs. simpl.
    unfold set_state, parse_save_field. simpl. rewrite Hcur. reflexivity.
  - destruct Hc as [Hf Hlen]. cbn [cell_text cell_value].
    rewrite parse_line_feed, (feed_plain_field ch f r Hf Hlen Hcur); [reflexivity|tauto].
  - destruct Hc as [Hf Hlen]. cbn [cell_text cell_value].
    rewrite parse_line_feed, (feed_quoted_cell f r Hf Hlen Hcur); [reflexivity|tauto].
Qed.

Lemma parse_rendered_cells (row : list cell) (r : Reader) :
  row ≠ [] → Forall cell_ok row → field r = [] →
  state r = START_FIELD ∨ (state r = START_RECORD ∧ row ≠ [Plain []]) →
  parse_line r (render_cells row)
  = Ok {| state := START_RECORD; fields := fields r ++ row_values row; field := [] |}.
Proof.
  revert r. induction row as [|c row IH]; intros r Hne Hall Hcur Hst; [congruence|].
  apply Forall_cons in Hall as [Hc Hall].
  destruct row as [|c2 rest].
  - cbn [render_cells]. apply cell_then_line_end; [exact Hc|exact Hcur|].
    destruct Hst as [Hs|[Hs Hsingle]]; [left; exact Hs|right].
    split; [exact Hs|congruence].
  - change (render_cells (c :: c2 :: rest))
      with (cell_text c ++ delimiter :: render_cells (c2 :: rest)).
    change (cell_text c ++ delimiter :: render_cells (c2 :: rest))
      with (cell_text c ++ [delimiter] ++ render_cells (c2 :: rest)).
    rewrite app_assoc, parse_line_feed, (cell_then_delimiter c r Hc Hcur); [|tauto].
    rewrite (IH {| state := START_FIELD; fields := fields r ++ [cell_value c];
                   field := [] |}
                ltac:(discriminate) Hall eq_refl (or_introl eq_refl)).
    unfold row_values. simpl. rewrite <- app_assoc. reflexivity.
Qed.

Lemma rows_from_rendered (rows : list (list cell)) :
  Forall writable rows →
  rows_from parse_reset (render_cells <$> rows) = (row_values <$> rows, None).
Proof.
  induction 1 as [|row rows (Hne & Hsingle & Hall) _ IH]; [reflexivity|].
  cbn [fmap list_fmap rows_from].
  rewrite (parse_rendered_cells row parse_reset Hne Hall eq_refl); [|auto].
  cbn [state fields app]. fold (fmap (M:=list) render_cells rows).
  fold (fmap (M:=list) row_values rows). rewrite IH. reflexivity.
Qed.

Lemma universal_newlines_id (s : pystr) :
  Forall (fun c => c ≠ 0x0D) s → universal_newlines s = s.
Proof.
  induction 1 as [|c r Hc _ IH]; [reflexivity|].
  rewrite universal_newlines_cons. apply N.eqb_neq in Hc. rewrite Hc, IH. reflexivity.
Qed.

Lemma split_lines_line (body rest : pystr) :
  0x0A ∉ body →
  split_lines (body ++ 0x0A :: rest) = (body ++ [0x0A]) :: split_lines rest.
Proof.
  induction body as [|c body IH]; intros H10; [reflexivity|].
  apply not_elem_of_cons in H10 as [Hc H10]. simpl.
  apply not_eq_sym, N.eqb_neq in Hc. rewrite Hc, (IH H10). reflexivity.
Qed.

Lemma cell_text_chars (c : cell) :
  cell_ok c → Forall (fun ch => ch ≠ 0x0A ∧ ch ≠ 0x0D) (cell_text c).
Proof.
  destruct c as [f|f]; intros [Hf _]; rewrite forallb_forall in Hf; simpl.
  - apply Forall_forall. intros ch Hch.
    apply list_elem_of_In, Hf, plain_spec in Hch. tauto.
  - constructor; [split; discriminate|]. apply Forall_app. split.
    + apply Forall_forall. intros ch Hch.
      apply list_elem_of_In, Hf, quotable_spec in Hch. tauto.
    + constructor; [split; discriminate|constructor].
Qed.

Lemma render_cells_shape (row : list cell) :
  Forall cell_ok row →
  ∃ body, render_cells row = body ++ [0x0A] ∧
          Forall (fun c => c ≠ 0x0A ∧ c ≠ 0x0D) body.
Proof.
  induction 1 as [|c row Hc Hrow (body & Hbody & Hchars)].
  - exists []. split; [reflexivity|constructor].
  - destruct row as [|c2 rest].
    + exists (cell_text c). split; [reflexivity|apply cell_text_chars; exact Hc].
    + exists (cell_text c ++ delimiter :: body). split.
      * change (render_cells (c :: c2 :: rest))
          with (cell_text c ++ delimiter :: render_cells (c2 :: rest)).
        rewrite Hbody, <- app_assoc. reflexivity.
      * apply Forall_app. split; [apply cell_text_chars; exact Hc|].
        constructor; [split; discriminate|exact Hchars].
Qed.

Lemma split_lines_concat (lines : list pystr) :
  Forall (fun l => ∃ body, l = body ++ [0x0A] ∧
                           Forall (fun c => c ≠ 0x0A ∧ c ≠ 0x0D) body) lines →
  split_lines (concat lines) = lines ∧ Forall (fun c => c ≠ 0x0D) (concat lines).
Proof.
  induction 1 as [|l lines (body & -> & Hbody) _ [IH Hcr]]; [split; [reflexivity|constructor]|].
  cbn [concat]. split.
  - rewrite <- app_assoc. cbn [app]. rewrite split_lines_line, IH; [reflexivity|].
    intros Hin. rewrite Forall_forall in Hbody. destruct (Hbody _ Hin) as [H _].
    congruence.
  - apply Forall_app. split; [|exact Hcr]. apply Forall_app. split.
    + eapply Forall_impl; [exact Hbody|]. intros c [_ Hc]. exact Hc.
    + constructor; [discriminate|constructor].
Qed.

Lemma file_lines_render (rows : list (list cell)) :
  Forall (Forall cell_ok) rows →
  file_lines (render rows) = render_cells <$> rows.
Proof.
  intros Hrows. unfold file_lines, render.
  destruct (split_lines_concat (render_cells <$> rows)) as [Hsplit Hcr].
  { apply Forall_fmap. eapply Forall_impl; [exact Hrows|].
    intros row Hrow. apply render_cells_shape. exact Hrow. }
  rewrite (universal_newlines_id _ Hcr). exact Hsplit.
Qed.

Lemma reader_rendered (rows : list (list cell)) :
  Forall writable rows →
  reader (file_lines (render rows)) = (row_values <$> rows, None).
Proof.
  intros Hrows. rewrite file_lines_render.
  - apply rows_from_rendered. exact Hrows.
  - eapply Forall_impl; [exact Hrows|]. intros row (_ & _ & H). exact H.
Qed.

(** X16.  The reader splits lines at the semicolons outside quotes: a text of
    rows written one per line, with [';'] between cells that are plain
    or between double quotes, is read back as exactly the fields the
    cells stand for, the quotes removed and a [';'] between quotes
    kept, with no error. *)
Theorem reader_reads_back_written_rows (rows : list (list cell)) :
  Forall writable rows →
  reader (file_lines (render rows)) = (row_values <$> rows, None).
Proof.
  intros Hrows.
  assert (Hcells : Forall (Forall cell_ok) rows).
  { eapply Forall_impl; [exact Hrows|]. intros row (_ & _ & H). exact H. }
  rewrite (file_lines_render rows Hcells). unfold reader.
  apply rows_from_rendered. exact Hrows.
Qed.

(** X17.  A file with a header line and nothing else gives no record and no
    error, whatever columns the header names. *)
Theorem header_only_file_gives_no_record {W : Type} (h : handler W) (w : W)
    (header : list cell) :
  writable header →
  run h (process_text (render [header])) w = (Returned [], [], w).
Proof.
  intros Hheader.
  assert (Hreader : reader (file_lines (render [header])) = ([row_values header], None)).
  { apply (reader_rendered [header]). constructor; [exact Hheader|constructor]. }
  rewrite run_process_text. unfold data_rows, DictReader. rewrite Hreader. reflexivity.
Qed.




(** ** Scores with more than one separator *)























(** ** A field longer than the field limit *)

Lemma plain_char_raise (r : Reader) (c : N) :
  plain c = true →
  state r = START_RECORD ∨ state r = START_FIELD ∨ state r = IN_FIELD →
  field_limit <= N.of_nat (length (field r)) →
  parse_process_char r (Some c) = Raise limit_error.
Proof.
  intros Hc Hst Hlen. apply plain_spec in Hc as (Hd & Hq & H10 & H13).
  apply N.eqb_neq in Hd, Hq, H10, H13.
  unfold parse_process_char, is_newline, parse_add_char. rewrite Hd, Hq, H10, H13.
  cbn [orb].
  destruct Hst as [Hs|[Hs|Hs]]; rewrite Hs; simpl;
    (destruct (N.leb_spec field_limit (N.of_nat (length (field r)))); [|lia]);
    reflexivity.
Qed.

Lemma parse_line_long (f : pystr) (r : Reader) (tail : pystr) :
  forallb plain f = true →
  state r = START_RECORD ∨ state r = START_FIELD ∨ state r = IN_FIELD →
  N.of_nat (length (field r)) <= field_limit →
  field_limit < N.of_nat (length (field r) + length f) →
  parse_line r (f ++ tail) = Raise limit_error.
Proof.
  revert r. induction f as [|c f IH]; intros r Hf Hst Hle Hlt; simpl in *; [lia|].
  apply andb_true_iff in Hf as [Hc Hf].
  destruct (N.lt_ge_cases (N.of_nat (length (field r))) field_limit) as [Hlen|Hlen].
  - rewrite (plain_char_step r c Hc Hst Hlen). apply IH; simpl.
    + exact Hf.
    + tauto.
    + rewrite length_app. simpl. lia.
    + rewrite length_app. simpl. lia.
  - rewrite (plain_char_raise r c Hc Hst Hlen). reflexivity.
Qed.

Lemma universal_newlines_app (a b : pystr) :
  Forall (fun c => c ≠ 0x0D) a →
  universal_newlines (a ++ b) = a ++ universal_newlines b.
Proof.
  induction 1 as [|c a Hc _ IH]; [reflexivity|].
  cbn [app]. rewrite universal_newlines_cons. apply N.eqb_neq in Hc.
  rewrite Hc, IH. reflexivity.
Qed.

Lemma split_lines_first (a b : pystr) :
  0x0A ∉ a → a ≠ [] → ∃ l ls, split_lines (a ++ b) = (a ++ l) :: ls.
Proof.
  induction a as [|c a IH]; intros H10 Hne; [congruence|].
  apply not_elem_of_cons in H10 as [Hc H10]. apply not_eq_sym, N.eqb_neq in Hc.
  cbn [app split_lines]. rewrite Hc. destruct a as [|c' a].
  - simpl. destruct (split_lines b) as [|l ls]; [exists [], []|exists l, ls]; reflexivity.
  - destruct (IH H10 ltac:(discriminate)) as (l & ls & ->). exists l, ls. reflexivity.
Qed.

Lemma long_field_reader (long rest : pystr) :
  forallb plain long = true →
  field_limit < N.of_nat (length long) →
  reader (file_lines (long ++ rest)) = ([], Some limit_error).
Proof.
  intros Hplain Hlong.
  assert (Hchars : Forall (fun c => c ≠ 0x0A ∧ c ≠ 0x0D) long).
  { apply Forall_forall. intros c Hc. rewrite forallb_forall in Hplain.
    apply list_elem_of_In in Hc. apply Hplain, plain_spec in Hc. tauto. }
  assert (Hlines : ∃ l ls, file_lines (long ++ rest) = (long ++ l) :: ls).
  { unfold file_lines. rewrite universal_newlines_app.
    - apply split_lines_first.
      + intros Hin. rewrite Forall_forall in Hchars. destruct (Hchars _ Hin). congruence.
      + intros ->. simpl in Hlong. lia.
    - eapply Forall_impl; [exact Hchars|]. intros c [_ Hc]. exact Hc. }
  destruct Hlines as (l & ls & Hlines).
  rewrite Hlines. unfold reader. cbn [rows_from].
  rewrite parse_line_long; [reflexivity|exact Hplain|left; reflexivity| |exact Hlong].
  simpl. lia.
Qed.

(** X15.  The script leaves the field limit of the [csv] module as it is: a
    file that starts with a field of more than 131072 characters makes
    the extractor raise [csv.Error], with no record and nothing
    printed. *)
Theorem overlong_field_raises_csv_error {W : Type} (h : handler W) (w : W)
    (long rest : pystr) :
  forallb plain long = true →
  field_limit < N.of_nat (length long) →
  run h (process_text (long ++ rest)) w
  = (Uncaught (CsvError "field larger than field limit (131072)"), [], w).
Proof.
  intros Hplain Hlong. pose proof (long_field_reader long rest Hplain Hlong) as Hreader.
  rewrite run_process_text.
  assert (Hrows : data_rows (long ++ rest) = []).
  { unfold data_rows, DictReader. rewrite Hreader. reflexivity. }
  assert (Herr : (DictReader (file_lines (long ++ rest))).2 = Some limit_error).
  { unfold DictReader. rewrite Hreader. reflexivity. }
  rewrite Hrows, Herr. reflexivity.
Qed.

(** ** The outcomes of [main] *)


Ltac locate :=
  repeat first [ apply list_elem_of_here | apply list_elem_of_further
               | (apply elem_of_app; right) ].

Lemma prints_app (a b : list entry) : prints (a ++ b) = prints a ++ prints b.
Proof. apply omap_app. Qed.

Lemma prints_fmap (ms : list message) : prints (EPrint <$> ms) = ms.
Proof. induction ms as [|m ms IH]; [reflexivity|]. cbn. f_equal. exact IH. Qed.

(** X21.  The console of a run of [main] that returns: the file name, one
    warning per row whose score does not parse, the count and the
    sample, the deletion line if the deletion succeeded, the creation
    line, the loading line, the row count of the fetched table metadata
    and the four closing lines with the table id in the third; nothing
    else and in this order. *)
Theorem main_success_console {W : Type} (h : handler W) (args : Args)
    (w w' : W) (log : list entry) :
  run h (main args) w = (Returned tt, log, w') →
  let ref := table_ref_of (project_id args) (dataset_id args) (table_id args) in
  ∃ text js info deleted,
    EReadText (csv_file args) (Ok text) ∈ log ∧ extract text = Ok js ∧
    EGetTable ref (Ok info) ∈ log ∧
    (deleted = [] ∧ (∃ e, EDeleteTable ref (Raise e) ∈ log)
     ∨ deleted = [[FLit "Deleted existing table "; FStr ref]]
       ∧ EDeleteTable ref (Ok tt) ∈ log) ∧
    prints log =
      processing args :: omap row_warning (data_rows text) ++ report js ++ deleted
      ++ [ [FLit "Created table "; FStr ref]; loading;
           [FLit "Loaded "; FInt (num_rows info); FLit " rows into "; FStr ref] ]
      ++ closing args.
Proof.
  intros H ref. rewrite run_main in H.
  destruct (h _ (PathExists (csv_file args)) w) as [[|] w1]; [|discriminate].
  rewrite run_process_scimagojr_csv in H.
  destruct (h _ (ReadText (csv_file args)) _) as [[text|e] w2]; [|discriminate].
  destruct (extract text) as [js|e] eqn:Hex; [|discriminate].
  destruct (extract_ok_inv _ _ Hex) as (_ & jms & Hjms & _).
  assert (Hwarn : warnings (convert_rows (data_rows text)).1
                  = omap row_warning (data_rows text)).
  { rewrite Hjms. apply warnings_row_warning, convert_rows_none_inv, Hjms. }
  rewrite Hwarn in H. clear Hwarn Hjms jms.
  rewrite run_create_bigquery_table in H. fold ref in H.
  destruct (h _ (NewClient (project_id args)) _) as [[[]|e] w3]; [|discriminate].
  destruct (h _ (NewTable ref table_schema) w3) as [[[]|e] w4]; [|discriminate].
  destruct (h _ (DeleteTable ref) w4) as [[[]|e3] w5]; cbn [fst snd] in H;
    (destruct (h _ (CreateTable ref table_schema) _) as [[[]|e] w6]; [|discriminate]);
    rewrite run_load_data_to_bigquery in H; fold ref in H;
    (destruct (h _ (NewClient (project_id args)) _) as [[[]|e] w7]; [|discriminate]);
    (destruct (h _ (LoadTableFromJson _ _ _) w7) as [[job|e] w8]; [|discriminate]);
    (destruct (h _ (JobResult job) w8) as [[[]|e] w9]; [|discriminate]);
    (destruct (h _ (GetTable ref) w9) as [[info|e] w10]; [|discriminate]);
    injection H as <- _; exists text, js, info.
  - exists [[FLit "Deleted existing table "; FStr ref]].
    split; [locate|]. split; [exact Hex|]. split; [locate|].
    split; [right; split; [reflexivity|locate]|].
    transitivity
      (prints
         ([EPathExists (csv_file args) true] ++ (EPrint <$> [processing args])
          ++ [EReadText (csv_file args) (Ok text)]
          ++ (EPrint <$> omap row_warning (data_rows text))
          ++ (EPrint <$> report js)
          ++ [ENewClient (project_id args) (Ok tt); ENewTable ref table_schema (Ok tt);
              EDeleteTable ref (Ok tt)]
          ++ (EPrint <$> [[FLit "Deleted existing table "; FStr ref]])
          ++ [ECreateTable ref table_schema (Ok tt)]
          ++ (EPrint <$> [[FLit "Created table "; FStr ref]; loading])
          ++ [ENewClient (project_id args) (Ok tt);
              ELoadTableFromJson js ref
                {| schema := table_schema; write_disposition := WRITE_TRUNCATE |}
                (Ok job);
              EJobResult job (Ok tt); EGetTable ref (Ok info)]
          ++ (EPrint <$> [FLit "Loaded "; FInt (num_rows info); FLit " rows into ";
                          FStr ref] :: closing args)));
      [reflexivity|].
    rewrite !prints_app, !prints_fmap. reflexivity.
  - exists [].
    split; [locate|]. split; [exact Hex|]. split; [locate|].
    split; [left; split; [reflexivity|exists e3; locate]|].
    transitivity
      (prints
         ([EPathExists (csv_file args) true] ++ (EPrint <$> [processing args])
          ++ [EReadText (csv_file args) (Ok text)]
          ++ (EPrint <$> omap row_warning (data_rows text))
          ++ (EPrint <$> report js)
          ++ [ENewClient (project_id args) (Ok tt); ENewTable ref table_schema (Ok tt);
              EDeleteTable ref (Raise e3); ECreateTable ref table_schema (Ok tt)]
          ++ (EPrint <$> [[FLit "Created table "; FStr ref]; loading])
          ++ [ENewClient (project_id args) (Ok tt);
              ELoadTableFromJson js ref
                {| schema := table_schema; write_disposition := WRITE_TRUNCATE |}
                (Ok job);
              EJobResult job (Ok tt); EGetTable ref (Ok info)]
          ++ (EPrint <$> [FLit "Loaded "; FInt (num_rows info); FLit " rows into ";
                          FStr ref] :: closing args)));
      [reflexivity|].
    rewrite !prints_app, !prints_fmap. reflexivity.
Qed.

(** ** The further properties at sample inputs *)

Ltac found := vm_compute; repeat first [apply list_elem_of_here | apply list_elem_of_further].

Lemma main_warehouse_only_after_extraction_witness :
  ∃ text js,
    EReadText (csv_file Sample.args) (Ok text)
      ∈ (run Env.step (main Sample.args) Sample.stale_world).1.2 ∧
    extract text = Ok js.
Proof.
  apply (main_warehouse_only_after_extraction Env.step Sample.args Sample.stale_world
           (run Env.step (main Sample.args) Sample.stale_world).2
           (run Env.step (main Sample.args) Sample.stale_world).1.1
           (run Env.step (main Sample.args) Sample.stale_world).1.2
           (ENewClient (lit "proj") (Ok tt))).
  - vm_compute. reflexivity.
  - found.
  - reflexivity.
Defined.

Lemma main_loads_the_extracted_records_witness :
  let data := [{| title := lit "Cell"; sjr := Sample.float_14_1 |}] in
  let cfg := {| schema := table_schema; write_disposition := WRITE_TRUNCATE |} in
  let log := (run Env.step (main Sample.args) Sample.stale_world).1.2 in
  Sample.table_ref
    = table_ref_of (project_id Sample.args) (dataset_id Sample.args)
        (table_id Sample.args) ∧
  cfg = {| schema := table_schema; write_disposition := WRITE_TRUNCATE |} ∧
  ECreateTable Sample.table_ref table_schema (Ok tt) ∈ log ∧
  ∃ text, EReadText (csv_file Sample.args) (Ok text) ∈ log ∧ extract text = Ok data.
Proof.
  intros data cfg log.
  apply (main_loads_the_extracted_records Env.step Sample.args Sample.stale_world
           (run Env.step (main Sample.args) Sample.stale_world).2
           (run Env.step (main Sample.args) Sample.stale_world).1.1
           log data Sample.table_ref cfg
           (Ok {| job_rows := data; job_destination := Sample.table_ref;
                  job_config := cfg |})).
  - vm_compute. reflexivity.
  - found.
Defined.

Lemma main_done_only_on_success_witness :
  (run Env.step (main Sample.args) Sample.stale_world).1.1 = Returned tt ∧
  ∃ job info,
    EJobResult job (Ok tt) ∈ (run Env.step (main Sample.args) Sample.stale_world).1.2 ∧
    EGetTable (table_ref_of (project_id Sample.args) (dataset_id Sample.args)
                 (table_id Sample.args)) (Ok info)
      ∈ (run Env.step (main Sample.args) Sample.stale_world).1.2.
Proof.
  apply (main_done_only_on_success Env.step Sample.args Sample.stale_world
           (run Env.step (main Sample.args) Sample.stale_world).2).
  - vm_compute. reflexivity.
  - found.
Defined.

(** The file with one score that does not parse: one warning. *)
Lemma extractor_prints_one_warning_per_unparsable_row_witness :
  (run Env.step (process_text Sample.mixed_text) Sample.empty_world).1.2
    = EPrint <$> omap row_warning (data_rows Sample.mixed_text) ∧
  (run Env.step (process_text Sample.mixed_text) Sample.empty_world).2
    = printed Env.step (omap row_warning (data_rows Sample.mixed_text)) Sample.empty_world.
Proof.
  apply (extractor_prints_one_warning_per_unparsable_row Env.step Sample.empty_world
           _ Sample.mixed_text
           [ {| title := lit "Cell"; sjr := Sample.float_14_1 |};
             {| title := lit "Lancet"; sjr := S754_zero false |};
             {| title := lit "Acta"; sjr := S754_infinity false |};
             {| title := lit "Brain"; sjr := S754_nan |} ]).
  vm_compute. reflexivity.
Defined.

Example mixed_text_warnings :
  omap row_warning (data_rows Sample.mixed_text) = [warning (lit "N/A") (lit "Lancet")].
Proof. vm_compute. reflexivity. Qed.




Example six_text_sample_lines :
  sample_line <$> take 5 Cases.six_records =
  [ [FLit "  "; FStr (lit "Ca-A Cancer Journal for Clinicians"); FLit ": ";
     FFloat (S754_finite false 7465701544785084 (-46))];
    [FLit "  "; FStr (lit "Cell"); FLit ": ";
     FFloat (S754_finite false 6896136929411072 (-48))];
    [FLit "  "; FStr (lit "Nature"); FLit ": "; FFloat (S754_zero false)];
    [FLit "  "; FStr (lit "Lancet"); FLit ": ";
     FFloat (S754_finite false 6811694436397875 (-49))];
    [FLit "  "; FStr (lit "Science"); FLit ": ";
     FFloat (S754_finite false 6192449487634432 (-49))] ].
Proof. reflexivity. Qed.

(** The client cannot be constructed: the run ends there. *)
Lemma create_construction_failure_changes_no_table_witness :
  (run Env.step (create_bigquery_table (lit "proj") (lit "journal_rank")
                   (lit "scimagojr_2024")) Cases.no_credentials_world).1.1
    = Uncaught (EnvError "DefaultCredentialsError") ∧
  Forall (fun x => is_table_change x = false)
    (run Env.step (create_bigquery_table (lit "proj") (lit "journal_rank")
                     (lit "scimagojr_2024")) Cases.no_credentials_world).1.2.
Proof.
  apply (create_construction_failure_changes_no_table Env.step
           Cases.no_credentials_world
           (run Env.step (create_bigquery_table (lit "proj") (lit "journal_rank")
                            (lit "scimagojr_2024")) Cases.no_credentials_world).2
           (lit "proj") (lit "journal_rank") (lit "scimagojr_2024")).
  - vm_compute. reflexivity.
  - left. found.
Defined.

(** The wait for the load job raises. *)
Lemma load_failure_is_the_first_raise_witness :
  let log := (run Env.step
                (load_data_to_bigquery (lit "proj") (lit "journal_rank")
                   (lit "scimagojr_2024") Cases.six_records)
                Cases.failing_job_world).1.2 in
  ∃ pre last, log = pre ++ [last] ∧ raised last = Some (EnvError "BadRequest") ∧
    Forall (fun x => raised x = None) pre ∧
    ∀ m, EPrint m ∉ log.
Proof.
  intros log.
  apply (load_failure_is_the_first_raise Env.step Cases.failing_job_world
           (run Env.step
              (load_data_to_bigquery (lit "proj") (lit "journal_rank")
                 (lit "scimagojr_2024") Cases.six_records)
              Cases.failing_job_world).2
           (lit "proj") (lit "journal_rank") (lit "scimagojr_2024") Cases.six_records).
  vm_compute. reflexivity.
Defined.

(** Over a table of another shape with two rows. *)
Lemma env_create_leaves_an_empty_table_witness :
  let w' := (run Env.step (create_bigquery_table (lit "proj") (lit "journal_rank")
                             (lit "scimagojr_2024")) Sample.stale_world).2 in
  let ref := table_ref_of (lit "proj") (lit "journal_rank") (lit "scimagojr_2024") in
  Sample.table_ref = ref ∧
  Env.tables w' !! ref
    = Some {| Env.table_schema := table_schema; Env.table_rows := [] |} ∧
  ∀ other, other ≠ ref →
           Env.tables w' !! other = Env.tables Sample.stale_world !! other.
Proof.
  intros w' ref.
  apply (env_create_leaves_an_empty_table (lit "proj") (lit "journal_rank")
           (lit "scimagojr_2024") Sample.stale_world w' Sample.table_ref
           (run Env.step (create_bigquery_table (lit "proj") (lit "journal_rank")
                            (lit "scimagojr_2024")) Sample.stale_world).1.2).
  vm_compute. reflexivity.
Defined.

(** The deletion of the existing table is refused: the creation
    conflicts and the old table stays. *)
Lemma env_failed_delete_keeps_the_table_witness :
  let ref := table_ref_of (lit "proj") (lit "journal_rank") (lit "scimagojr_2024") in
  let r := run Env.step (create_bigquery_table (lit "proj") (lit "journal_rank")
                           (lit "scimagojr_2024")) Cases.locked_world in
  (∃ e', r.1.1 = Uncaught e' ∧ ECreateTable ref table_schema (Raise e') ∈ r.1.2) ∧
  Env.tables r.2 = Env.tables Cases.locked_world.
Proof.
  intros ref r.
  apply (env_failed_delete_keeps_the_table (lit "proj") (lit "journal_rank")
           (lit "scimagojr_2024") Cases.locked_world r.2 r.1.1 r.1.2
           (EnvError "Forbidden") Cases.stale_table).
  - vm_compute. reflexivity.
  - vm_compute. reflexivity.
  - found.
Defined.

(** The load job fails after the stale table has been replaced. *)
Lemma env_failed_load_leaves_an_empty_table_witness :
  let r := run Env.step (main Sample.args) Cases.failing_load_world in
  r.1.1 = Uncaught (EnvError "BadRequest") ∧
  Env.tables r.2 !! table_ref_of (project_id Sample.args) (dataset_id Sample.args)
                      (table_id Sample.args)
    = Some {| Env.table_schema := table_schema; Env.table_rows := [] |}.
Proof.
  intros r.
  apply (env_failed_load_leaves_an_empty_table Sample.args Cases.failing_load_world
           r.2 r.1.1 r.1.2
           {| job_rows := [{| title := lit "Cell"; sjr := Sample.float_14_1 |}];
              job_destination := Sample.table_ref;
              job_config := {| schema := table_schema;
                               write_disposition := WRITE_TRUNCATE |} |}).
  - vm_compute. reflexivity.
  - found.
Defined.


Lemma extractor_csv_error_needs_a_long_field_witness :
  "field larger than field limit (131072)"%string
    = "field larger than field limit (131072)"%string ∧
  131072 < N.of_nat (length (Cases.long_text ++ lit ";SJR")).
Proof.
  apply (extractor_csv_error_needs_a_long_field Env.step Sample.empty_world
           Sample.empty_world (Cases.long_text ++ lit ";SJR") _ []).
  rewrite run_process_text. unfold data_rows, DictReader.
  rewrite (long_field_reader Cases.long_text (lit ";SJR"));
    [reflexivity | vm_compute; reflexivity | vm_compute; reflexivity].
Defined.

Lemma overlong_field_raises_csv_error_witness :
  run Env.step (process_text (Cases.long_text ++ lit ";SJR")) Sample.empty_world
  = (Uncaught (CsvError "field larger than field limit (131072)"), [],
     Sample.empty_world).
Proof.
  apply (overlong_field_raises_csv_error Env.step Sample.empty_world
           Cases.long_text (lit ";SJR"));
    vm_compute; reflexivity.
Defined.

Ltac cells_ok :=
  repeat first [ apply Forall_nil_2 | apply Forall_cons_2 ];
  (split; [reflexivity | vm_compute; discriminate]).

Ltac row_ok := split; [discriminate | split; [discriminate | cells_ok]].

Lemma reader_reads_back_written_rows_witness :
  reader (file_lines (render (Cases.quoted_header :: Cases.quoted_rows)))
  = (row_values <$> Cases.quoted_header :: Cases.quoted_rows, None).
Proof.
  apply (reader_reads_back_written_rows (Cases.quoted_header :: Cases.quoted_rows)).
  repeat first [ apply Forall_nil_2 | apply Forall_cons_2 ]; row_ok.
Defined.

Example quoted_rows_text :
  render (Cases.quoted_header :: Cases.quoted_rows) =
  [0x52; 0x61; 0x6E; 0x6B; 0x3B; 0x22; 0x54; 0x69; 0x74; 0x6C; 0x65; 0x22; 0x3B;
   0x53; 0x4A; 0x52; 0x0A]
  ++ [0x31; 0x3B; 0x22] ++ lit "Cell; Host and Microbe" ++ [0x22; 0x3B]
  ++ lit "7,1" ++ [0x0A] ++ lit "2;Brain;4,2;Q1" ++ [0x0A].
Proof. vm_compute. reflexivity. Qed.

Lemma header_only_file_gives_no_record_witness :
  run Env.step (process_text (render [Cases.quoted_header])) Sample.empty_world
  = (Returned [], [], Sample.empty_world).
Proof.
  apply (header_only_file_gives_no_record Env.step Sample.empty_world
           Cases.quoted_header).
  row_ok.
Defined.


Example quoted_rows_records :
  extract (render (Cases.quoted_header :: Cases.quoted_rows)) =
  Ok [ {| title := lit "Cell; Host and Microbe";
          sjr := S754_finite false 7993889338582630 (-50) |};
       {| title := lit "Brain"; sjr := S754_finite false 4728779608739021 (-50) |} ].
Proof. vm_compute. reflexivity. Qed.



(** The end-to-end scenario over the stale table. *)
Lemma main_success_console_witness :
  let log := (run Env.step (main Sample.args) Sample.stale_world).1.2 in
  let ref := table_ref_of (project_id Sample.args) (dataset_id Sample.args)
               (table_id Sample.args) in
  ∃ text js info deleted,
    EReadText (csv_file Sample.args) (Ok text) ∈ log ∧ extract text = Ok js ∧
    EGetTable ref (Ok info) ∈ log ∧
    (deleted = [] ∧ (∃ e, EDeleteTable ref (Raise e) ∈ log)
     ∨ deleted = [[FLit "Deleted existing table "; FStr ref]]
       ∧ EDeleteTable ref (Ok tt) ∈ log) ∧
    prints log =
      processing Sample.args :: omap row_warning (data_rows text) ++ report js ++ deleted
      ++ [ [FLit "Created table "; FStr ref]; loading;
           [FLit "Loaded "; FInt (num_rows info); FLit " rows into "; FStr ref] ]
      ++ closing Sample.args.
Proof.
  intros log.
  apply (main_success_console Env.step Sample.args Sample.stale_world
           (run Env.step (main Sample.args) Sample.stale_world).2 log).
  vm_compute. reflexivity.
Defined.

Example end_to_end_console :
  prints (run Env.step (main Sample.args) Sample.stale_world).1.2 =
  [ [FLit "Processing CSV file: "; FStr (lit "scimagojr_2024.csv")];
    [FLit "Extracted "; FInt 1; FLit " journal entries"];
    [newline; FLit "Sample data (first 5 entries):"];
    [FLit "  "; FStr (lit "Cell"); FLit ": "; FFloat Sample.float_14_1];
    [newline; FLit "Creating BigQuery table..."];
    [FLit "Deleted existing table "; FStr Sample.table_ref];
    [FLit "Created table "; FStr Sample.table_ref];
    [FLit "Loading data into BigQuery..."];
    [FLit "Loaded "; FInt 1; FLit " rows into "; FStr Sample.table_ref];
    [newline; FLit "Done! Journal data has been loaded into BigQuery."];
    [newline; FLit "To update your application to use this new table:"];
    [FLit "1. Update the query in fetch_journal_impact_data() in main.py to use '";
     FStr (lit "scimagojr_2024"); FLit "' instead of 'scimagojr_2023'"];
    [FLit "2. Redeploy the Cloud Function"] ].
Proof. vm_compute. reflexivity. Qed.
